(** * Project-management extension: tree view, overview and chat participant

    A shallow embedding of the TypeScript sources

    - [chat-sample/src/projectManagementTreeView.ts]
      ([ProjectManagementTreeDataProvider], [FileItem]),
    - [chat-sample/src/projectManager.ts] ([ProjectManagerProvider]),
    - the project-manager chat participant
      ([registerProjectManagerChatParticipant]),
    - [chat-sample/src/extension.ts] ([activate]),

    together with the properties of these functions.  JavaScript
    exceptions are values of [Exn]; code that can throw, logs, notifies or
    touches the file system runs in the state-and-exception monad [Eff].
    The services of the host (Node's [fs] and [path], the editor's
    workspace search, the language model) are not part of the repository:
    the file system is an interface ([FileSystem]) of which [SimFs] is an
    executable instance, the other services are given by the records
    [Host] and [ChatRequest]. *)

From Stdlib Require Import List String Ascii Arith NArith Bool Lia DecimalString.
Import ListNotations.
Local Open Scope string_scope.
Local Open Scope list_scope.

Set Implicit Arguments.

(* ================================================================== *)
(** * JavaScript values: strings, numbers, exceptions *)

(** Concatenation inside template strings. *)
Infix "+++" := String.append (right associativity, at level 60).

(** The line feed of the template strings. *)
Definition nl : string := String (ascii_of_nat 10) EmptyString.

(** [String.prototype.endsWith]. *)
Definition endsWith (s suffix : string) : bool :=
  Nat.leb (String.length suffix) (String.length s) &&
  String.eqb
    (substring (String.length s - String.length suffix) (String.length suffix) s)
    suffix.

(** [String.prototype.includes]. *)
Fixpoint includes (s sub : string) : bool :=
  prefix sub s ||
  match s with
  | EmptyString => false
  | String _ s' => includes s' sub
  end.

(** [String.prototype.toLowerCase] on the ASCII letters. *)
Definition lower_ascii (c : ascii) : ascii :=
  let n := nat_of_ascii c in
  if Nat.leb 65 n && Nat.leb n 90 then ascii_of_nat (n + 32) else c.

Fixpoint toLowerCase (s : string) : string :=
  match s with
  | EmptyString => EmptyString
  | String c s' => String (lower_ascii c) (toLowerCase s')
  end.

(** [s.split(sep).pop()] for a separator that matches one character: the
    text after the last separator (all of [s] when there is none). *)
Fixpoint split_pop_from (sep : ascii -> bool) (s cur : string) : string :=
  match s with
  | EmptyString => cur
  | String c s' =>
      if sep c then split_pop_from sep s' s'
      else split_pop_from sep s' cur
  end.

Definition split_pop (sep : ascii -> bool) (s : string) : string :=
  split_pop_from sep s s.

(** The separators ['/'] and [/[\\/]/]. *)
Definition is_slash (c : ascii) : bool := Ascii.eqb c "/"%char.

Definition is_backslash (c : ascii) : bool := Ascii.eqb c (ascii_of_nat 92).

Definition is_any_slash (c : ascii) : bool := is_backslash c || is_slash c.

(** [s.replace(/\\/g, '\\\\')]: every backslash is written twice. *)
Fixpoint double_backslashes (s : string) : string :=
  match s with
  | EmptyString => EmptyString
  | String c s' =>
      if is_backslash c then String c (String c (double_backslashes s'))
      else String c (double_backslashes s')
  end.

(** The double quote inside the markup templates. *)
Definition dq : string := String (ascii_of_nat 34) EmptyString.

(** Decimal rendering of a number inside a template string. *)
Definition nat_to_string (n : nat) : string :=
  NilZero.string_of_uint (Nat.to_uint n).

Definition N_to_string (n : N) : string :=
  NilZero.string_of_uint (N.to_uint n).

(** [(bytes / 1024).toFixed(2)].  The quotient by 1024 is exact in binary
    floating point for every size below 2^53, and [toFixed] picks the
    integer [n] with [n / 100] nearest to it, the larger one on a tie. *)
Definition kb_toFixed2 (bytes : N) : string :=
  let n := ((bytes * 100 + 512) / 1024)%N in
  N_to_string (n / 100) +++ "." +++
  N_to_string ((n mod 100) / 10) +++ N_to_string (n mod 10).

(** [a || b] on strings: the empty string and [undefined] are falsy. *)
Definition or_else (a : option string) (b : string) : string :=
  match a with
  | Some s => if String.eqb s EmptyString then b else s
  | None => b
  end.

(** What a [catch] clause can receive. [LanguageModelError] is a subclass
    of [Error]; [Thrown] is a value that is not an [Error] object, kept as
    its [String(...)] rendering. *)
Inductive Exn : Type :=
| LanguageModelError (message code : string)
| Error (message : string)
| Thrown (rendering : string).

(** [err instanceof vscode.LanguageModelError]. *)
Definition instanceof_LanguageModelError (e : Exn) : bool :=
  match e with
  | LanguageModelError _ _ => true
  | _ => false
  end.

(** [error instanceof Error ? error.message : String(error)]. *)
Definition message_of (e : Exn) : string :=
  match e with
  | LanguageModelError m _ => m
  | Error m => m
  | Thrown r => r
  end.

(* ================================================================== *)
(** * The state-and-exception monad *)

Section Effects.
Context {St : Type}.

Definition Eff (A : Type) : Type := St -> St * (Exn + A).

Definition ret {A} (a : A) : Eff A := fun s => (s, inr a).

Definition bind {A B} (m : Eff A) (k : A -> Eff B) : Eff B :=
  fun s =>
    match m s with
    | (s', inr a) => k a s'
    | (s', inl e) => (s', inl e)
    end.

Definition throw {A} (e : Exn) : Eff A := fun s => (s, inl e).

(** [try { body } catch (e) { handler e }]: the effects of [body] up to
    the throw are kept. *)
Definition try_catch {A} (body : Eff A) (handler : Exn -> Eff A) : Eff A :=
  fun s =>
    match body s with
    | (s', inr a) => (s', inr a)
    | (s', inl e) => handler e s'
    end.

Definition gets {A} (f : St -> A) : Eff A := fun s => (s, inr (f s)).

Definition modify (f : St -> St) : Eff unit := fun s => (f s, inr tt).

(** A host call that returns or throws without touching the state. *)
Definition lift {A} (r : Exn + A) : Eff A := fun s => (s, r).

(** [items.map(f)] for a callback that can throw: the elements are
    visited from the left and the first throw abandons the array. *)
Fixpoint mapE {A B} (f : A -> Eff B) (l : list A) : Eff (list B) :=
  match l with
  | [] => ret []
  | x :: xs =>
      bind (f x) (fun y =>
      bind (mapE f xs) (fun ys =>
      ret (y :: ys)))
  end.

(** [for (const x of l) { body x }]. *)
Fixpoint forEach {A} (body : A -> Eff unit) (l : list A) : Eff unit :=
  match l with
  | [] => ret tt
  | x :: xs => bind (body x) (fun _ => forEach body xs)
  end.
End Effects.

Arguments Eff : clear implicits.

Declare Scope eff_scope.
Delimit Scope eff_scope with eff.
Notation "x <- m ;; k" := (bind m (fun x => k))
  (at level 100, m at next level, right associativity) : eff_scope.
Notation "m ;; k" := (bind m (fun _ => k))
  (at level 100, right associativity) : eff_scope.
Notation "'when' c 'then' m" := (if c then m else ret tt)
  (at level 99, right associativity) : eff_scope.
Local Open Scope eff_scope.

(* ================================================================== *)
(** * What the extension does to its host *)

(** [vscode.Uri]: the path component and the platform's file-system path. *)
Record Uri : Type := mkUri {
  path : string;
  fsPath : string
}.

(** The calls to the host that leave a trace, in the order they are made:
    notifications, the console, the chat response stream, the workspace
    search, the language model and the clipboard. *)
Inductive Event : Type :=
| ShowInformationMessage (message : string)
| ShowErrorMessage (message : string)
| ConsoleLog (message : string) (error : Exn)
| ConsoleError (message : string) (error : Exn)
| Markdown (value : string)
| Reference (value : Uri)
| FindFiles (include exclude : string) (maxResults : nat)
| SendRequest (messages : list string)
| ClipboardWriteText (value : string).

(** A state that keeps the trace of these calls. *)
Class Logged (St : Type) : Type := {
  log_of : St -> list Event;
  log_add : Event -> St -> St
}.

#[export] Instance Logged_trace : Logged (list Event) := {
  log_of log := log;
  log_add e log := log ++ [e]
}.

Definition emit {St} `{Logged St} (e : Event) : Eff St unit :=
  modify (log_add e).

(* ================================================================== *)
(** * Node's [fs] and [path] as an interface *)

(** The part of [fs.Stats] the extension reads. *)
Record Stats : Type := mkStats {
  isDirectory : bool;
  size : N
}.

(** The synchronous calls the extension makes, over a file-system state
    [FS].  [existsSync] never throws; the other calls return or throw.
    [mkdirSync] is the call with [{ recursive: true }]. *)
Class FileSystem (FS : Type) : Type := {
  existsSync : FS -> string -> bool;
  mkdirSync : FS -> string -> Exn + FS;
  readdirSync : FS -> string -> Exn + list string;
  statSync : FS -> string -> Exn + Stats;
  readFileSync : FS -> string -> Exn + string;
  path_join : string -> string -> string
}.

(** What the listing relies on of a recursive [mkdirSync] that returned:
    the folder is there, and a folder that was not there before has no
    entries yet. *)
Class FileSystemLaws (FS : Type) `{FileSystem FS} : Prop := {
  mkdirSync_exists :
    forall fs p fs', mkdirSync fs p = inr fs' -> existsSync fs' p = true;
  mkdirSync_fresh :
    forall fs p fs',
      existsSync fs p = false -> mkdirSync fs p = inr fs' ->
      readdirSync fs' p = inr []
}.

Arguments FileSystemLaws FS {_}.

(* ================================================================== *)
(** * projectManagementTreeView.ts *)

Module TreeItemCollapsibleState.
Inductive t : Type := None | Collapsed | Expanded.

Definition eqb (a b : t) : bool :=
  match a, b with
  | None, None | Collapsed, Collapsed | Expanded, Expanded => true
  | _, _ => false
  end.
End TreeItemCollapsibleState.

(** [vscode.Command]: the command id, its title and the file it opens. *)
Record Command : Type := mkCommand {
  command_id : string;
  title : string;
  arguments : list string
}.

(** [class FileItem extends vscode.TreeItem]. *)
Record FileItem : Type := mkFileItem {
  label : string;
  fullPath : string;
  collapsibleState : TreeItemCollapsibleState.t;
  iconPath : string;
  resourceUri : string;
  command : option Command;
  contextValue : string;
  description : option string;
  tooltip : option string
}.

(** The constructor of [FileItem]. *)
Definition new_FileItem (label fullPath : string)
    (collapsibleState : TreeItemCollapsibleState.t) : FileItem :=
  let is_none :=
    TreeItemCollapsibleState.eqb collapsibleState TreeItemCollapsibleState.None in
  {| label := label;
     fullPath := fullPath;
     collapsibleState := collapsibleState;
     iconPath := if is_none then "file" else "folder";
     resourceUri := fullPath;
     command :=
       if is_none
       then Some (mkCommand "vscode.open" "Open File" [fullPath])
       else None;
     contextValue := "fileItem";
     description := None;
     tooltip := None |}.

Definition set_description (d : string) (i : FileItem) : FileItem :=
  mkFileItem (label i) (fullPath i) (collapsibleState i) (iconPath i)
    (resourceUri i) (command i) (contextValue i) (Some d) (tooltip i).

Definition set_tooltip (t : string) (i : FileItem) : FileItem :=
  mkFileItem (label i) (fullPath i) (collapsibleState i) (iconPath i)
    (resourceUri i) (command i) (contextValue i) (description i) (Some t).


Section TreeView.
Context {FS : Type} `{FileSystem FS}.

Record TreeWorld : Type := mkTreeWorld {
  tree_fs : FS;
  tree_log : list Event
}.

#[export] Instance Logged_TreeWorld : Logged TreeWorld := {
  log_of := tree_log;
  log_add e w := mkTreeWorld (tree_fs w) (tree_log w ++ [e])
}.

(** A call of [fs] that reads the file system. *)
Definition fs_read {A} (call : FS -> Exn + A) : Eff TreeWorld A :=
  fun w => (w, call (tree_fs w)).

(** A call of [fs] that changes the file system when it returns. *)
Definition fs_write (call : FS -> Exn + FS) : Eff TreeWorld unit :=
  fun w =>
    match call (tree_fs w) with
    | inr fs' => (mkTreeWorld fs' (tree_log w), inr tt)
    | inl e => (w, inl e)
    end.

(** The callback of [items.map] in [readDirectory]. *)
Definition readDirectory_item (dir item : string) : Eff TreeWorld FileItem :=
  let fullPath := path_join dir item in
  stats <- fs_read (fun fs => statSync fs fullPath) ;;
  let isDirectory := isDirectory stats in
  let treeItem :=
    new_FileItem item fullPath
      (if isDirectory then TreeItemCollapsibleState.Collapsed
       else TreeItemCollapsibleState.None) in
  let treeItem :=
    if negb isDirectory
    then
      set_tooltip (item +++ " - " +++ kb_toFixed2 (size stats) +++ " KB")
        (set_description (kb_toFixed2 (size stats) +++ " KB") treeItem)
    else treeItem in
  ret treeItem.

(** [ProjectManagementTreeDataProvider.readDirectory]. *)
Definition readDirectory (dir : string) : Eff TreeWorld (list FileItem) :=
  exists_ <- gets (fun w => existsSync (tree_fs w) dir) ;;
  if negb exists_ then ret []
  else
    try_catch
      (items <- fs_read (fun fs => readdirSync fs dir) ;;
       mapE (readDirectory_item dir) items)
      (fun error =>
         emit (ConsoleError ("Error reading directory " +++ dir +++ ":") error) ;;
         ret []).

(** [ProjectManagementTreeDataProvider.getChildren]; [workspaceRoot] is
    the field of the provider, [element] the optional argument.  The
    three early [return]s are the branches that do not reach
    [readDirectory]. *)
Definition getChildren (workspaceRoot : string) (element : option FileItem)
  : Eff TreeWorld (list FileItem) :=
  if String.eqb workspaceRoot EmptyString then
    emit (ShowInformationMessage "No workspace folder is open") ;;
    ret []
  else
    let directoryToRead :=
      match element with
      | Some element => fullPath element
      | None => path_join workspaceRoot "project_management"
      end in
    exists_ <- gets (fun w => existsSync (tree_fs w) directoryToRead) ;;
    if negb exists_ then
      if String.eqb directoryToRead (path_join workspaceRoot "project_management")
      then
        created <-
          try_catch
            (fs_write (fun fs => mkdirSync fs directoryToRead) ;;
             emit (ShowInformationMessage
               "Created project_management folder for file management") ;;
             ret true)
            (fun error =>
               emit (ConsoleError
                 "Failed to create project_management folder:" error) ;;
               ret false) ;;
        if created then readDirectory directoryToRead else ret []
      else ret []
    else readDirectory directoryToRead.
End TreeView.

(* ================================================================== *)
(** * A file system to run the code on *)

(** A tree of folders and files.  A folder lists its entries in
    enumeration order and may refuse new entries; a dangling link is an
    entry that [readdirSync] reports and [statSync] cannot follow. *)
#[warnings="-register-all"]
Inductive SimNode : Type :=
| RegularFile (content : string)
| Directory (writable : bool) (entries : list (string * SimNode))
| DanglingLink.

Definition SimFs : Type := SimNode.

Fixpoint split_slash (s cur : string) : list string :=
  match s with
  | EmptyString => [cur]
  | String c s' =>
      if Ascii.eqb c "/"%char then cur :: split_slash s' EmptyString
      else split_slash s' (cur +++ String c EmptyString)
  end.

(** The names along a path; empty components are dropped. *)
Definition segments (p : string) : list string :=
  filter (fun seg => negb (String.eqb seg EmptyString)) (split_slash p EmptyString).

Fixpoint sim_assoc (k : string) (es : list (string * SimNode)) : option SimNode :=
  match es with
  | [] => None
  | (k', n) :: es' => if String.eqb k k' then Some n else sim_assoc k es'
  end.

Fixpoint sim_update (k : string) (n : SimNode) (es : list (string * SimNode))
  : list (string * SimNode) :=
  match es with
  | [] => []
  | (k', n') :: es' =>
      if String.eqb k k' then (k', n) :: es' else (k', n') :: sim_update k n es'
  end.

Fixpoint sim_lookup (segs : list string) (t : SimNode) : option SimNode :=
  match segs with
  | [] => Some t
  | seg :: rest =>
      match t with
      | Directory _ es =>
          match sim_assoc seg es with
          | Some child => sim_lookup rest child
          | None => None
          end
      | _ => None
      end
  end.

(** [mkdir -p]: existing folders are entered, missing ones are created
    where the parent accepts entries. *)
Fixpoint sim_mkdirp (segs : list string) (t : SimNode) : Exn + SimNode :=
  match segs with
  | [] =>
      match t with
      | Directory _ _ => inr t
      | _ => inl (Error "EEXIST: file already exists")
      end
  | seg :: rest =>
      match t with
      | Directory w es =>
          match sim_assoc seg es with
          | Some child =>
              match sim_mkdirp rest child with
              | inr child' => inr (Directory w (sim_update seg child' es))
              | inl e => inl e
              end
          | None =>
              if w then
                match sim_mkdirp rest (Directory true []) with
                | inr child' => inr (Directory w (es ++ [(seg, child')]))
                | inl e => inl e
                end
              else inl (Error "EACCES: permission denied")
          end
      | _ => inl (Error "ENOTDIR: not a directory")
      end
  end.

Definition sim_existsSync (fs : SimFs) (p : string) : bool :=
  match sim_lookup (segments p) fs with
  | Some (RegularFile _) | Some (Directory _ _) => true
  | _ => false
  end.

Definition sim_statSync (fs : SimFs) (p : string) : Exn + Stats :=
  match sim_lookup (segments p) fs with
  | Some (RegularFile c) => inr (mkStats false (N.of_nat (String.length c)))
  | Some (Directory _ _) => inr (mkStats true 0%N)
  | _ => inl (Error "ENOENT: no such file or directory")
  end.

Definition sim_readdirSync (fs : SimFs) (p : string) : Exn + list string :=
  match sim_lookup (segments p) fs with
  | Some (Directory _ es) => inr (map fst es)
  | Some (RegularFile _) => inl (Error "ENOTDIR: not a directory")
  | _ => inl (Error "ENOENT: no such file or directory")
  end.

Definition sim_readFileSync (fs : SimFs) (p : string) : Exn + string :=
  match sim_lookup (segments p) fs with
  | Some (RegularFile c) => inr c
  | Some (Directory _ _) => inl (Error "EISDIR: illegal operation on a directory")
  | _ => inl (Error "ENOENT: no such file or directory")
  end.

(** [path.join] on operands that are already normalized. *)
Definition sim_join (a b : string) : string := a +++ "/" +++ b.

#[export] Instance SimFs_FileSystem : FileSystem SimFs := {
  existsSync := sim_existsSync;
  mkdirSync fs p := sim_mkdirp (segments p) fs;
  readdirSync := sim_readdirSync;
  statSync := sim_statSync;
  readFileSync := sim_readFileSync;
  path_join := sim_join
}.

(* ================================================================== *)
(** * The project-manager chat participant *)

(** [vscode.WorkspaceFolder]. *)
Record WorkspaceFolder : Type := mkWorkspaceFolder {
  name : string;
  uri : Uri
}.

(** A repository of the git extension: [rootUri] and [state.HEAD?.name]. *)
Record Repository : Type := mkRepository {
  rootUri : Uri;
  HEAD_name : option string
}.

(** The three outcomes of
    [vscode.extensions.getExtension('vscode.git')?.exports] followed by
    [getAPI(1)]: no extension, a throw, or an API object (which may be
    null) with its repositories. *)
Inductive GitExtension : Type :=
| GitMissing
| GitThrows (e : Exn)
| GitApi (api : option (list Repository)).

(** The text of a model response, an async iterable: it yields fragments
    and then ends or throws. *)
Inductive TextStream : Type :=
| StreamEnd
| StreamThrow (e : Exn)
| Fragment (text : string) (rest : TextStream).

(** The editor around a chat request.  [search include exclude] is what
    the workspace search matches, in the order it enumerates files, or
    the rejection of the search. *)
Record Host : Type := mkHost {
  workspaceFolders : option (list WorkspaceFolder);
  gitExtension : GitExtension;
  search : string -> string -> Exn + list Uri
}.

(** [vscode.ChatRequest]: the optional sub-command, the prompt and the
    model, whose [sendRequest] rejects or returns a response. *)
Record ChatRequest : Type := mkChatRequest {
  request_command : option string;
  prompt : string;
  sendRequest : list string -> Exn + TextStream
}.

(** [vscode.ChatResult]: [{ metadata: { command } }]. *)
Record ChatResult : Type := mkChatResult {
  metadata_command : string
}.

(** [stream.markdown] and [stream.reference]. *)
Definition markdown (value : string) : Eff (list Event) unit :=
  emit (Markdown value).

Definition reference (value : Uri) : Eff (list Event) unit :=
  emit (Reference value).

(** [vscode.workspace.findFiles(include, exclude, maxResults)]: at most
    [maxResults] of the matching files. *)
Definition findFiles {St} `{Logged St} (host : Host)
    (include exclude : string) (maxResults : nat) : Eff St (list Uri) :=
  emit (FindFiles include exclude maxResults) ;;
  match search host include exclude with
  | inr matching => ret (firstn maxResults matching)
  | inl e => throw e
  end.

(** [for await (const fragment of text) { body fragment }]. *)
Fixpoint forAwait (body : string -> Eff (list Event) unit) (text : TextStream)
  : Eff (list Event) unit :=
  match text with
  | StreamEnd => ret tt
  | StreamThrow e => throw e
  | Fragment fragment rest => body fragment ;; forAwait body rest
  end.

(** [workspaceFolders && workspaceFolders.length > 0]. *)
Definition has_folders (workspaceFolders : option (list WorkspaceFolder)) : bool :=
  match workspaceFolders with
  | Some (_ :: _) => true
  | _ => false
  end.

Definition folders_of (workspaceFolders : option (list WorkspaceFolder))
  : list WorkspaceFolder :=
  match workspaceFolders with
  | Some l => l
  | None => []
  end.

(** The three filters of the file list. *)
Definition is_packageJson (file : Uri) : bool :=
  endsWith (path file) "package.json".

Definition is_tsFile (file : Uri) : bool :=
  endsWith (path file) ".ts" && negb (includes (path file) "node_modules").

Definition is_mainFile (f : Uri) : bool :=
  includes (fsPath f) "main" || includes (fsPath f) "extension" ||
  includes (fsPath f) "index".

Definition is_readme (file : Uri) : bool :=
  includes (toLowerCase (path file)) "readme.md".

(** The list entry written for a file: a link and a reference. *)
Definition file_entry (file : Uri) : Eff (list Event) unit :=
  markdown ("- [" +++ split_pop is_slash (fsPath file) +++ "](" +++
            fsPath file +++ ")" +++ nl) ;;
  reference file.

(** The block under [// Look for package.json files]. *)
Definition overview_packageFiles (files : list Uri) : Eff (list Event) unit :=
  let packageJsonFiles := filter is_packageJson files in
  when Nat.ltb 0 (List.length packageJsonFiles) then
    (markdown ("### Package Files" +++ nl +++ nl) ;;
     forEach file_entry packageJsonFiles).

(** The block under [// Look for TypeScript files]. *)
Definition overview_typescriptFiles (files : list Uri) : Eff (list Event) unit :=
  let tsFiles := filter is_tsFile files in
  when Nat.ltb 0 (List.length tsFiles) then
    (markdown (nl +++ "### TypeScript Files" +++ nl +++ nl) ;;
     let mainFiles := filter is_mainFile tsFiles in
     forEach file_entry (firstn 5 mainFiles) ;;
     when Nat.ltb 5 (List.length tsFiles) then
       markdown ("- ... and " +++ nat_to_string (List.length tsFiles - 5) +++
                 " more TypeScript files" +++ nl)).

(** The block under [// Look for README files]. *)
Definition overview_documentation (files : list Uri) : Eff (list Event) unit :=
  let readmeFiles := filter is_readme files in
  when Nat.ltb 0 (List.length readmeFiles) then
    (markdown (nl +++ "### Documentation" +++ nl +++ nl) ;;
     forEach file_entry readmeFiles).

(** The [try] block under [// List project files]. *)
Definition overview_projectFiles (host : Host) : Eff (list Event) unit :=
  when has_folders (workspaceFolders host) then
    (files <- findFiles host "**/*.{json,ts,js,md}" "**/node_modules/**" 100 ;;
     markdown (nl +++ "## Project Files" +++ nl +++ nl) ;;
     markdown ("Here are some important files in your project:" +++ nl +++ nl) ;;
     overview_packageFiles files ;;
     overview_typescriptFiles files ;;
     overview_documentation files).

(** The [try] block under [// Get git information if available]. *)
Definition overview_git (host : Host) : Eff (list Event) unit :=
  match gitExtension host with
  | GitMissing => ret tt
  | GitThrows e => throw e
  | GitApi api =>
      match api with
      | Some ((_ :: _) as repositories) =>
          markdown (nl +++ "## Git Repositories" +++ nl +++ nl) ;;
          forEach
            (fun repo =>
               markdown ("- **Repository**: " +++ fsPath (rootUri repo)) ;;
               markdown ("  - Current Branch: " +++ or_else (HEAD_name repo) "Unknown"))
            repositories
      | _ => ret tt
      end
  end.

(** The block under [// Get workspace folders information]. *)
Definition overview_folders (host : Host) : Eff (list Event) unit :=
  when has_folders (workspaceFolders host) then
    (markdown ("## Workspace Folders" +++ nl +++ nl) ;;
     forEach
       (fun folder =>
          markdown ("- **" +++ name folder +++ "**: " +++ fsPath (uri folder) +++ nl))
       (folders_of (workspaceFolders host))).

(** The six lines that close the overview. *)
Definition overview_nextSteps : Eff (list Event) unit :=
  markdown (nl +++ "## Next Steps" +++ nl +++ nl) ;;
  markdown ("Here are some suggestions for managing your project:" +++ nl +++ nl) ;;
  markdown ("1. **Review the codebase** - Look through the main files to understand the project structure" +++ nl) ;;
  markdown ("2. **Check dependencies** - Review the package.json file for dependencies and scripts" +++ nl) ;;
  markdown ("3. **Run tests** - If the project has tests, run them to ensure everything works" +++ nl) ;;
  markdown ("4. **Update documentation** - Ensure the README and other documentation is up to date" +++ nl).

(** The branch of the handler for [request.command === 'overview']. *)
Definition overview (host : Host) : Eff (list Event) unit :=
  markdown ("# Project Management Overview" +++ nl +++ nl) ;;
  overview_folders host ;;
  try_catch (overview_git host)
    (fun error => emit (ConsoleLog "Git information not available:" error)) ;;
  try_catch (overview_projectFiles host)
    (fun error => emit (ConsoleError "Error getting project files:" error)) ;;
  overview_nextSteps.

(** The first message sent to the model. *)
Definition system_prompt : string :=
  "You are a project management assistant. Your role is to help the user manage their software project." +++ nl +++
  "                        Focus on providing useful information about the project structure, files, and helping to organize tasks." +++ nl +++
  "                        If asked about coding concepts, you can explain those too, but your primary focus is project management.".

(** The [else] branch of the handler: forward the prompt and stream the
    answer. *)
Definition complete (request : ChatRequest) : Eff (list Event) unit :=
  try_catch
    (let messages := [system_prompt; prompt request] in
     emit (SendRequest messages) ;;
     chatResponse <- lift (sendRequest request messages) ;;
     forAwait markdown chatResponse)
    (fun err =>
       if instanceof_LanguageModelError err then
         emit (ConsoleLog (message_of err) err) ;;
         markdown "I encountered an issue helping with project management. Please try again with a more specific question."
       else throw err).

(** [request.command === 'overview']. *)
Definition is_overview (command : option string) : bool :=
  match command with
  | Some c => String.eqb c "overview"
  | None => false
  end.

(** The [handler] of [registerProjectManagerChatParticipant]. *)
Definition handler (host : Host) (request : ChatRequest)
  : Eff (list Event) ChatResult :=
  (if is_overview (request_command request)
   then overview host
   else complete request) ;;
  ret (mkChatResult (or_else (request_command request) EmptyString)).

(* ================================================================== *)
(** * projectManager.ts *)

(** The template that [html] starts from. *)
Definition html_head : string :=
  String.concat nl
   [EmptyString;
    "            <!DOCTYPE html>";
    "            <html lang=" +++ dq +++ "en" +++ dq +++ ">";
    "            <head>";
    "                <meta charset=" +++ dq +++ "UTF-8" +++ dq +++ ">";
    "                <meta name=" +++ dq +++ "viewport" +++ dq +++ " content=" +++ dq +++ "width=device-width, initial-scale=1.0" +++ dq +++ ">";
    "                <title>Project Management Overview</title>";
    "                <style>";
    "                    body {";
    "                        font-family: var(--vscode-font-family);";
    "                        font-size: var(--vscode-font-size);";
    "                        color: var(--vscode-foreground);";
    "                        background-color: var(--vscode-editor-background);";
    "                        padding: 20px;";
    "                    }";
    "                    h1, h2, h3 {";
    "                        color: var(--vscode-titleBar-activeForeground);";
    "                    }";
    "                    .file-link {";
    "                        color: var(--vscode-textLink-foreground);";
    "                        cursor: pointer;";
    "                        text-decoration: underline;";
    "                    }";
    "                    .section {";
    "                        margin-bottom: 20px;";
    "                        padding: 15px;";
    "                        background-color: var(--vscode-editor-inactiveSelectionBackground);";
    "                        border-radius: 5px;";
    "                    }";
    "                    .button {";
    "                        background-color: var(--vscode-button-background);";
    "                        color: var(--vscode-button-foreground);";
    "                        border: none;";
    "                        padding: 8px 12px;";
    "                        cursor: pointer;";
    "                        border-radius: 3px;";
    "                        margin-top: 10px;";
    "                    }";
    "                    .button:hover {";
    "                        background-color: var(--vscode-button-hoverBackground);";
    "                    }";
    "                </style>";
    "            </head>";
    "            <body>";
    "                <h1>Project Management Overview</h1>";
    EmptyString;
    "                <div class=" +++ dq +++ "section" +++ dq +++ ">";
    "                    <h2>Project Tools</h2>";
    "                    <button class=" +++ dq +++ "button" +++ dq +++ " onclick=" +++ dq +++ "getFileContent()" +++ dq +++ ">Get File Content from X:/CombinedOutput.txt</button>";
    "                </div>";
    EmptyString;
    "                <div class=" +++ dq +++ "chat-container" +++ dq +++ ">"].

(** The opening of the workspace-folders section. *)
Definition html_folders_open : string :=
  String.concat nl
   [EmptyString;
    "                <div class=" +++ dq +++ "section" +++ dq +++ ">";
    "                    <h2>Workspace Folders</h2>";
    "                    <ul>"].

(** The closing of a list section. *)
Definition html_folders_close : string :=
  String.concat nl
   [EmptyString;
    "                    </ul>";
    "                </div>"].

(** The opening of the repositories section. *)
Definition html_git_open : string :=
  String.concat nl
   [EmptyString;
    "                        <div class=" +++ dq +++ "section" +++ dq +++ ">";
    "                            <h2>Git Repositories</h2>";
    "                            <ul>"].

(** The closing of the repositories section. *)
Definition html_git_close : string :=
  String.concat nl
   [EmptyString;
    "                            </ul>";
    "                        </div>"].

(** The opening of the project-files section. *)
Definition html_files_open : string :=
  String.concat nl
   [EmptyString;
    "                    <div class=" +++ dq +++ "section" +++ dq +++ ">";
    "                        <h2>Project Files</h2>";
    "                        <p>Here are some important files in your project:</p>"].

(** The heading of the package files. *)
Definition html_package_open : string :=
  String.concat nl
   [EmptyString;
    "                        <h3>Package Files</h3>";
    "                        <ul>"].

(** The heading of the TypeScript files. *)
Definition html_typescript_open : string :=
  String.concat nl
   [EmptyString;
    "                        <h3>TypeScript Files</h3>";
    "                        <ul>"].

(** The heading of the documentation files. *)
Definition html_documentation_open : string :=
  String.concat nl
   [EmptyString;
    "                        <h3>Documentation</h3>";
    "                        <ul>"].

(** The next-steps section. *)
Definition html_nextSteps : string :=
  String.concat nl
   [EmptyString;
    "            <div class=" +++ dq +++ "section" +++ dq +++ ">";
    "                <h2>Next Steps</h2>";
    "                <p>Here are some suggestions for managing your project:</p>";
    "                <ol>";
    "                    <li><strong>Review the codebase</strong> - Look through the main files to understand the project structure</li>";
    "                    <li><strong>Check dependencies</strong> - Review the package.json file for dependencies and scripts</li>";
    "                    <li><strong>Run tests</strong> - If the project has tests, run them to ensure everything works</li>";
    "                    <li><strong>Update documentation</strong> - Ensure the README and other documentation is up to date</li>";
    "                </ol>";
    "            </div>"].

(** The closing template with the script of the page. *)
Definition html_tail : string :=
  String.concat nl
   [EmptyString;
    "                </div>";
    "                <script>";
    "                    const vscode = acquireVsCodeApi();";
    EmptyString;
    "                    function openFile(path) {";
    "                        vscode.postMessage({";
    "                            command: 'openFile',";
    "                            path: path";
    "                        });";
    "                    }";
    EmptyString;
    "                    function getFileContent() {";
    "                        vscode.postMessage({";
    "                            command: 'getFileContent'";
    "                        });";
    "                    }";
    "                </script>";
    "            </body>";
    "            </html>"].

(** The state of one pass of [getProjectOverviewHtml]: the local [html]
    and the trace. *)
Record HtmlState : Type := mkHtmlState {
  html : string;
  html_log : list Event
}.

#[export] Instance Logged_HtmlState : Logged HtmlState := {
  log_of := html_log;
  log_add e w := mkHtmlState (html w) (html_log w ++ [e])
}.

(** [let html = s] and [html += s]. *)
Definition html_assign (s : string) : Eff HtmlState unit :=
  modify (fun w => mkHtmlState s (html_log w)).

Definition html_append (s : string) : Eff HtmlState unit :=
  modify (fun w => mkHtmlState (html w +++ s) (html_log w)).

(** The list item written for a file: its name, and a click handler that
    carries the path. *)
Definition html_file_item (file : Uri) : Eff HtmlState unit :=
  let fileName := split_pop is_any_slash (fsPath file) in
  html_append
    ("<li><span class=" +++ dq +++ "file-link" +++ dq +++ " onclick=" +++ dq +++
     "openFile('" +++ double_backslashes (fsPath file) +++ "')" +++ dq +++ ">" +++
     fileName +++ "</span></li>").

(** The block under [// Look for package.json files]. *)
Definition html_packageFiles (files : list Uri) : Eff HtmlState unit :=
  let packageJsonFiles := filter is_packageJson files in
  when Nat.ltb 0 (List.length packageJsonFiles) then
    (html_append html_package_open ;;
     forEach html_file_item packageJsonFiles ;;
     html_append "</ul>").

(** The block under [// Look for TypeScript files]. *)
Definition html_typescriptFiles (files : list Uri) : Eff HtmlState unit :=
  let tsFiles := filter is_tsFile files in
  when Nat.ltb 0 (List.length tsFiles) then
    (html_append html_typescript_open ;;
     let mainFiles := filter is_mainFile tsFiles in
     forEach html_file_item (firstn 5 mainFiles) ;;
     (when Nat.ltb 5 (List.length tsFiles) then
        html_append ("<li>... and " +++ nat_to_string (List.length tsFiles - 5) +++
                     " more TypeScript files</li>")) ;;
     html_append "</ul>").

(** The block under [// Look for README files]. *)
Definition html_documentation (files : list Uri) : Eff HtmlState unit :=
  let readmeFiles := filter is_readme files in
  when Nat.ltb 0 (List.length readmeFiles) then
    (html_append html_documentation_open ;;
     forEach html_file_item readmeFiles ;;
     html_append "</ul>").

(** The [try] block under [// List project files]. *)
Definition html_projectFiles (host : Host) : Eff HtmlState unit :=
  when has_folders (workspaceFolders host) then
    (files <- findFiles host "**/*.{json,ts,js,md}" "**/node_modules/**" 100 ;;
     html_append html_files_open ;;
     html_packageFiles files ;;
     html_typescriptFiles files ;;
     html_documentation files ;;
     html_append "</div>").

(** The [try] block under [// Try to get Git information if available]. *)
Definition html_git (host : Host) : Eff HtmlState unit :=
  match gitExtension host with
  | GitMissing => ret tt
  | GitThrows e => throw e
  | GitApi api =>
      match api with
      | Some ((_ :: _) as repositories) =>
          html_append html_git_open ;;
          forEach
            (fun repo =>
               html_append
                 (String.concat nl
                    [EmptyString;
                     "                            <li>";
                     "                                <strong>Repository</strong>: " +++
                       fsPath (rootUri repo);
                     "                                <br>Current Branch: " +++
                       or_else (HEAD_name repo) "Unknown";
                     "                            </li>"]))
            repositories ;;
          html_append html_git_close
      | _ => ret tt
      end
  end.

(** The block under [// Add workspace folders information]. *)
Definition html_folders (host : Host) : Eff HtmlState unit :=
  when has_folders (workspaceFolders host) then
    (html_append html_folders_open ;;
     forEach
       (fun folder =>
          html_append ("<li><strong>" +++ name folder +++ "</strong>: " +++
                       fsPath (uri folder) +++ "</li>"))
       (folders_of (workspaceFolders host)) ;;
     html_append html_folders_close).

(** [ProjectManagerProvider.getProjectOverviewHtml]. *)
Definition getProjectOverviewHtml (host : Host) : Eff HtmlState string :=
  html_assign html_head ;;
  html_folders host ;;
  try_catch (html_git host)
    (fun error => emit (ConsoleLog "Git information not available:" error)) ;;
  try_catch (html_projectFiles host)
    (fun error => emit (ConsoleError "Error getting project files:" error)) ;;
  html_append html_nextSteps ;;
  html_append html_tail ;;
  gets html.

Section ProjectManager.
Context {FS : Type} `{FileSystem FS}.

(** What [getFileContent] reads and writes: the file system, the
    clipboard (whose [writeText] rejects with [clipboard_fault] when
    there is one) and the trace. *)
Record PmWorld : Type := mkPmWorld {
  pm_fs : FS;
  clipboard : string;
  clipboard_fault : option Exn;
  pm_log : list Event
}.

#[export] Instance Logged_PmWorld : Logged PmWorld := {
  log_of := pm_log;
  log_add e w :=
    mkPmWorld (pm_fs w) (clipboard w) (clipboard_fault w) (pm_log w ++ [e])
}.

(** [await vscode.env.clipboard.writeText(value)]. *)
Definition clipboard_writeText (value : string) : Eff PmWorld unit :=
  emit (ClipboardWriteText value) ;;
  fun w =>
    match clipboard_fault w with
    | Some e => (w, inl e)
    | None => (mkPmWorld (pm_fs w) value None (pm_log w), inr tt)
    end.

Definition filePath : string := "X:/CombinedOutput.txt".

(** [ProjectManagerProvider.getFileContent]; the early [return] is the
    branch that stops after the notification. *)
Definition getFileContent : Eff PmWorld unit :=
  try_catch
    (exists_ <- gets (fun w => existsSync (pm_fs w) filePath) ;;
     if negb exists_ then
       emit (ShowErrorMessage ("File does not exist: " +++ filePath))
     else
       fileContent <- (fun w => (w, readFileSync (pm_fs w) filePath)) ;;
       clipboard_writeText fileContent ;;
       emit (ShowInformationMessage
               ("Content from " +++ filePath +++ " has been copied to clipboard")))
    (fun error =>
       emit (ShowErrorMessage ("Error reading file: " +++ message_of error))).
End ProjectManager.

(* ================================================================== *)
(** * Vocabulary of the statements *)

(** The record [readDirectory] builds for an entry with the given
    [Stats]. *)
Definition listed_item (join : string -> string -> string)
    (dir item : string) (stats : Stats) : FileItem :=
  let fullPath := join dir item in
  if isDirectory stats then
    new_FileItem item fullPath TreeItemCollapsibleState.Collapsed
  else
    set_tooltip (item +++ " - " +++ kb_toFixed2 (size stats) +++ " KB")
      (set_description (kb_toFixed2 (size stats) +++ " KB")
         (new_FileItem item fullPath TreeItemCollapsibleState.None)).

(** A record shown as a file: no expansion, a size description. *)
Definition shown_as_file (i : FileItem) : bool :=
  TreeItemCollapsibleState.eqb (collapsibleState i) TreeItemCollapsibleState.None &&
  match description i with Some _ => true | None => false end.

(** A record shown as a folder: collapsed, no size description. *)
Definition shown_as_folder (i : FileItem) : bool :=
  TreeItemCollapsibleState.eqb (collapsibleState i) TreeItemCollapsibleState.Collapsed &&
  match description i with Some _ => false | None => true end.

(** A computation on the trace that appends [t] and ends with [r]. *)
Definition Runs {A} (m : Eff (list Event) A) (t : list Event) (r : Exn + A) : Prop :=
  forall log, m log = (log ++ t, r).

Definition is_SendRequest (e : Event) : bool :=
  match e with
  | SendRequest _ => true
  | _ => false
  end.

(** How often the language model is called in a trace. *)
Definition model_calls (t : list Event) : nat :=
  List.length (filter is_SendRequest t).

(** The fragments a response yields, and the error that ends it. *)
Fixpoint fragments (text : TextStream) : list string :=
  match text with
  | Fragment fragment rest => fragment :: fragments rest
  | _ => []
  end.

Fixpoint stream_error (text : TextStream) : option Exn :=
  match text with
  | StreamEnd => None
  | StreamThrow e => Some e
  | Fragment _ rest => stream_error rest
  end.

Definition response_fragments (r : Exn + TextStream) : list string :=
  match r with
  | inr text => fragments text
  | inl _ => []
  end.

Definition response_error (r : Exn + TextStream) : option Exn :=
  match r with
  | inr text => stream_error text
  | inl e => Some e
  end.

(** The response of the model to the two messages of [complete]. *)
Definition response_of (request : ChatRequest) : Exn + TextStream :=
  sendRequest request [system_prompt; prompt request].

Definition apology : string :=
  "I encountered an issue helping with project management. Please try again with a more specific question.".

(** What the handler does with an error of the model: a
    [LanguageModelError] is answered with the apology, anything else goes
    on to the caller. *)
Definition error_events (error : option Exn) : list Event :=
  match error with
  | Some e =>
      if instanceof_LanguageModelError e
      then [ConsoleLog (message_of e) e; Markdown apology]
      else []
  | None => []
  end.

Definition unhandled (error : option Exn) : option Exn :=
  match error with
  | Some e => if instanceof_LanguageModelError e then None else Some e
  | None => None
  end.

(** The trace of a request that is forwarded to the model: the call, the
    fragments in the order they arrive, the handling of an error. *)
Definition completion_events (request : ChatRequest) : list Event :=
  SendRequest [system_prompt; prompt request] ::
  map Markdown (response_fragments (response_of request)) ++
  error_events (response_error (response_of request)).

(** The two events written for a file of a bucket. *)
Definition file_entry_events (file : Uri) : list Event :=
  [Markdown ("- [" +++ split_pop is_slash (fsPath file) +++ "](" +++
             fsPath file +++ ")" +++ nl);
   Reference file].

(** The note that closes the TypeScript bucket. *)
Definition more_note (n : nat) : Event :=
  Markdown ("- ... and " +++ nat_to_string n +++ " more TypeScript files" +++ nl).

(** The TypeScript bucket of the chat overview for the files searched:
    nothing without TypeScript files; otherwise the heading, the first
    five hinted files and, above five TypeScript files, the note. *)
Definition typescript_bucket (files : list Uri) : list Event :=
  let tsFiles := filter is_tsFile files in
  match tsFiles with
  | [] => []
  | _ :: _ =>
      Markdown (nl +++ "### TypeScript Files" +++ nl +++ nl) ::
      flat_map file_entry_events (firstn 5 (filter is_mainFile tsFiles)) ++
      (if Nat.ltb 5 (List.length tsFiles)
       then [more_note (List.length tsFiles - 5)] else [])
  end.

(** The same bucket in the markup of the overview panel. *)
Definition html_file_item_text (file : Uri) : string :=
  "<li><span class=" +++ dq +++ "file-link" +++ dq +++ " onclick=" +++ dq +++
  "openFile('" +++ double_backslashes (fsPath file) +++ "')" +++ dq +++ ">" +++
  split_pop is_any_slash (fsPath file) +++ "</span></li>".

Definition html_more_note (n : nat) : string :=
  "<li>... and " +++ nat_to_string n +++ " more TypeScript files</li>".

Definition html_typescript_bucket (files : list Uri) : string :=
  let tsFiles := filter is_tsFile files in
  match tsFiles with
  | [] => EmptyString
  | _ :: _ =>
      html_typescript_open +++
      String.concat EmptyString
        (map html_file_item_text (firstn 5 (filter is_mainFile tsFiles))) +++
      (if Nat.ltb 5 (List.length tsFiles)
       then html_more_note (List.length tsFiles - 5) else EmptyString) +++
      "</ul>"
  end.

(** A computation of the panel that appends [text] to the markup and [t]
    to the trace and ends with [r]. *)
Definition RunsHtml {A} (m : Eff HtmlState A) (text : string) (t : list Event)
    (r : Exn + A) : Prop :=
  forall w, m w = (mkHtmlState (html w +++ text) (html_log w ++ t), r).

(** A block of the overview: it returns, and it does not call the model. *)
Definition Block (m : Eff (list Event) unit) : Prop :=
  exists t, Runs m t (inr tt) /\ model_calls t = 0.

(** A block of the panel: it returns, and it only appends markup. *)
Definition BlockHtml (m : Eff HtmlState unit) : Prop :=
  exists s, RunsHtml m s [] (inr tt).

(** The search both overviews make. *)
Definition searched (host : Host) : Exn + list Uri :=
  search host "**/*.{json,ts,js,md}" "**/node_modules/**".

(** The events a computation appends to the trace, and the markup a
    computation of the panel appends to the page. *)
Definition events_of {A} (m : Eff (list Event) A) : list Event :=
  fst (m []).

Definition text_of {A} (m : Eff HtmlState A) : string :=
  html (fst (m (mkHtmlState EmptyString []))).

(** What the git part of each overview adds, inside its [try]. *)
Definition overview_git_events (host : Host) : list Event :=
  events_of
    (try_catch (overview_git host)
       (fun error => emit (ConsoleLog "Git information not available:" error))).

Definition html_git_text (host : Host) : string :=
  text_of
    (try_catch (html_git host)
       (fun error => emit (ConsoleLog "Git information not available:" error))).

(** The trace of the chat overview, and the page of the panel, when the
    workspace has a folder and the search returns [matching]: the parts
    in the order they are written, the TypeScript bucket between the
    package files and the documentation. *)
Definition overview_events (host : Host) (matching : list Uri) : list Event :=
  let files := firstn 100 matching in
  Markdown ("# Project Management Overview" +++ nl +++ nl) ::
  events_of (overview_folders host) ++
  overview_git_events host ++
  [FindFiles "**/*.{json,ts,js,md}" "**/node_modules/**" 100;
   Markdown (nl +++ "## Project Files" +++ nl +++ nl);
   Markdown ("Here are some important files in your project:" +++ nl +++ nl)] ++
  events_of (overview_packageFiles files) ++
  typescript_bucket files ++
  events_of (overview_documentation files) ++
  events_of overview_nextSteps.

Definition overview_page (host : Host) (matching : list Uri) : string :=
  let files := firstn 100 matching in
  html_head +++
  text_of (html_folders host) +++
  html_git_text host +++
  html_files_open +++
  text_of (html_packageFiles files) +++
  html_typescript_bucket files +++
  text_of (html_documentation files) +++
  "</div>" +++
  html_nextSteps +++
  html_tail.

(** The reading of the overview note in the specification: with the
    search capped and more than five hinted files left, the note counts
    all matching files but five. *)
Definition spec_note_count (matching : list Uri) : nat :=
  List.length matching - 5.

Definition spec_overview_note : Prop :=
  forall host request matching,
    request_command request = Some "overview" ->
    has_folders (workspaceFolders host) = true ->
    searched host = inr matching ->
    5 < List.length
          (filter is_mainFile (filter is_tsFile (firstn 100 matching))) ->
    In (more_note (spec_note_count matching)) (fst (handler host request [])).

(* ================================================================== *)
(** * Sample inputs *)

(** A workspace [/w] whose project-management folder holds a file of
    1536 bytes and a folder. *)
Definition sample_notes : string :=
  String.concat EmptyString (repeat "0123456789abcdef" 96).

Definition sample_fs : SimFs :=
  Directory true
    [("w", Directory true
       [("project_management", Directory true
          [("notes.txt", RegularFile sample_notes);
           ("docs", Directory true [])])])].

(** The same folder with an entry that cannot be stat-ed. *)
Definition sample_fs_broken : SimFs :=
  Directory true
    [("w", Directory true
       [("project_management", Directory true
          [("notes.txt", RegularFile sample_notes);
           ("gone", DanglingLink);
           ("docs", Directory true [])])])].

(** A workspace that has no project-management folder yet, and one
    that refuses new entries. *)
Definition sample_fs_bare : SimFs :=
  Directory true [("w", Directory true [("src", Directory true [])])].

Definition sample_fs_locked : SimFs :=
  Directory true [("w", Directory false [("src", Directory true [])])].

(** A drive with the file that [getFileContent] reads. *)
Definition sample_fs_output : SimFs :=
  Directory true [("X:", Directory true [("CombinedOutput.txt", RegularFile "combined")])].

Definition sample_folder_item : FileItem :=
  new_FileItem "old" "/w/project_management/old" TreeItemCollapsibleState.Collapsed.

(** A workspace in which the search matches a hundred and fifty
    TypeScript files, all of them with [index] in their path. *)
Definition index_file (n : nat) : Uri :=
  let p := "/w/src/index" +++ nat_to_string n +++ ".ts" in
  mkUri p p.

Definition crowded_matching : list Uri := map index_file (seq 0 150).

Definition crowded_host : Host :=
  mkHost (Some [mkWorkspaceFolder "w" (mkUri "/w" "/w")]) GitMissing
         (fun _ _ => inr crowded_matching).

(** Ten TypeScript files of which one has a hinted name. *)
Definition plain_file (n : nat) : Uri :=
  let p := "/w/src/util" +++ nat_to_string n +++ ".ts" in
  mkUri p p.

Definition lopsided_host : Host :=
  mkHost (Some [mkWorkspaceFolder "w" (mkUri "/w" "/w")]) GitMissing
         (fun _ _ => inr (index_file 0 :: map plain_file (seq 0 9))).

(** Requests: the overview, and prompts whose response ends well, with a
    [LanguageModelError], or with another error. *)
Definition overview_request : ChatRequest :=
  mkChatRequest (Some "overview") "what is in here?"
    (fun _ => inl (Error "the model is not to be called")).

Definition answered_request : ChatRequest :=
  mkChatRequest None "plan the release"
    (fun _ => inr (Fragment "First, " (Fragment "tag it." StreamEnd))).

Definition blocked_request : ChatRequest :=
  mkChatRequest None "plan the release"
    (fun _ => inr (Fragment "First, " (StreamThrow (LanguageModelError "blocked" "Blocked")))).

Definition broken_request : ChatRequest :=
  mkChatRequest None "plan the release"
    (fun _ => inr (Fragment "First, " (StreamThrow (Error "socket closed")))).

(* ================================================================== *)
(** * projectManager.ts: the panel, its messages and [openFile] *)

(** The editor as [openFile] uses it: [openTextDocument] resolves to a
    document (named by its path) or rejects, and so does
    [showTextDocument]. *)
Record Editor : Type := mkEditor {
  openTextDocument : string -> Exn + string;
  showTextDocument : string -> Exn + unit
}.

(** A message posted by the page: its [command] and [path], either of
    which may be missing. *)
Record WebviewMessage : Type := mkWebviewMessage {
  message_command : option string;
  message_path : option string
}.

(** The panel made by [createWebviewPanel], with the markup assigned to
    its webview. *)
Record WebviewPanel : Type := mkWebviewPanel {
  viewType : string;
  panel_title : string;
  enableScripts : bool;
  retainContextWhenHidden : bool;
  panel_html : string
}.

Section Panel.
Context {FS : Type} `{FileSystem FS}.

(** What the message handler works on: the world of [getFileContent]
    and the documents shown in the editor, in the order they were
    shown. *)
Record PanelWorld : Type := mkPanelWorld {
  panel_pm : @PmWorld FS;
  visible : list string
}.

#[export] Instance Logged_PanelWorld : Logged PanelWorld := {
  log_of w := pm_log (panel_pm w);
  log_add e w := mkPanelWorld (log_add e (panel_pm w)) (visible w)
}.

(** A method of the provider run inside the handler. *)
Definition with_pm {A} (m : Eff (@PmWorld FS) A) : Eff PanelWorld A :=
  fun w =>
    match m (panel_pm w) with
    | (pm', r) => (mkPanelWorld pm' (visible w), r)
    end.

(** [await vscode.window.showTextDocument(document)]. *)
Definition show (editor : Editor) (document : string) : Eff PanelWorld unit :=
  lift (showTextDocument editor document) ;;
  modify (fun w => mkPanelWorld (panel_pm w) (visible w ++ [document])).

(** [ProjectManagerProvider.openFile]; the [catch] has no binding. *)
Definition openFile (editor : Editor) (path : string) : Eff PanelWorld unit :=
  try_catch
    (document <- lift (openTextDocument editor path) ;;
     show editor document)
    (fun _ => emit (ShowErrorMessage ("Failed to open file: " +++ path))).

(** [if (message.path)]: a path that is there and not empty. *)
Definition truthy_path (p : option string) : option string :=
  match p with
  | Some s => if String.eqb s EmptyString then None else Some s
  | None => None
  end.

(** The handler given to [panel.webview.onDidReceiveMessage]. *)
Definition onDidReceiveMessage (editor : Editor) (message : WebviewMessage)
  : Eff PanelWorld unit :=
  match message_command message with
  | Some c =>
      if String.eqb c "openFile" then
        match truthy_path (message_path message) with
        | Some p => openFile editor p
        | None => ret tt
        end
      else if String.eqb c "getFileContent" then with_pm getFileContent
      else ret tt
  | None => ret tt
  end.
(** [ProjectManagerProvider.openProjectManagerOverview]: the panel with
    its markup, and the handler registered for its messages. *)
Definition openProjectManagerOverview (host : Host) (editor : Editor)
  : Eff HtmlState (WebviewPanel * (WebviewMessage -> Eff PanelWorld unit)) :=
  page <- getProjectOverviewHtml host ;;
  ret (mkWebviewPanel "projectManagementOverview" "Project Management Overview"
         true true page,
       onDidReceiveMessage editor).
End Panel.

(* ================================================================== *)
(** * extension.ts *)

(** What is pushed on [context.subscriptions]: by [activate] a command
    or a tree view over a provider for a workspace root, by the other
    modules anything else. *)
Inductive Subscription : Type :=
| CommandSubscription (id : string)
| TreeViewSubscription (viewId workspaceRoot : string) (showCollapseAll : bool)
| OtherSubscription (what : string).

(** [ProjectManagerProvider.register]: the two commands of the
    provider. *)
Definition register : list Subscription :=
  [CommandSubscription "project-manager.openProjectManager";
   CommandSubscription "project-manager.getFileContent"].

Section Activation.
Context {FS : Type} `{FileSystem FS}.

(** The extension host during activation: the file system and the
    trace, the subscriptions, and the folders opened by
    [vscode.openFolder]. *)
Record ExtensionWorld : Type := mkExtensionWorld {
  ext_tree : @TreeWorld FS;
  subscriptions : list Subscription;
  opened_folders : list string
}.

#[export] Instance Logged_ExtensionWorld : Logged ExtensionWorld := {
  log_of w := tree_log (ext_tree w);
  log_add e w :=
    mkExtensionWorld (log_add e (ext_tree w)) (subscriptions w) (opened_folders w)
}.

(** [context.subscriptions.push(...)]. *)
Definition push (subs : list Subscription) : Eff ExtensionWorld unit :=
  modify (fun w =>
    mkExtensionWorld (ext_tree w) (subscriptions w ++ subs) (opened_folders w)).

(** Code of the tree view run on the host. *)
Definition with_tree {A} (m : Eff (@TreeWorld FS) A) : Eff ExtensionWorld A :=
  fun w =>
    match m (ext_tree w) with
    | (t', r) => (mkExtensionWorld t' (subscriptions w) (opened_folders w), r)
    end.

(** The four registrations of other modules, [path.dirname], and how
    [executeCommand('vscode.openFolder', ...)] settles. *)
Variables registerSimpleParticipant registerToolUserChatParticipant
          registerChatLibChatParticipant registerChatTools : Eff ExtensionWorld unit.
Variable dirname : string -> string.
Variable openFolder : string -> Exn + unit.

(** [vscode.commands.executeCommand('vscode.openFolder', ...).then(...)]
    in [activate]. *)
Definition open_parent (parentDirectory : string) : Eff ExtensionWorld unit :=
  match openFolder parentDirectory with
  | inr _ =>
      modify (fun w =>
        mkExtensionWorld (ext_tree w) (subscriptions w)
          (opened_folders w ++ [parentDirectory])) ;;
      emit (ShowInformationMessage ("Opened workspace folder: " +++ parentDirectory))
  | inl error => emit (ConsoleError "Failed to open workspace folder:" error)
  end.

(** The block under [// Create project_management folder if it doesn't
    exist]. *)
Definition create_project_management (workspaceRoot : string)
  : Eff (@TreeWorld FS) unit :=
  let projectManagementPath := path_join workspaceRoot "project_management" in
  exists_ <- gets (fun w => existsSync (tree_fs w) projectManagementPath) ;;
  if negb exists_ then
    try_catch
      (fs_write (fun fs => mkdirSync fs projectManagementPath) ;;
       emit (ShowInformationMessage
               "Created project_management folder for file management"))
      (fun error =>
         emit (ConsoleError "Failed to create project_management folder:" error))
  else ret tt.

(** The four calls that open [activate]. *)
Definition other_registrations : Eff ExtensionWorld unit :=
  registerSimpleParticipant ;;
  registerToolUserChatParticipant ;;
  registerChatLibChatParticipant ;;
  registerChatTools.

(** [activate]; [extensionPath] is [context.extensionPath]. *)
Definition activate (extensionPath : string)
    (workspaceFolders : option (list WorkspaceFolder)) : Eff ExtensionWorld unit :=
  registerSimpleParticipant ;;
  registerToolUserChatParticipant ;;
  registerChatLibChatParticipant ;;
  registerChatTools ;;
  push register ;;
  match workspaceFolders with
  | Some (folder :: _) =>
      let workspaceRoot := fsPath (uri folder) in
      push [CommandSubscription "projectManagementView.refresh"] ;;
      push [TreeViewSubscription "projectManagementView" workspaceRoot true] ;;
      with_tree (create_project_management workspaceRoot)
  | _ =>
      let parentDirectory := dirname extensionPath in
      open_parent parentDirectory
  end.

End Activation.

(* ================================================================== *)
(** * More vocabulary *)

(** Every character of a string passes a test. *)
Fixpoint string_forallb (p : ascii -> bool) (s : string) : bool :=
  match s with
  | EmptyString => true
  | String c s' => p c && string_forallb p s'
  end.

(** What a record of the listing of [dir] looks like: it sits under
    [dir], and it is either a file that opens itself, with a size, or a
    folder to expand. *)
Definition listed_in (join : string -> string -> string) (dir : string)
    (r : FileItem) : Prop :=
  fullPath r = join dir (label r) /\
  resourceUri r = fullPath r /\
  contextValue r = "fileItem" /\
  ((collapsibleState r = TreeItemCollapsibleState.None /\
    iconPath r = "file" /\
    command r = Some (mkCommand "vscode.open" "Open File" [fullPath r]) /\
    exists d,
      description r = Some (d +++ " KB") /\
      tooltip r = Some (label r +++ " - " +++ d +++ " KB")) \/
   (collapsibleState r = TreeItemCollapsibleState.Collapsed /\
    iconPath r = "folder" /\
    command r = None /\
    description r = None /\
    tooltip r = None)).

(** The files a trace refers to, in order. *)
Definition references (t : list Event) : list Uri :=
  flat_map (fun e => match e with Reference u => [u] | _ => [] end) t.

(** A call of the workspace search. *)
Definition is_FindFiles (e : Event) : bool :=
  match e with
  | FindFiles _ _ _ => true
  | _ => false
  end.

(** A notification shown to the user. *)
Definition is_notification (e : Event) : bool :=
  match e with
  | ShowInformationMessage _ | ShowErrorMessage _ => true
  | _ => false
  end.

(** The number of hundredths of a kilobyte shown for a size. *)
Definition hundredths (bytes : N) : N := ((bytes * 100 + 512) / 1024)%N.

(** The rendering of a number of hundredths with two decimals. *)
Definition two_decimals (n : N) : string :=
  N_to_string (n / 100) +++ "." +++
  N_to_string ((n mod 100) / 10) +++ N_to_string (n mod 10).

(** The two lines written for a repository, and the line of a folder. *)
Definition repository_events (repo : Repository) : list Event :=
  [Markdown ("- **Repository**: " +++ fsPath (rootUri repo));
   Markdown ("  - Current Branch: " +++ or_else (HEAD_name repo) "Unknown")].

Definition folder_event (folder : WorkspaceFolder) : Event :=
  Markdown ("- **" +++ name folder +++ "**: " +++ fsPath (uri folder) +++ nl).

(** What the project-files part of the chat overview adds, inside its
    [try]. *)
Definition overview_files_events (host : Host) : list Event :=
  events_of
    (try_catch (overview_projectFiles host)
       (fun error => emit (ConsoleError "Error getting project files:" error))).

(** What the project-files part of the panel adds to the page, inside
    its [try]. *)
Definition html_files_text (host : Host) : string :=
  text_of
    (try_catch (html_projectFiles host)
       (fun error => emit (ConsoleError "Error getting project files:" error))).

(** The page of the panel for every host, part by part. *)
Definition panel_page (host : Host) : string :=
  html_head +++
  text_of (html_folders host) +++
  html_git_text host +++
  html_files_text host +++
  html_nextSteps +++
  html_tail.

(** What the two [catch] clauses of the panel log. *)
Definition panel_trace (host : Host) : list Event :=
  match gitExtension host with
  | GitThrows e => [ConsoleLog "Git information not available:" e]
  | _ => []
  end ++
  if has_folders (workspaceFolders host) then
    FindFiles "**/*.{json,ts,js,md}" "**/node_modules/**" 100 ::
    match searched host with
    | inl e => [ConsoleError "Error getting project files:" e]
    | inr _ => []
    end
  else [].

(** The six closing events of the chat overview. *)
Definition nextSteps_events : list Event := events_of overview_nextSteps.

(** A bucket without a limit: a heading and an entry per file. *)
Definition open_bucket (heading : string) (files : list Uri) : list Event :=
  match files with
  | [] => []
  | _ :: _ => Markdown heading :: flat_map file_entry_events files
  end.

(** The summary of the chat overview, section by section.  The
    workspace folders: a heading and a line per folder, when there is a
    folder. *)
Definition folders_section (host : Host) : list Event :=
  if has_folders (workspaceFolders host)
  then Markdown ("## Workspace Folders" +++ nl +++ nl) ::
       map folder_event (folders_of (workspaceFolders host))
  else [].

(** The repositories: a heading and two lines per repository, when the
    git extension answers with a repository; its error, logged, when it
    throws. *)
Definition git_section (host : Host) : list Event :=
  match gitExtension host with
  | GitMissing => []
  | GitThrows e => [ConsoleLog "Git information not available:" e]
  | GitApi None => []
  | GitApi (Some []) => []
  | GitApi (Some repositories) =>
      Markdown (nl +++ "## Git Repositories" +++ nl +++ nl) ::
      flat_map repository_events repositories
  end.

(** The project files, when there is a folder: the search, then either
    the two headings and the three buckets of the first hundred matching
    files, or the error of the search, logged. *)
Definition files_section (host : Host) : list Event :=
  if has_folders (workspaceFolders host) then
    match searched host with
    | inr matching =>
        [FindFiles "**/*.{json,ts,js,md}" "**/node_modules/**" 100;
         Markdown (nl +++ "## Project Files" +++ nl +++ nl);
         Markdown ("Here are some important files in your project:" +++ nl +++ nl)] ++
        open_bucket ("### Package Files" +++ nl +++ nl)
          (filter is_packageJson (firstn 100 matching)) ++
        typescript_bucket (firstn 100 matching) ++
        open_bucket (nl +++ "### Documentation" +++ nl +++ nl)
          (filter is_readme (firstn 100 matching))
    | inl e =>
        [FindFiles "**/*.{json,ts,js,md}" "**/node_modules/**" 100;
         ConsoleError "Error getting project files:" e]
    end
  else [].

(** The next steps: six lines. *)
Definition next_steps_section : list Event :=
  [Markdown (nl +++ "## Next Steps" +++ nl +++ nl);
   Markdown ("Here are some suggestions for managing your project:" +++ nl +++ nl);
   Markdown ("1. **Review the codebase** - Look through the main files to understand the project structure" +++ nl);
   Markdown ("2. **Check dependencies** - Review the package.json file for dependencies and scripts" +++ nl);
   Markdown ("3. **Run tests** - If the project has tests, run them to ensure everything works" +++ nl);
   Markdown ("4. **Update documentation** - Ensure the README and other documentation is up to date" +++ nl)].

(** The structured summary: the title and the four sections. *)
Definition summary (host : Host) : list Event :=
  Markdown ("# Project Management Overview" +++ nl +++ nl) ::
  folders_section host ++
  git_section host ++
  files_section host ++
  next_steps_section.

(** More sample inputs: an editor that opens what exists in the sample
    file system, messages of the page, and a workspace on Windows. *)
Definition sample_editor : Editor :=
  mkEditor
    (fun p => if sim_existsSync sample_fs p then inr p
              else inl (Error "cannot open file"))
    (fun _ => inr tt).

Definition windows_readme : Uri :=
  mkUri "/c:/w/README.md"
        ("C:" +++ String (ascii_of_nat 92) "w" +++ String (ascii_of_nat 92) "README.md").

Definition failing_host : Host :=
  mkHost (Some [mkWorkspaceFolder "w" (mkUri "/w" "/w")])
         (GitThrows (Error "git is not ready"))
         (fun _ _ => inl (Error "search cancelled")).

Definition bare_host : Host :=
  mkHost None
         (GitApi (Some [mkRepository (mkUri "/w" "/w") None]))
         (fun _ _ => inr crowded_matching).

Definition mixed_host : Host :=
  mkHost (Some [mkWorkspaceFolder "w" (mkUri "/w" "/w")]) GitMissing
         (fun _ _ =>
            inr [mkUri "/w/package.json" "/w/package.json";
                 mkUri "/w/README.md" "/w/README.md";
                 index_file 0; plain_file 1]).

Definition sample_workspace : option (list WorkspaceFolder) :=
  Some [mkWorkspaceFolder "w" (mkUri "/w" "/w")].

Definition sample_dirname (p : string) : string :=
  if String.eqb p "/opt/extensions/chat-sample" then "/opt/extensions" else "/".

(** The simple participant as the one registration that does
    something, and a host that opens any folder. *)
Definition sample_registration : Eff (@ExtensionWorld SimFs) unit :=
  push [OtherSubscription "chat-sample.simple"].

Definition sample_extension_world (fs : SimFs) : @ExtensionWorld SimFs :=
  mkExtensionWorld (mkTreeWorld fs []) [] [].

Definition review_request : ChatRequest :=
  mkChatRequest (Some "review") "review the plan"
    (fun _ => inr (Fragment "Looks fine." StreamEnd)).

(* ================================================================== *)
(** * The tree view: [readDirectory] and [getChildren] *)

Lemma filter_map_length {A B} (f : A -> B) (p : B -> bool) (q : A -> bool) (l : list A) :
  (forall a, p (f a) = q a) ->
  List.length (filter p (map f l)) = List.length (filter q l).
Proof.
  intros Hpq. induction l as [|a l IH]; simpl; [reflexivity|].
  rewrite Hpq. destruct (q a); simpl; rewrite IH; reflexivity.
Qed.

Lemma shown_as_file_listed join dir item st :
  shown_as_file (listed_item join dir item st) = negb (isDirectory st).
Proof. unfold listed_item. destruct (isDirectory st); reflexivity. Qed.

Lemma shown_as_folder_listed join dir item st :
  shown_as_folder (listed_item join dir item st) = isDirectory st.
Proof. unfold listed_item. destruct (isDirectory st); reflexivity. Qed.

Section TreeViewFacts.
Context {FS : Type} `{FileSystem FS}.

Implicit Types (w : @TreeWorld FS) (fs : FS) (log : list Event).

(** The callback of the listing leaves the world alone and fails exactly
    when [statSync] does. *)
Lemma readDirectory_item_eq dir item w :
  readDirectory_item dir item w =
  (w, match statSync (tree_fs w) (path_join dir item) with
      | inr st => inr (listed_item path_join dir item st)
      | inl e => inl e
      end).
Proof.
  unfold readDirectory_item, bind, fs_read, ret, listed_item.
  destruct (statSync (tree_fs w) (path_join dir item)) as [e|st]; [reflexivity|].
  destruct (isDirectory st); reflexivity.
Qed.

Lemma mapE_items_ok dir w items stats :
  Forall2 (fun item st => statSync (tree_fs w) (path_join dir item) = inr st)
          items stats ->
  mapE (readDirectory_item dir) items w =
  (w, inr (map (fun p => listed_item path_join dir (fst p) (snd p))
               (combine items stats))).
Proof.
  induction 1 as [|item st items stats Hst _ IH]; [reflexivity|].
  simpl. unfold bind at 1. rewrite readDirectory_item_eq, Hst.
  unfold bind at 1. rewrite IH. reflexivity.
Qed.

Lemma mapE_items_fail dir w items item e :
  In item items ->
  statSync (tree_fs w) (path_join dir item) = inl e ->
  exists e', mapE (readDirectory_item dir) items w = (w, inl e').
Proof.
  intros Hin Hst. induction items as [|a items IH]; [contradiction|].
  simpl. unfold bind at 1. rewrite readDirectory_item_eq.
  destruct (statSync (tree_fs w) (path_join dir a)) as [e1|st] eqn:Ha.
  - exists e1. reflexivity.
  - destruct Hin as [->|Hin]; [congruence|].
    destruct (IH Hin) as [e' He']. exists e'.
    unfold bind at 1. rewrite He'. reflexivity.
Qed.

(** Whatever the entries, the callbacks leave the world alone. *)
Lemma mapE_items_world dir w items :
  fst (mapE (readDirectory_item dir) items w) = w.
Proof.
  induction items as [|a items IH]; [reflexivity|].
  simpl. unfold bind at 1. rewrite readDirectory_item_eq.
  destruct (statSync (tree_fs w) (path_join dir a)); [reflexivity|].
  unfold bind at 1.
  destruct (mapE (readDirectory_item dir) items w) as [w' [e|l]]; exact IH.
Qed.

(** [readDirectory] by cases on what the file system answers. *)
Lemma readDirectory_eq dir w :
  readDirectory dir w =
  if existsSync (tree_fs w) dir then
    match readdirSync (tree_fs w) dir with
    | inr items =>
        match snd (mapE (readDirectory_item dir) items w) with
        | inr records => (w, inr records)
        | inl e =>
            (log_add (ConsoleError ("Error reading directory " +++ dir +++ ":") e) w,
             inr [])
        end
    | inl e =>
        (log_add (ConsoleError ("Error reading directory " +++ dir +++ ":") e) w,
         inr [])
    end
  else (w, inr []).
Proof.
  unfold readDirectory, bind at 1, gets.
  destruct (existsSync (tree_fs w) dir); simpl; [|reflexivity].
  unfold try_catch, bind at 1, fs_read.
  destruct (readdirSync (tree_fs w) dir) as [e|items]; [reflexivity|].
  pose proof (mapE_items_world dir w items) as Hw.
  destruct (mapE (readDirectory_item dir) items w) as [w' [e|l]];
    simpl in *; subst w'; reflexivity.
Qed.

(** The listing never changes the file system. *)
Lemma readDirectory_fs dir w :
  tree_fs (fst (readDirectory dir w)) = tree_fs w.
Proof.
  rewrite readDirectory_eq.
  destruct (existsSync (tree_fs w) dir); [|reflexivity].
  destruct (readdirSync (tree_fs w) dir) as [e|items]; [reflexivity|].
  destruct (snd (mapE (readDirectory_item dir) items w)); reflexivity.
Qed.

(** The listing is empty as soon as one entry cannot be stat-ed. *)
Lemma readDirectory_stat_fails dir w items item e :
  readdirSync (tree_fs w) dir = inr items ->
  In item items ->
  statSync (tree_fs w) (path_join dir item) = inl e ->
  snd (readDirectory dir w) = inr [].
Proof.
  intros Hdir Hin Hst. rewrite readDirectory_eq, Hdir.
  destruct (existsSync (tree_fs w) dir); [|reflexivity].
  destruct (mapE_items_fail dir w items item Hin Hst) as [e' He'].
  rewrite He'. reflexivity.
Qed.

Lemma readDirectory_enumeration_fails dir w e :
  readdirSync (tree_fs w) dir = inl e ->
  snd (readDirectory dir w) = inr [].
Proof.
  intros Hdir. rewrite readDirectory_eq, Hdir.
  destruct (existsSync (tree_fs w) dir); reflexivity.
Qed.

Lemma readDirectory_total dir w :
  exists w' records, readDirectory dir w = (w', inr records).
Proof.
  rewrite readDirectory_eq.
  destruct (existsSync (tree_fs w) dir); [|eauto].
  destruct (readdirSync (tree_fs w) dir) as [e|items]; [eauto|].
  destruct (snd (mapE (readDirectory_item dir) items w)); eauto.
Qed.
End TreeViewFacts.

Section TreeViewClaims.
Context {FS : Type} `{FileSystem FS}.

Implicit Types (w : @TreeWorld FS) (fs : FS) (log : list Event).

Lemma listed_counts (R : string -> Stats -> Prop) (join : string -> string -> string)
    dir items stats :
  Forall2 R items stats ->
  let records :=
    map (fun p => listed_item join dir (fst p) (snd p)) (combine items stats) in
  List.length records = List.length items /\
  map label records = items /\
  List.length (filter shown_as_file records) =
    List.length (filter (fun st => negb (isDirectory st)) stats) /\
  List.length (filter shown_as_folder records) =
    List.length (filter isDirectory stats).
Proof.
  induction 1 as [|item st items stats _ _ IH]; [repeat split|].
  destruct IH as (Hlen & Hlab & Hfile & Hfolder). cbn zeta. simpl.
  rewrite shown_as_file_listed, shown_as_folder_listed.
  repeat split.
  - now rewrite Hlen.
  - rewrite Hlab. unfold listed_item. now destruct (isDirectory st).
  - destruct (isDirectory st); simpl; now rewrite Hfile.
  - destruct (isDirectory st); simpl; now rewrite Hfolder.
Qed.

(** C4. For an existing directory whose enumeration returns [items]
    and whose entries all have [Stats], [readDirectory] returns one
    record per entry, in order and under the entry's name; as many
    records are shown as files (collapsible state [None] and a size
    description) as there are entries that are not directories, and as
    many are shown as folders (state [Collapsed], no size) as there
    are directories.  Nothing is logged. *)
Theorem readDirectory_lists_every_entry dir w items stats :
  existsSync (tree_fs w) dir = true ->
  readdirSync (tree_fs w) dir = inr items ->
  Forall2 (fun item st => statSync (tree_fs w) (path_join dir item) = inr st)
          items stats ->
  exists records,
    readDirectory dir w = (w, inr records) /\
    records =
      map (fun p => listed_item path_join dir (fst p) (snd p))
          (combine items stats) /\
    List.length records = List.length items /\
    map label records = items /\
    List.length (filter shown_as_file records) =
      List.length (filter (fun st => negb (isDirectory st)) stats) /\
    List.length (filter shown_as_folder records) =
      List.length (filter isDirectory stats).
Proof.
  intros Hex Hdir Hst. eexists. split; [|split; [reflexivity|]].
  - rewrite readDirectory_eq, Hex, Hdir, (mapE_items_ok dir w Hst). reflexivity.
  - exact (listed_counts path_join dir Hst).
Qed.

(** C6. [readDirectory] returns a list for every path and every file
    system, never an exception, and leaves the file system as it was;
    the list is empty when the enumeration throws and when the
    [statSync] of an entry throws. *)
Theorem readDirectory_never_throws dir w :
  (exists w' records,
      readDirectory dir w = (w', inr records) /\ tree_fs w' = tree_fs w) /\
  (forall e,
      readdirSync (tree_fs w) dir = inl e ->
      snd (readDirectory dir w) = inr []) /\
  (forall items item e,
      readdirSync (tree_fs w) dir = inr items ->
      In item items ->
      statSync (tree_fs w) (path_join dir item) = inl e ->
      snd (readDirectory dir w) = inr []).
Proof.
  split; [|split].
  - destruct (readDirectory_total dir w) as (w' & records & Heq).
    exists w', records. split; [exact Heq|].
    pose proof (readDirectory_fs dir w) as Hfs. now rewrite Heq in Hfs.
  - intros e. apply readDirectory_enumeration_fails.
  - intros items item e. apply readDirectory_stat_fails.
Qed.

(** C9. When the enumeration of an existing directory returns and the
    [statSync] of one entry throws, the listing is the empty list,
    whatever the other entries are: the exception of that entry is
    logged and no record is kept. *)
Theorem readDirectory_all_or_nothing dir w items item e :
  existsSync (tree_fs w) dir = true ->
  readdirSync (tree_fs w) dir = inr items ->
  In item items ->
  statSync (tree_fs w) (path_join dir item) = inl e ->
  exists e',
    readDirectory dir w =
    (mkTreeWorld (tree_fs w)
       (tree_log w ++ [ConsoleError ("Error reading directory " +++ dir +++ ":") e']),
     inr []).
Proof.
  intros Hex Hdir Hin Hst.
  destruct (mapE_items_fail dir w items item Hin Hst) as [e' He'].
  exists e'. rewrite readDirectory_eq, Hex, Hdir, He'. reflexivity.
Qed.

(** C7. For a node whose path does not exist and is not the
    project-management folder of the workspace root, [getChildren]
    returns the empty list, without an exception and without touching
    the file system. *)
Theorem getChildren_missing_path workspaceRoot element w :
  existsSync (tree_fs w) (fullPath element) = false ->
  fullPath element <> path_join workspaceRoot "project_management" ->
  exists w',
    getChildren workspaceRoot (Some element) w = (w', inr []) /\
    tree_fs w' = tree_fs w.
Proof.
  intros Hex Hne. unfold getChildren.
  destruct (String.eqb workspaceRoot EmptyString).
  - eexists. split; reflexivity.
  - unfold bind, gets. rewrite Hex. simpl.
    apply String.eqb_neq in Hne. rewrite Hne.
    exists w. split; reflexivity.
Qed.

(** What [getChildren] does for the root when its folder is absent. *)
Lemma getChildren_root_absent workspaceRoot w :
  workspaceRoot <> EmptyString ->
  existsSync (tree_fs w) (path_join workspaceRoot "project_management") = false ->
  getChildren workspaceRoot None w =
  match mkdirSync (tree_fs w) (path_join workspaceRoot "project_management") with
  | inr fs' =>
      readDirectory (path_join workspaceRoot "project_management")
        (mkTreeWorld fs'
           (tree_log w ++
            [ShowInformationMessage
               "Created project_management folder for file management"]))
  | inl e =>
      (mkTreeWorld (tree_fs w)
         (tree_log w ++
          [ConsoleError "Failed to create project_management folder:" e]),
       inr [])
  end.
Proof.
  intros Hroot Hex. unfold getChildren.
  apply String.eqb_neq in Hroot. rewrite Hroot.
  unfold bind at 1, gets. rewrite Hex. simpl. rewrite String.eqb_refl.
  unfold bind at 1, try_catch, bind at 1, fs_write.
  destruct (mkdirSync (tree_fs w) (path_join workspaceRoot "project_management"));
    reflexivity.
Qed.

Context `{!FileSystemLaws FS}.

(** C3. With a workspace root and no project-management folder under
    it, [getChildren] for the root calls the recursive [mkdirSync].
    When that returns, the folder exists in the file system left
    behind, the result is the listing of the folder in that file
    system, and this listing is empty since the folder is new; the
    creation is announced.  When [mkdirSync] throws, the result is the
    empty list, the file system is unchanged and the error is logged. *)
Theorem getChildren_creates_root workspaceRoot w :
  workspaceRoot <> EmptyString ->
  existsSync (tree_fs w) (path_join workspaceRoot "project_management") = false ->
  match mkdirSync (tree_fs w) (path_join workspaceRoot "project_management") with
  | inr fs' =>
      let w' :=
        mkTreeWorld fs'
          (tree_log w ++
           [ShowInformationMessage
              "Created project_management folder for file management"]) in
      existsSync fs' (path_join workspaceRoot "project_management") = true /\
      getChildren workspaceRoot None w =
        readDirectory (path_join workspaceRoot "project_management") w' /\
      getChildren workspaceRoot None w = (w', inr [])
  | inl e =>
      getChildren workspaceRoot None w =
      (mkTreeWorld (tree_fs w)
         (tree_log w ++
          [ConsoleError "Failed to create project_management folder:" e]),
       inr [])
  end.
Proof.
  intros Hroot Hex. rewrite (getChildren_root_absent w Hroot Hex).
  destruct (mkdirSync (tree_fs w) (path_join workspaceRoot "project_management"))
    as [e|fs'] eqn:Hmk; [reflexivity|].
  pose proof (mkdirSync_exists _ _ Hmk) as Hnow.
  pose proof (mkdirSync_fresh _ _ Hex Hmk) as Hempty.
  cbn zeta. split; [exact Hnow|]. split; [reflexivity|].
  rewrite readDirectory_eq. simpl. rewrite Hnow, Hempty. reflexivity.
Qed.
End TreeViewClaims.

(* ================================================================== *)
(** * The simulated file system obeys the laws *)

Lemma sim_assoc_update k n es :
  sim_assoc k (sim_update k n es) =
  match sim_assoc k es with
  | Some _ => Some n
  | None => None
  end.
Proof.
  induction es as [|[k' n'] es IH]; simpl; [reflexivity|].
  destruct (String.eqb k k') eqn:Hk; simpl; rewrite Hk; [reflexivity|exact IH].
Qed.

Lemma sim_assoc_app_new k n es :
  sim_assoc k es = None -> sim_assoc k (es ++ [(k, n)]) = Some n.
Proof.
  induction es as [|[k' n'] es IH]; simpl.
  - now rewrite String.eqb_refl.
  - destruct (String.eqb k k'); [discriminate|exact IH].
Qed.

(** After [mkdir -p] the path leads to a folder: the one that was there,
    or a new, empty one. *)
Lemma sim_mkdirp_lookup segs :
  forall t t',
    sim_mkdirp segs t = inr t' ->
    match sim_lookup segs t with
    | Some n => sim_lookup segs t' = Some n /\ exists w es, n = Directory w es
    | None => sim_lookup segs t' = Some (Directory true [])
    end.
Proof.
  induction segs as [|seg rest IH]; intros t t' Hmk.
  - simpl in *. destruct t; inversion Hmk; subst. split; eauto.
  - simpl in Hmk. destruct t as [c|w es|]; try discriminate. simpl.
    destruct (sim_assoc seg es) as [child|] eqn:Hchild.
    + destruct (sim_mkdirp rest child) as [e|child'] eqn:Hrec; [discriminate|].
      inversion Hmk; subst. simpl.
      rewrite sim_assoc_update, Hchild. exact (IH _ _ Hrec).
    + destruct w; [|discriminate].
      destruct (sim_mkdirp rest (Directory true [])) as [e|child'] eqn:Hrec;
        [discriminate|].
      inversion Hmk; subst. simpl.
      rewrite sim_assoc_app_new by exact Hchild.
      specialize (IH _ _ Hrec). destruct rest as [|seg' rest'].
      * simpl in *. now destruct IH.
      * exact IH.
Qed.

#[export] Instance SimFs_laws : FileSystemLaws SimFs.
Proof.
  split.
  - intros fs p fs' Hmk. apply sim_mkdirp_lookup in Hmk.
    simpl. unfold sim_existsSync.
    destruct (sim_lookup (segments p) fs) as [n|].
    + destruct Hmk as (-> & w & es & ->). reflexivity.
    + rewrite Hmk. reflexivity.
  - intros fs p fs' Hex Hmk. apply sim_mkdirp_lookup in Hmk.
    simpl in *. unfold sim_existsSync in Hex. unfold sim_readdirSync.
    destruct (sim_lookup (segments p) fs) as [n|].
    + destruct Hmk as (_ & w & es & ->). discriminate.
    + rewrite Hmk. reflexivity.
Qed.

(* ================================================================== *)
(** * Computations on the trace *)

Lemma runs_ret {A} (a : A) : Runs (ret a) [] (inr a).
Proof. intros log. unfold ret. now rewrite app_nil_r. Qed.

Lemma runs_throw {A} (e : Exn) : Runs (@throw _ A e) [] (inl e).
Proof. intros log. unfold throw. now rewrite app_nil_r. Qed.

Lemma runs_emit (e : Event) : Runs (emit e) [e] (inr tt).
Proof. intros log. reflexivity. Qed.

Lemma runs_bind {A B} (m : Eff (list Event) A) (k : A -> Eff (list Event) B) t1 a t2 r :
  Runs m t1 (inr a) -> Runs (k a) t2 r -> Runs (bind m k) (t1 ++ t2) r.
Proof.
  intros Hm Hk log. unfold bind. now rewrite Hm, Hk, app_assoc.
Qed.

Lemma runs_bind_throw {A B} (m : Eff (list Event) A) (k : A -> Eff (list Event) B) t e :
  Runs m t (inl e) -> Runs (bind m k) t (inl e).
Proof. intros Hm log. unfold bind. now rewrite Hm. Qed.

Lemma runs_try_ok {A} (m : Eff (list Event) A) h t a :
  Runs m t (inr a) -> Runs (try_catch m h) t (inr a).
Proof. intros Hm log. unfold try_catch. now rewrite Hm. Qed.

Lemma runs_try_caught {A} (m : Eff (list Event) A) h t1 e t2 r :
  Runs m t1 (inl e) -> Runs (h e) t2 r -> Runs (try_catch m h) (t1 ++ t2) r.
Proof.
  intros Hm Hh log. unfold try_catch. now rewrite Hm, Hh, app_assoc.
Qed.

Lemma runs_eq {A} (m : Eff (list Event) A) t t' r :
  Runs m t r -> t = t' -> Runs m t' r.
Proof. now intros Hm <-. Qed.

Lemma runs_forEach {A} (body : A -> Eff (list Event) unit) (events : A -> list Event) l :
  (forall x, Runs (body x) (events x) (inr tt)) ->
  Runs (forEach body l) (flat_map events l) (inr tt).
Proof.
  intros Hbody. induction l as [|x l IH]; simpl.
  - apply runs_ret.
  - eapply runs_bind; [apply Hbody|exact IH].
Qed.

Lemma model_calls_app t1 t2 :
  model_calls (t1 ++ t2) = model_calls t1 + model_calls t2.
Proof. unfold model_calls. now rewrite filter_app, length_app. Qed.

Lemma model_calls_flat_map {A} (events : A -> list Event) l :
  (forall x, model_calls (events x) = 0) ->
  model_calls (flat_map events l) = 0.
Proof.
  intros Hx. induction l as [|x l IH]; simpl; [reflexivity|].
  now rewrite model_calls_app, Hx, IH.
Qed.

Lemma block_ret : Block (ret tt).
Proof. exists []. split; [apply runs_ret|reflexivity]. Qed.

Lemma block_markdown value : Block (markdown value).
Proof. exists [Markdown value]. split; [apply runs_emit|reflexivity]. Qed.

Lemma block_bind (m : Eff (list Event) unit) (k : unit -> Eff (list Event) unit) :
  Block m -> Block (k tt) -> Block (bind m k).
Proof.
  intros (t1 & H1 & Q1) (t2 & H2 & Q2). exists (t1 ++ t2). split.
  - eapply runs_bind; eassumption.
  - now rewrite model_calls_app, Q1, Q2.
Qed.

Lemma block_when (c : bool) (m : Eff (list Event) unit) :
  Block m -> Block (if c then m else ret tt).
Proof. destruct c; [trivial|intros _; apply block_ret]. Qed.

Lemma block_forEach {A} (body : A -> Eff (list Event) unit) l :
  (forall x, Block (body x)) -> Block (forEach body l).
Proof.
  intros Hbody. induction l as [|x l IH]; simpl.
  - apply block_ret.
  - apply block_bind; [apply Hbody|exact IH].
Qed.

Lemma runs_events_of {A} (m : Eff (list Event) A) t r :
  Runs m t r -> events_of m = t.
Proof. intros Hm. unfold events_of. now rewrite Hm. Qed.

(** A block appends its events, whatever the trace before it. *)
Lemma block_events (m : Eff (list Event) unit) :
  Block m -> Runs m (events_of m) (inr tt) /\ model_calls (events_of m) = 0.
Proof.
  intros (t & Hm & Qt). now rewrite (runs_events_of Hm).
Qed.

Lemma file_entry_runs file :
  Runs (file_entry file) (file_entry_events file) (inr tt).
Proof.
  unfold file_entry, file_entry_events.
  eapply runs_eq; [eapply runs_bind; apply runs_emit|reflexivity].
Qed.

Lemma file_entry_quiet file : model_calls (file_entry_events file) = 0.
Proof. reflexivity. Qed.

Lemma block_file_entry file : Block (file_entry file).
Proof.
  exists (file_entry_events file). split; [apply file_entry_runs|reflexivity].
Qed.

Ltac block :=
  repeat lazymatch goal with
    | |- Block (ret tt) => apply block_ret
    | |- Block (markdown _) => apply block_markdown
    | |- Block (file_entry _) => apply block_file_entry
    | |- Block (bind _ _) => apply block_bind
    | |- Block (if _ then _ else ret tt) => apply block_when
    | |- Block (forEach _ _) => apply block_forEach; intros ?
    end.

Lemma overview_packageFiles_block files : Block (overview_packageFiles files).
Proof. unfold overview_packageFiles. block. Qed.

Lemma overview_documentation_block files : Block (overview_documentation files).
Proof. unfold overview_documentation. block. Qed.

(** The TypeScript block of the chat overview writes the bucket. *)
Lemma overview_typescriptFiles_runs files :
  Runs (overview_typescriptFiles files) (typescript_bucket files) (inr tt).
Proof.
  unfold overview_typescriptFiles, typescript_bucket.
  destruct (filter is_tsFile files) as [|f tsFiles]; [apply runs_ret|].
  change (Nat.ltb 0 (List.length (f :: tsFiles))) with true. cbv iota.
  destruct (Nat.ltb 5 (List.length (f :: tsFiles))).
  - eapply runs_eq.
    + eapply runs_bind; [apply runs_emit|].
      eapply runs_bind; [|apply runs_emit].
      apply (runs_forEach file_entry file_entry_events), file_entry_runs.
    + reflexivity.
  - eapply runs_eq.
    + eapply runs_bind; [apply runs_emit|].
      eapply runs_bind; [|apply runs_ret].
      apply (runs_forEach file_entry file_entry_events), file_entry_runs.
    + reflexivity.
Qed.

Lemma typescript_bucket_quiet files : model_calls (typescript_bucket files) = 0.
Proof.
  unfold typescript_bucket.
  destruct (filter is_tsFile files) as [|f tsFiles]; [reflexivity|].
  change (?a :: ?l ++ ?r) with ([a] ++ l ++ r).
  rewrite !model_calls_app, model_calls_flat_map by apply file_entry_quiet.
  destruct (Nat.ltb 5 (List.length (f :: tsFiles))); reflexivity.
Qed.

(* ================================================================== *)
(** * The chat participant: overview and completion *)

Lemma findFiles_runs host include exclude maxResults :
  Runs (findFiles host include exclude maxResults)
       [FindFiles include exclude maxResults]
       (match search host include exclude with
        | inr matching => inr (firstn maxResults matching)
        | inl e => inl e
        end).
Proof.
  intros log. unfold findFiles, bind.
  destruct (search host include exclude); reflexivity.
Qed.

Lemma findFiles_returns host include exclude maxResults matching :
  search host include exclude = inr matching ->
  Runs (findFiles host include exclude maxResults)
       [FindFiles include exclude maxResults] (inr (firstn maxResults matching)).
Proof.
  intros Hsearch. pose proof (findFiles_runs host include exclude maxResults) as Hrun.
  now rewrite Hsearch in Hrun.
Qed.

Lemma findFiles_rejects host include exclude maxResults e :
  search host include exclude = inl e ->
  Runs (findFiles host include exclude maxResults)
       [FindFiles include exclude maxResults] (inl e).
Proof.
  intros Hsearch. pose proof (findFiles_runs host include exclude maxResults) as Hrun.
  now rewrite Hsearch in Hrun.
Qed.

(** With folders and a search that returns, the project-files block
    writes the search, its two headings, the package files, the
    TypeScript bucket and the documentation of the first hundred matching
    files. *)
Lemma overview_projectFiles_runs host matching :
  has_folders (workspaceFolders host) = true ->
  searched host = inr matching ->
  Runs (overview_projectFiles host)
       ([FindFiles "**/*.{json,ts,js,md}" "**/node_modules/**" 100;
         Markdown (nl +++ "## Project Files" +++ nl +++ nl);
         Markdown ("Here are some important files in your project:" +++ nl +++ nl)] ++
        events_of (overview_packageFiles (firstn 100 matching)) ++
        typescript_bucket (firstn 100 matching) ++
        events_of (overview_documentation (firstn 100 matching)))
       (inr tt).
Proof.
  intros Hfolders Hsearch. unfold overview_projectFiles. rewrite Hfolders.
  destruct (block_events (overview_packageFiles_block (firstn 100 matching)))
    as (Hp & _).
  destruct (block_events (overview_documentation_block (firstn 100 matching)))
    as (Hd & _).
  eapply runs_eq.
  - eapply runs_bind.
    + apply findFiles_returns, Hsearch.
    + eapply runs_bind; [apply runs_emit|].
      eapply runs_bind; [apply runs_emit|].
      eapply runs_bind; [exact Hp|].
      eapply runs_bind; [apply overview_typescriptFiles_runs|exact Hd].
  - reflexivity.
Qed.

(** The project-files block inside its [try] always returns and never
    calls the model. *)
Lemma overview_projectFiles_block host :
  Block (try_catch (overview_projectFiles host)
           (fun error => emit (ConsoleError "Error getting project files:" error))).
Proof.
  destruct (has_folders (workspaceFolders host)) eqn:Hfolders.
  - destruct (searched host) as [e|matching] eqn:Hsearch.
    + exists [FindFiles "**/*.{json,ts,js,md}" "**/node_modules/**" 100;
              ConsoleError "Error getting project files:" e].
      split; [|reflexivity].
      unfold overview_projectFiles. rewrite Hfolders.
      eapply runs_eq.
      * eapply runs_try_caught; [|apply runs_emit].
        apply runs_bind_throw, findFiles_rejects, Hsearch.
      * reflexivity.
    + eexists. split.
      * apply runs_try_ok, (overview_projectFiles_runs host Hfolders Hsearch).
      * destruct (block_events (overview_packageFiles_block (firstn 100 matching)))
          as (_ & Qp).
        destruct (block_events (overview_documentation_block (firstn 100 matching)))
          as (_ & Qd).
        now rewrite !model_calls_app, Qp, Qd, typescript_bucket_quiet.
  - exists []. split; [|reflexivity].
    unfold overview_projectFiles. rewrite Hfolders.
    apply runs_try_ok, runs_ret.
Qed.

Lemma overview_git_block host :
  Block (try_catch (overview_git host)
           (fun error => emit (ConsoleLog "Git information not available:" error))).
Proof.
  unfold overview_git. destruct (gitExtension host) as [|e|[[|repo repos]|]].
  - exists []. split; [apply runs_try_ok, runs_ret|reflexivity].
  - exists [ConsoleLog "Git information not available:" e]. split; [|reflexivity].
    eapply runs_eq.
    + eapply runs_try_caught; [apply runs_throw|apply runs_emit].
    + reflexivity.
  - exists []. split; [apply runs_try_ok, runs_ret|reflexivity].
  - assert (Block (markdown (nl +++ "## Git Repositories" +++ nl +++ nl) ;;
                   forEach
                     (fun repo =>
                        markdown ("- **Repository**: " +++ fsPath (rootUri repo)) ;;
                        markdown ("  - Current Branch: " +++
                                  or_else (HEAD_name repo) "Unknown"))
                     (repo :: repos))) as (t & Ht & Qt) by block.
    exists t. split; [apply runs_try_ok, Ht|exact Qt].
  - exists []. split; [apply runs_try_ok, runs_ret|reflexivity].
Qed.

Lemma overview_folders_block host : Block (overview_folders host).
Proof. unfold overview_folders. block. Qed.

Lemma overview_nextSteps_block : Block overview_nextSteps.
Proof. unfold overview_nextSteps. block. Qed.

(** The overview around its project-files part. *)
Lemma overview_around host filesPart :
  Runs (try_catch (overview_projectFiles host)
          (fun error => emit (ConsoleError "Error getting project files:" error)))
       filesPart (inr tt) ->
  Runs (overview host)
       (Markdown ("# Project Management Overview" +++ nl +++ nl) ::
        events_of (overview_folders host) ++
        overview_git_events host ++
        filesPart ++
        events_of overview_nextSteps)
       (inr tt).
Proof.
  intros Hfiles. unfold overview.
  destruct (block_events (overview_folders_block host)) as (Hf & _).
  destruct (block_events overview_nextSteps_block) as (Hr & _).
  destruct (block_events (overview_git_block host)) as (Hg & _).
  eapply runs_eq.
  - eapply runs_bind; [apply runs_emit|].
    eapply runs_bind; [exact Hf|].
    eapply runs_bind; [exact Hg|].
    eapply runs_bind; [exact Hfiles|exact Hr].
  - reflexivity.
Qed.

(** The overview always returns; it opens with its title and never calls
    the model. *)
Lemma overview_summary host :
  exists rest,
    Runs (overview host)
         (Markdown ("# Project Management Overview" +++ nl +++ nl) :: rest) (inr tt) /\
    model_calls rest = 0.
Proof.
  destruct (overview_projectFiles_block host) as (t & Ht & Qt).
  destruct (block_events (overview_folders_block host)) as (_ & Qf).
  destruct (block_events overview_nextSteps_block) as (_ & Qr).
  destruct (block_events (overview_git_block host)) as (_ & Qg).
  eexists. split; [exact (overview_around host Ht)|].
  unfold overview_git_events. now rewrite !model_calls_app, Qf, Qg, Qt, Qr.
Qed.

Lemma forAwait_runs text :
  Runs (forAwait markdown text) (map Markdown (fragments text))
       (match stream_error text with Some e => inl e | None => inr tt end).
Proof.
  induction text as [|e|fragment rest IH]; simpl.
  - apply runs_ret.
  - apply runs_throw.
  - eapply runs_eq.
    + eapply runs_bind; [apply runs_emit|exact IH].
    + reflexivity.
Qed.

(** The body of the [try] in [complete]: the call, then the fragments. *)
Lemma complete_body_runs request :
  Runs (emit (SendRequest [system_prompt; prompt request]) ;;
        chatResponse <- lift (sendRequest request [system_prompt; prompt request]) ;;
        forAwait markdown chatResponse)
       (SendRequest [system_prompt; prompt request] ::
        map Markdown (response_fragments (response_of request)))
       (match response_error (response_of request) with
        | Some e => inl e
        | None => inr tt
        end).
Proof.
  unfold response_of.
  destruct (sendRequest request [system_prompt; prompt request]) as [e|text]; simpl.
  - eapply runs_eq.
    + eapply runs_bind; [apply runs_emit|].
      apply runs_bind_throw. intros log. unfold lift. now rewrite app_nil_r.
    + reflexivity.
  - eapply runs_eq.
    + eapply runs_bind; [apply runs_emit|].
      eapply runs_bind; [|apply forAwait_runs].
      intros log. unfold lift. now rewrite app_nil_r.
    + reflexivity.
Qed.

(** The [else] branch of the handler, in full. *)
Lemma complete_runs request :
  Runs (complete request) (completion_events request)
       (match unhandled (response_error (response_of request)) with
        | Some e => inl e
        | None => inr tt
        end).
Proof.
  unfold complete, completion_events.
  pose proof (complete_body_runs request) as Hbody.
  destruct (response_error (response_of request)) as [e|]; simpl.
  - destruct (instanceof_LanguageModelError e) eqn:Hkind.
    + eapply runs_eq.
      * eapply runs_try_caught; [exact Hbody|]. rewrite Hkind.
        eapply runs_bind; apply runs_emit.
      * reflexivity.
    + eapply runs_eq.
      * eapply runs_try_caught; [exact Hbody|]. rewrite Hkind. apply runs_throw.
      * reflexivity.
  - eapply runs_eq; [apply runs_try_ok, Hbody|]. now rewrite app_nil_r.
Qed.

(** The handler, branch by branch. *)
Lemma handler_overview_runs host request t :
  is_overview (request_command request) = true ->
  Runs (overview host) t (inr tt) ->
  Runs (handler host request) t
       (inr (mkChatResult (or_else (request_command request) EmptyString))).
Proof.
  intros Hcmd Hrun. unfold handler. rewrite Hcmd.
  eapply runs_eq; [eapply runs_bind; [exact Hrun|apply runs_ret]|apply app_nil_r].
Qed.

Lemma handler_complete_runs host request :
  is_overview (request_command request) = false ->
  Runs (handler host request) (completion_events request)
       (match unhandled (response_error (response_of request)) with
        | Some e => inl e
        | None => inr (mkChatResult (or_else (request_command request) EmptyString))
        end).
Proof.
  intros Hcmd. unfold handler. rewrite Hcmd.
  pose proof (complete_runs request) as Hrun.
  destruct (unhandled (response_error (response_of request))) as [e|].
  - apply runs_bind_throw, Hrun.
  - eapply runs_eq; [eapply runs_bind; [exact Hrun|apply runs_ret]|apply app_nil_r].
Qed.

Lemma is_overview_Some_overview command :
  command = Some "overview" -> is_overview command = true.
Proof. now intros ->. Qed.

Lemma or_else_empty command :
  or_else command EmptyString =
  match command with
  | Some c => c
  | None => EmptyString
  end.
Proof.
  destruct command as [c|]; simpl; [|reflexivity].
  destruct (String.eqb_spec c EmptyString); congruence.
Qed.

Lemma completion_events_calls request :
  model_calls (completion_events request) = 1.
Proof.
  unfold completion_events.
  change (?a :: ?l ++ ?r) with ([a] ++ l ++ r).
  rewrite !model_calls_app.
  assert (forall l, model_calls (map Markdown l) = 0) as ->
    by (induction l; simpl; auto).
  unfold error_events.
  destruct (response_error (response_of request)) as [e|]; [|reflexivity].
  destruct (instanceof_LanguageModelError e); reflexivity.
Qed.

(** C5. When the request is forwarded and the model fails with [e],
    either by rejecting the request or while the response is read: if
    [e] is a [LanguageModelError] the handler logs it, writes the apology
    after the fragments received so far and returns; otherwise the
    handler throws [e] to its caller, and no apology is written. *)
Theorem handler_model_error host request log e :
  is_overview (request_command request) = false ->
  response_error (response_of request) = Some e ->
  (instanceof_LanguageModelError e = true ->
   handler host request log =
     (log ++
      SendRequest [system_prompt; prompt request] ::
      map Markdown (response_fragments (response_of request)) ++
      [ConsoleLog (message_of e) e; Markdown apology],
      inr (mkChatResult (or_else (request_command request) EmptyString)))) /\
  (instanceof_LanguageModelError e = false ->
   handler host request log =
     (log ++
      SendRequest [system_prompt; prompt request] ::
      map Markdown (response_fragments (response_of request)),
      inl e)).
Proof.
  intros Hcmd Herr.
  pose proof (handler_complete_runs host request Hcmd log) as Hrun.
  unfold completion_events in Hrun. rewrite Herr in Hrun. simpl in Hrun.
  split; intros Hkind; rewrite Hkind in Hrun; rewrite Hrun.
  - reflexivity.
  - now rewrite app_nil_r.
Qed.

(** C8. Whenever the handler returns, that is for the sub-command
    [overview] and for a forwarded request whose response ends without an
    error or with a [LanguageModelError], its result carries the
    sub-command of the request, the empty string when there is none. *)
Theorem handler_result_command host request log :
  is_overview (request_command request) = true \/
  unhandled (response_error (response_of request)) = None ->
  snd (handler host request log) =
  inr (mkChatResult
         match request_command request with
         | Some c => c
         | None => EmptyString
         end).
Proof.
  intros Hreturns. rewrite <- or_else_empty.
  destruct (is_overview (request_command request)) eqn:Hcmd.
  - destruct (overview_summary host) as (rest & Hrun & _).
    now rewrite (handler_overview_runs request Hcmd Hrun).
  - destruct Hreturns as [|Hok]; [discriminate|].
    rewrite (handler_complete_runs host request Hcmd), Hok. reflexivity.
Qed.

(** The trace of the overview, part by part. *)
Lemma handler_overview_bucket host request log matching :
  request_command request = Some "overview" ->
  has_folders (workspaceFolders host) = true ->
  searched host = inr matching ->
  fst (handler host request log) = log ++ overview_events host matching.
Proof.
  intros Hcmd Hfolders Hsearch.
  pose proof (overview_around host
                (runs_try_ok
                   (fun error => emit (ConsoleError "Error getting project files:" error))
                   (overview_projectFiles_runs host Hfolders Hsearch))) as Hrun.
  rewrite (handler_overview_runs request (is_overview_Some_overview Hcmd) Hrun).
  unfold overview_events. cbn zeta. simpl. now rewrite <- !app_assoc.
Qed.

Lemma capped_counts (matching : list Uri) :
  let files := firstn 100 matching in
  let tsFiles := filter is_tsFile files in
  List.length files = Nat.min 100 (List.length matching) /\
  List.length (firstn 5 (filter is_mainFile tsFiles)) <= 5 /\
  List.length tsFiles - 5 <= 95.
Proof.
  cbn zeta. split; [apply length_firstn|]. split; [apply firstn_le_length|].
  pose proof (filter_length_le is_tsFile (firstn 100 matching)) as Hts.
  pose proof (firstn_le_length 100 matching) as Hcap. lia.
Qed.

(* ================================================================== *)
(** * The project manager: [getFileContent] *)

Section ProjectManagerClaims.
Context {FS : Type} `{FileSystem FS}.

Implicit Types (w : @PmWorld FS).

(** C10. [getFileContent] never throws.  When the file of the fixed
    path does not exist, or exists and cannot be read, one error
    notification is shown, [writeText] is not called and the clipboard
    keeps its text.  When the file exists and is read, [writeText] is
    called with its content; if the clipboard accepts it the clipboard
    holds the content and the information notification follows the
    write, and if the clipboard rejects it the clipboard keeps its
    text and an error notification follows. *)
Theorem getFileContent_clipboard w :
  (existsSync (pm_fs w) filePath = false ->
   getFileContent w =
     (mkPmWorld (pm_fs w) (clipboard w) (clipboard_fault w)
        (pm_log w ++ [ShowErrorMessage ("File does not exist: " +++ filePath)]),
      inr tt)) /\
  (forall e,
     existsSync (pm_fs w) filePath = true ->
     readFileSync (pm_fs w) filePath = inl e ->
     getFileContent w =
       (mkPmWorld (pm_fs w) (clipboard w) (clipboard_fault w)
          (pm_log w ++ [ShowErrorMessage ("Error reading file: " +++ message_of e)]),
        inr tt)) /\
  (forall fileContent,
     existsSync (pm_fs w) filePath = true ->
     readFileSync (pm_fs w) filePath = inr fileContent ->
     clipboard_fault w = None ->
     getFileContent w =
       (mkPmWorld (pm_fs w) fileContent None
          (pm_log w ++
           [ClipboardWriteText fileContent;
            ShowInformationMessage
              ("Content from " +++ filePath +++ " has been copied to clipboard")]),
        inr tt)) /\
  (forall fileContent e,
     existsSync (pm_fs w) filePath = true ->
     readFileSync (pm_fs w) filePath = inr fileContent ->
     clipboard_fault w = Some e ->
     getFileContent w =
       (mkPmWorld (pm_fs w) (clipboard w) (clipboard_fault w)
          (pm_log w ++
           [ClipboardWriteText fileContent;
            ShowErrorMessage ("Error reading file: " +++ message_of e)]),
        inr tt)).
Proof.
  unfold getFileContent, try_catch, bind, gets, clipboard_writeText, bind,
    emit, modify.
  repeat split.
  - intros Hex. rewrite Hex. reflexivity.
  - intros e Hex Hread. rewrite Hex. simpl. rewrite Hread. reflexivity.
  - intros fileContent Hex Hread Hclip. rewrite Hex. simpl.
    rewrite Hread. simpl. rewrite Hclip. simpl.
    now rewrite <- app_assoc.
  - intros fileContent e Hex Hread Hclip. rewrite Hex. simpl.
    rewrite Hread. simpl. rewrite Hclip. simpl.
    now rewrite <- app_assoc.
Qed.
End ProjectManagerClaims.

(* ================================================================== *)
(** * The overview panel: [getProjectOverviewHtml] *)

Lemma append_assoc (a b c : string) : (a +++ b) +++ c = a +++ b +++ c.
Proof. induction a as [|x a IH]; simpl; [reflexivity|now rewrite IH]. Qed.

Lemma append_empty_r (a : string) : a +++ EmptyString = a.
Proof. induction a as [|x a IH]; simpl; [reflexivity|now rewrite IH]. Qed.

Lemma html_ret {A} (a : A) : RunsHtml (ret a) EmptyString [] (inr a).
Proof.
  intros [h l]. unfold ret. simpl. now rewrite append_empty_r, app_nil_r.
Qed.

Lemma html_append_runs s : RunsHtml (html_append s) s [] (inr tt).
Proof. intros [h l]. unfold html_append, modify. simpl. now rewrite app_nil_r. Qed.

Lemma html_emit (e : Event) : RunsHtml (emit e) EmptyString [e] (inr tt).
Proof. intros [h l]. unfold emit, modify. simpl. now rewrite append_empty_r. Qed.

Lemma html_bind {A B} (m : Eff HtmlState A) (k : A -> Eff HtmlState B)
    s1 t1 a s2 t2 r :
  RunsHtml m s1 t1 (inr a) -> RunsHtml (k a) s2 t2 r ->
  RunsHtml (bind m k) (s1 +++ s2) (t1 ++ t2) r.
Proof.
  intros Hm Hk w. unfold bind. rewrite Hm, Hk. simpl.
  now rewrite append_assoc, app_assoc.
Qed.

Lemma html_try_ok {A} (m : Eff HtmlState A) h s t a :
  RunsHtml m s t (inr a) -> RunsHtml (try_catch m h) s t (inr a).
Proof. intros Hm w. unfold try_catch. now rewrite Hm. Qed.

Lemma html_try_caught {A} (m : Eff HtmlState A) h s1 t1 e s2 t2 r :
  RunsHtml m s1 t1 (inl e) -> RunsHtml (h e) s2 t2 r ->
  RunsHtml (try_catch m h) (s1 +++ s2) (t1 ++ t2) r.
Proof.
  intros Hm Hh w. unfold try_catch. rewrite Hm, Hh. simpl.
  now rewrite append_assoc, app_assoc.
Qed.

Lemma html_eq {A} (m : Eff HtmlState A) s s' t t' r :
  RunsHtml m s t r -> s = s' -> t = t' -> RunsHtml m s' t' r.
Proof. now intros Hm <- <-. Qed.

Lemma html_forEach {A} (body : A -> Eff HtmlState unit) (text : A -> string) l :
  (forall x, RunsHtml (body x) (text x) [] (inr tt)) ->
  RunsHtml (forEach body l) (String.concat EmptyString (map text l)) [] (inr tt).
Proof.
  intros Hbody. induction l as [|x l IH]; simpl.
  - apply html_ret.
  - eapply html_eq; [eapply html_bind; [apply Hbody|exact IH]| |reflexivity].
    destruct (map text l) as [|y ys]; simpl; [apply append_empty_r|reflexivity].
Qed.

Lemma blockHtml_ret : BlockHtml (ret tt).
Proof. eexists. apply html_ret. Qed.

Lemma blockHtml_append s : BlockHtml (html_append s).
Proof. eexists. apply html_append_runs. Qed.

Lemma blockHtml_bind (m : Eff HtmlState unit) (k : unit -> Eff HtmlState unit) :
  BlockHtml m -> BlockHtml (k tt) -> BlockHtml (bind m k).
Proof.
  intros (s1 & H1) (s2 & H2). exists (s1 +++ s2).
  eapply html_eq; [eapply html_bind; eassumption|reflexivity|reflexivity].
Qed.

Lemma blockHtml_when (c : bool) (m : Eff HtmlState unit) :
  BlockHtml m -> BlockHtml (if c then m else ret tt).
Proof. destruct c; [trivial|intros _; apply blockHtml_ret]. Qed.

Lemma blockHtml_forEach {A} (body : A -> Eff HtmlState unit) l :
  (forall x, BlockHtml (body x)) -> BlockHtml (forEach body l).
Proof.
  intros Hbody. induction l as [|x l IH]; simpl.
  - apply blockHtml_ret.
  - apply blockHtml_bind; [apply Hbody|exact IH].
Qed.

Lemma html_text_of {A} (m : Eff HtmlState A) text t r :
  RunsHtml m text t r -> text_of m = text.
Proof. intros Hm. unfold text_of. now rewrite Hm. Qed.

(** A block appends its markup, whatever the page before it. *)
Lemma blockHtml_text (m : Eff HtmlState unit) :
  BlockHtml m -> RunsHtml m (text_of m) [] (inr tt).
Proof.
  intros (text & Hm). now rewrite (html_text_of Hm).
Qed.

Lemma html_file_item_runs file :
  RunsHtml (html_file_item file) (html_file_item_text file) [] (inr tt).
Proof. apply html_append_runs. Qed.

Ltac block_html :=
  repeat lazymatch goal with
    | |- BlockHtml (ret tt) => apply blockHtml_ret
    | |- BlockHtml (html_append _) => apply blockHtml_append
    | |- BlockHtml (html_file_item _) => apply blockHtml_append
    | |- BlockHtml (bind _ _) => apply blockHtml_bind
    | |- BlockHtml (if _ then _ else ret tt) => apply blockHtml_when
    | |- BlockHtml (forEach _ _) => apply blockHtml_forEach; intros ?
    end.

(** The TypeScript block of the panel writes its bucket. *)
Lemma html_typescriptFiles_runs files :
  RunsHtml (html_typescriptFiles files) (html_typescript_bucket files) [] (inr tt).
Proof.
  unfold html_typescriptFiles, html_typescript_bucket.
  destruct (filter is_tsFile files) as [|f tsFiles]; [apply html_ret|].
  change (Nat.ltb 0 (List.length (f :: tsFiles))) with true. cbv iota.
  destruct (Nat.ltb 5 (List.length (f :: tsFiles))).
  - eapply html_eq.
    + eapply html_bind; [apply html_append_runs|].
      eapply html_bind;
        [apply (html_forEach html_file_item html_file_item_text), html_file_item_runs|].
      eapply html_bind; apply html_append_runs.
    + reflexivity.
    + reflexivity.
  - eapply html_eq.
    + eapply html_bind; [apply html_append_runs|].
      eapply html_bind;
        [apply (html_forEach html_file_item html_file_item_text), html_file_item_runs|].
      eapply html_bind; [apply html_ret|apply html_append_runs].
    + reflexivity.
    + reflexivity.
Qed.

Lemma html_findFiles_returns host include exclude maxResults matching :
  search host include exclude = inr matching ->
  RunsHtml (findFiles host include exclude maxResults) EmptyString
           [FindFiles include exclude maxResults] (inr (firstn maxResults matching)).
Proof.
  intros Hsearch [h l]. unfold findFiles, bind, emit, modify. simpl.
  rewrite Hsearch. unfold ret. now rewrite append_empty_r.
Qed.

Lemma html_git_runs host :
  exists t,
    RunsHtml
      (try_catch (html_git host)
         (fun error => emit (ConsoleLog "Git information not available:" error)))
      (html_git_text host) t (inr tt).
Proof.
  assert (exists text t,
             RunsHtml
               (try_catch (html_git host)
                  (fun error =>
                     emit (ConsoleLog "Git information not available:" error)))
               text t (inr tt)) as (text & t & Hrun).
  { unfold html_git. destruct (gitExtension host) as [|e|[[|repo repos]|]].
    - do 2 eexists. apply html_try_ok, html_ret.
    - do 2 eexists. eapply html_try_caught; [|apply html_emit].
      intros [h l]. unfold throw. simpl. now rewrite append_empty_r, app_nil_r.
    - do 2 eexists. apply html_try_ok, html_ret.
    - match goal with
      | |- context [try_catch ?body _] =>
          assert (BlockHtml body) as (s & Hs) by block_html
      end.
      do 2 eexists. apply html_try_ok, Hs.
    - do 2 eexists. apply html_try_ok, html_ret. }
  exists t. unfold html_git_text. now rewrite (html_text_of Hrun).
Qed.

Lemma html_packageFiles_block files : BlockHtml (html_packageFiles files).
Proof. unfold html_packageFiles. block_html. Qed.

Lemma html_documentation_block files : BlockHtml (html_documentation files).
Proof. unfold html_documentation. block_html. Qed.

Lemma html_folders_block host : BlockHtml (html_folders host).
Proof. unfold html_folders. block_html. Qed.

Lemma html_projectFiles_runs host matching :
  has_folders (workspaceFolders host) = true ->
  searched host = inr matching ->
  RunsHtml (html_projectFiles host)
    (html_files_open +++
     text_of (html_packageFiles (firstn 100 matching)) +++
     html_typescript_bucket (firstn 100 matching) +++
     text_of (html_documentation (firstn 100 matching)) +++
     "</div>")
    [FindFiles "**/*.{json,ts,js,md}" "**/node_modules/**" 100] (inr tt).
Proof.
  intros Hfolders Hsearch. unfold html_projectFiles. rewrite Hfolders.
  pose proof (blockHtml_text (html_packageFiles_block (firstn 100 matching))) as Hp.
  pose proof (blockHtml_text (html_documentation_block (firstn 100 matching))) as Hd.
  eapply html_eq.
  - eapply html_bind; [apply html_findFiles_returns, Hsearch|].
    eapply html_bind; [apply html_append_runs|].
    eapply html_bind; [exact Hp|].
    eapply html_bind; [apply html_typescriptFiles_runs|].
    eapply html_bind; [exact Hd|apply html_append_runs].
  - reflexivity.
  - reflexivity.
Qed.

(** The page of the panel, part by part: with a workspace folder and a
    search that returns, [getProjectOverviewHtml] returns the page, and
    the page replaces whatever [html] held before. *)
Lemma getProjectOverviewHtml_bucket host w matching :
  has_folders (workspaceFolders host) = true ->
  searched host = inr matching ->
  exists t,
    getProjectOverviewHtml host w =
    (mkHtmlState (overview_page host matching) (html_log w ++ t),
     inr (overview_page host matching)).
Proof.
  intros Hfolders Hsearch.
  pose proof (blockHtml_text (html_folders_block host)) as Hf.
  destruct (html_git_runs host) as (tg & Hg).
  pose proof (html_projectFiles_runs host Hfolders Hsearch) as Hfiles.
  exists (tg ++ [FindFiles "**/*.{json,ts,js,md}" "**/node_modules/**" 100]).
  unfold getProjectOverviewHtml, overview_page.
  unfold bind at 1, html_assign, modify.
  unfold bind at 1. rewrite Hf.
  unfold bind at 1. rewrite Hg.
  unfold bind at 1, try_catch. rewrite Hfiles.
  unfold bind at 1, html_append at 1, modify.
  unfold bind at 1, html_append at 1, modify.
  unfold gets. cbn [html html_log].
  rewrite !app_nil_r, <- !app_assoc, !append_assoc. reflexivity.
Qed.

(* ================================================================== *)
(** * The capped search of both overviews *)

(** With more than five hinted TypeScript files the bucket is full: the
    heading, five entries and the note. *)
Lemma typescript_bucket_full files :
  5 < List.length (filter is_mainFile (filter is_tsFile files)) ->
  List.length (firstn 5 (filter is_mainFile (filter is_tsFile files))) = 5 /\
  typescript_bucket files =
    Markdown (nl +++ "### TypeScript Files" +++ nl +++ nl) ::
    flat_map file_entry_events (firstn 5 (filter is_mainFile (filter is_tsFile files))) ++
    [more_note (List.length (filter is_tsFile files) - 5)].
Proof.
  intros Hmain. split; [rewrite length_firstn; lia|].
  unfold typescript_bucket.
  pose proof (filter_length_le is_mainFile (filter is_tsFile files)) as Hts.
  destruct (filter is_tsFile files) as [|f tsFiles]; [simpl in Hmain; lia|].
  assert (Nat.ltb 5 (List.length (f :: tsFiles)) = true) as ->
    by (apply Nat.ltb_lt; lia).
  reflexivity.
Qed.

(** C1. With a workspace folder and a search that returns, both
    overviews consider the first hundred of the matching files (a
    hundred of them when a hundred and fifty match).  The TypeScript
    bucket, in the trace of the chat overview and in the page of the
    panel, comes after the package files and is written when one of the
    files considered is a TypeScript file: its heading, then the entries
    of the first five TypeScript files whose path contains [main],
    [extension] or [index], so five entries at most, and then a note
    when more than five TypeScript files were considered.  When more
    than five hinted files are left, five entries are written and the
    note follows them; the number in the note is the number of
    TypeScript files considered less five, which is at most
    ninety-five. *)
Theorem overview_typescript_bucket_capped host matching :
  has_folders (workspaceFolders host) = true ->
  searched host = inr matching ->
  let files := firstn 100 matching in
  let tsFiles := filter is_tsFile files in
  let shown := firstn 5 (filter is_mainFile tsFiles) in
  List.length files = Nat.min 100 (List.length matching) /\
  List.length shown <= 5 /\
  List.length tsFiles - 5 <= 95 /\
  (forall request log,
      request_command request = Some "overview" ->
      fst (handler host request log) = log ++ overview_events host matching) /\
  typescript_bucket files =
    match tsFiles with
    | [] => []
    | _ :: _ =>
        Markdown (nl +++ "### TypeScript Files" +++ nl +++ nl) ::
        flat_map file_entry_events shown ++
        (if Nat.ltb 5 (List.length tsFiles)
         then [more_note (List.length tsFiles - 5)] else [])
    end /\
  (5 < List.length (filter is_mainFile tsFiles) ->
   List.length shown = 5 /\
   typescript_bucket files =
     Markdown (nl +++ "### TypeScript Files" +++ nl +++ nl) ::
     flat_map file_entry_events shown ++ [more_note (List.length tsFiles - 5)]) /\
  (forall w,
      snd (getProjectOverviewHtml host w) = inr (overview_page host matching)) /\
  html_typescript_bucket files =
    match tsFiles with
    | [] => EmptyString
    | _ :: _ =>
        html_typescript_open +++
        String.concat EmptyString (map html_file_item_text shown) +++
        (if Nat.ltb 5 (List.length tsFiles)
         then html_more_note (List.length tsFiles - 5) else EmptyString) +++
        "</ul>"
    end.
Proof.
  intros Hfolders Hsearch. cbn zeta.
  destruct (capped_counts matching) as (Hfiles & Hshown & Hnote).
  split; [exact Hfiles|]. split; [exact Hshown|]. split; [exact Hnote|].
  split; [|split; [reflexivity|split; [|split; [|reflexivity]]]].
  - intros request log Hcmd. now apply handler_overview_bucket.
  - apply typescript_bucket_full.
  - intros w.
    destruct (getProjectOverviewHtml_bucket host w Hfolders Hsearch) as (t & Heq).
    now rewrite Heq.
Qed.

(* ================================================================== *)
(** * The statements at sample inputs *)

(** The sample folder lists its file, with its size, and its folder. *)
Lemma readDirectory_lists_every_entry_witness :
  exists records,
    readDirectory "/w/project_management" (mkTreeWorld sample_fs []) =
      (mkTreeWorld sample_fs [], inr records) /\
    map label records = ["notes.txt"; "docs"] /\
    map description records = [Some "1.50 KB"; None] /\
    List.length (filter shown_as_file records) = 1 /\
    List.length (filter shown_as_folder records) = 1.
Proof.
  destruct (readDirectory_lists_every_entry
              "/w/project_management" (mkTreeWorld sample_fs [])
              (items := ["notes.txt"; "docs"])
              (stats := [mkStats false 1536; mkStats true 0]))
    as (records & Hrun & Hrec & _ & Hlab & Hfiles & Hfolders).
  - reflexivity.
  - reflexivity.
  - repeat constructor.
  - exists records. repeat split; try assumption.
    rewrite Hrec. reflexivity.
Defined.

(** A folder with a dangling link and a path that is a file both list as
    empty. *)
Lemma readDirectory_never_throws_witness :
  snd (readDirectory "/w/project_management" (mkTreeWorld sample_fs_broken [])) = inr [] /\
  snd (readDirectory "/w/project_management/notes.txt" (mkTreeWorld sample_fs [])) = inr [].
Proof.
  split.
  - apply (proj2 (proj2 (readDirectory_never_throws
                           "/w/project_management" (mkTreeWorld sample_fs_broken [])))
             ["notes.txt"; "gone"; "docs"] "gone"
             (Error "ENOENT: no such file or directory")).
    + reflexivity.
    + simpl. tauto.
    + reflexivity.
  - apply (proj1 (proj2 (readDirectory_never_throws
                           "/w/project_management/notes.txt" (mkTreeWorld sample_fs [])))
             (Error "ENOTDIR: not a directory")).
    reflexivity.
Defined.

(** One dangling link empties the listing of the sample folder. *)
Lemma readDirectory_all_or_nothing_witness :
  exists e',
    readDirectory "/w/project_management" (mkTreeWorld sample_fs_broken []) =
    (mkTreeWorld sample_fs_broken
       [ConsoleError "Error reading directory /w/project_management:" e'],
     inr []).
Proof.
  apply readDirectory_all_or_nothing
    with (items := ["notes.txt"; "gone"; "docs"]) (item := "gone")
         (e := Error "ENOENT: no such file or directory").
  - reflexivity.
  - reflexivity.
  - simpl. tauto.
  - reflexivity.
Defined.

(** A node of the tree whose folder has been removed has no children. *)
Lemma getChildren_missing_path_witness :
  exists w',
    getChildren "/w" (Some sample_folder_item) (mkTreeWorld sample_fs []) = (w', inr []) /\
    tree_fs w' = sample_fs.
Proof.
  apply (getChildren_missing_path "/w" sample_folder_item (mkTreeWorld sample_fs [])).
  - reflexivity.
  - discriminate.
Defined.

(** The root of a workspace without the folder: the folder is created
    after [src], and the listing is empty. *)
Lemma getChildren_creates_root_witness :
  let fs' :=
    Directory true
      [("w", Directory true
         [("src", Directory true []); ("project_management", Directory true [])])] in
  let w' :=
    mkTreeWorld fs'
      [ShowInformationMessage "Created project_management folder for file management"] in
  existsSync fs' "/w/project_management" = true /\
  getChildren "/w" None (mkTreeWorld sample_fs_bare []) =
    readDirectory "/w/project_management" w' /\
  getChildren "/w" None (mkTreeWorld sample_fs_bare []) = (w', inr []).
Proof.
  assert ("/w" <> EmptyString) as Hroot by discriminate.
  exact (@getChildren_creates_root SimFs _ _ "/w" (mkTreeWorld sample_fs_bare [])
           Hroot eq_refl).
Defined.

(** The root of a workspace that refuses the folder. *)
Lemma getChildren_root_refused :
  getChildren "/w" None (mkTreeWorld sample_fs_locked []) =
  (mkTreeWorld sample_fs_locked
     [ConsoleError "Failed to create project_management folder:"
        (Error "EACCES: permission denied")],
   inr []).
Proof. reflexivity. Qed.

(** A response cut by a [LanguageModelError], and one cut by another
    error. *)
Lemma handler_model_error_witness :
  handler crowded_host blocked_request [] =
    ([SendRequest [system_prompt; "plan the release"];
      Markdown "First, ";
      ConsoleLog "blocked" (LanguageModelError "blocked" "Blocked");
      Markdown apology],
     inr (mkChatResult EmptyString)) /\
  handler crowded_host broken_request [] =
    ([SendRequest [system_prompt; "plan the release"]; Markdown "First, "],
     inl (Error "socket closed")).
Proof.
  split.
  - exact (proj1 (handler_model_error crowded_host blocked_request []
                    (e := LanguageModelError "blocked" "Blocked") eq_refl eq_refl)
             eq_refl).
  - exact (proj2 (handler_model_error crowded_host broken_request []
                    (e := Error "socket closed") eq_refl eq_refl)
             eq_refl).
Defined.

(** The result of the overview request and of a request answered with
    the apology. *)
Lemma handler_result_command_witness :
  snd (handler crowded_host overview_request []) = inr (mkChatResult "overview") /\
  snd (handler crowded_host blocked_request []) = inr (mkChatResult EmptyString).
Proof.
  split.
  - exact (handler_result_command crowded_host overview_request [] (or_introl eq_refl)).
  - exact (handler_result_command crowded_host blocked_request [] (or_intror eq_refl)).
Defined.

(** The overview of the workspace with a hundred and fifty hinted
    TypeScript files. *)
Lemma overview_typescript_bucket_capped_witness :
  List.length (firstn 100 crowded_matching) = 100 /\
  fst (handler crowded_host overview_request []) =
    [] ++ overview_events crowded_host crowded_matching /\
  typescript_bucket (firstn 100 crowded_matching) =
    Markdown (nl +++ "### TypeScript Files" +++ nl +++ nl) ::
    flat_map file_entry_events (map index_file [0; 1; 2; 3; 4]) ++ [more_note 95].
Proof.
  destruct (overview_typescript_bucket_capped crowded_host (matching := crowded_matching)
              eq_refl eq_refl)
    as (Hfiles & _ & _ & Hchat & _ & Hfull & _).
  split; [exact Hfiles|]. split; [exact (Hchat overview_request [] eq_refl)|].
  assert (5 < List.length
                (filter is_mainFile (filter is_tsFile (firstn 100 crowded_matching))))
    as Hmany by (vm_compute; lia).
  destruct (Hfull Hmany) as (_ & Hbucket).
  rewrite Hbucket. reflexivity.
Defined.

(** The note of the overview for a hundred and fifty matching TypeScript
    files, all of them hinted. *)
Lemma crowded_overview_note :
  List.length crowded_matching = 150 /\
  In (more_note 95) (fst (handler crowded_host overview_request [])) /\
  ~ In (more_note 145) (fst (handler crowded_host overview_request [])).
Proof.
  split; [reflexivity|]. split; [vm_compute; tauto|].
  intros Hin. vm_compute in Hin.
  repeat (destruct Hin as [Hin|Hin]; [discriminate|]).
  exact Hin.
Qed.

(** C1, as the specification words it, fails on the code: with a hundred
    and fifty matching TypeScript files, all of them hinted, the note of
    the overview counts ninety-five files, not a hundred and forty-five. *)
Lemma spec_overview_note_fails :
  List.length crowded_matching = 150 /\
  In (more_note 95) (fst (handler crowded_host overview_request [])) /\
  ~ spec_overview_note.
Proof.
  destruct crowded_overview_note as (Hcount & Hnote & Hmissing).
  split; [exact Hcount|]. split; [exact Hnote|].
  intros Hclaim. apply Hmissing.
  apply (Hclaim crowded_host overview_request crowded_matching eq_refl eq_refl eq_refl).
  vm_compute. lia.
Qed.

(** The note counts the TypeScript files, not the hinted ones: with ten
    TypeScript files of which one is hinted, one entry is shown and the
    note reports five more. *)
Lemma lopsided_overview_bucket :
  exists matching,
    searched lopsided_host = inr matching /\
    typescript_bucket (firstn 100 matching) =
      Markdown (nl +++ "### TypeScript Files" +++ nl +++ nl) ::
      file_entry_events (index_file 0) ++ [more_note 5].
Proof. eexists. split; reflexivity. Qed.

(** The fixed file copied to the clipboard, and the notification when
    there is no such file. *)
Lemma getFileContent_clipboard_witness :
  getFileContent (mkPmWorld sample_fs_output "old text" None []) =
    (mkPmWorld sample_fs_output "combined" None
       [ClipboardWriteText "combined";
        ShowInformationMessage
          "Content from X:/CombinedOutput.txt has been copied to clipboard"],
     inr tt) /\
  getFileContent (mkPmWorld sample_fs "old text" None []) =
    (mkPmWorld sample_fs "old text" None
       [ShowErrorMessage "File does not exist: X:/CombinedOutput.txt"],
     inr tt).
Proof.
  split.
  - exact (proj1 (proj2 (proj2 (getFileContent_clipboard
                                  (mkPmWorld sample_fs_output "old text" None []))))
             "combined" eq_refl eq_refl eq_refl).
  - exact (proj1 (getFileContent_clipboard (mkPmWorld sample_fs "old text" None []))
             eq_refl).
Defined.

(* ================================================================== *)
(** * More on the tree view *)

Section TreeViewMore.
Context {FS : Type} `{FileSystem FS}.

Implicit Types (w : @TreeWorld FS) (fs : FS) (log : list Event).

(** The entries before the first one that cannot be stat-ed do not
    matter: the error of that entry is the outcome. *)
Lemma mapE_items_first_failure dir w before item after e :
  Forall (fun x => exists st, statSync (tree_fs w) (path_join dir x) = inr st) before ->
  statSync (tree_fs w) (path_join dir item) = inl e ->
  mapE (readDirectory_item dir) (before ++ item :: after) w = (w, inl e).
Proof.
  intros Hbefore Hitem. induction Hbefore as [|x before [st Hx] _ IH]; simpl.
  - unfold bind at 1. now rewrite readDirectory_item_eq, Hitem.
  - unfold bind at 1. rewrite readDirectory_item_eq, Hx.
    unfold bind at 1. now rewrite IH.
Qed.

(** A list of records comes from entries that all have [Stats]. *)
Lemma mapE_items_inv dir w items w' records :
  mapE (readDirectory_item dir) items w = (w', inr records) ->
  exists stats,
    Forall2 (fun item st => statSync (tree_fs w) (path_join dir item) = inr st)
            items stats /\
    records =
      map (fun p => listed_item path_join dir (fst p) (snd p)) (combine items stats).
Proof.
  revert records. induction items as [|item items IH]; intros records Hrun.
  - inversion Hrun; subst. exists []. split; [constructor|reflexivity].
  - simpl in Hrun. unfold bind at 1 in Hrun. rewrite readDirectory_item_eq in Hrun.
    destruct (statSync (tree_fs w) (path_join dir item)) as [e|st] eqn:Hst;
      [discriminate|].
    unfold bind at 1 in Hrun.
    destruct (mapE (readDirectory_item dir) items w) as [w1 [e|l]] eqn:Hrest;
      [discriminate|].
    inversion Hrun; subst.
    destruct (IH l eq_refl) as (stats & Hall & ->).
    exists (st :: stats). split; [now constructor|reflexivity].
Qed.

(** The records of a listing are those of entries with [Stats]. *)
Lemma readDirectory_inv dir w w' records :
  readDirectory dir w = (w', inr records) ->
  records = [] \/
  exists items stats,
    w' = w /\
    readdirSync (tree_fs w) dir = inr items /\
    Forall2 (fun item st => statSync (tree_fs w) (path_join dir item) = inr st)
            items stats /\
    records =
      map (fun p => listed_item path_join dir (fst p) (snd p)) (combine items stats).
Proof.
  rewrite readDirectory_eq.
  destruct (existsSync (tree_fs w) dir); [|intros [= <- <-]; now left].
  destruct (readdirSync (tree_fs w) dir) as [e|items] eqn:Hdir;
    [intros [= <- <-]; now left|].
  pose proof (mapE_items_world dir w items) as Hw.
  destruct (mapE (readDirectory_item dir) items w) as [w1 [e|l]] eqn:Hmap;
    simpl in *; subst w1.
  - intros [= <- <-]. now left.
  - intros [= <- <-]. right.
    destruct (mapE_items_inv _ _ _ Hmap) as (stats & Hall & Hl).
    exists items, stats. repeat split; assumption.
Qed.

(** [getChildren] for a path that exists is the listing of that path. *)
Lemma getChildren_existing workspaceRoot element w :
  workspaceRoot <> EmptyString ->
  existsSync (tree_fs w)
    (match element with
     | Some element => fullPath element
     | None => path_join workspaceRoot "project_management"
     end) = true ->
  getChildren workspaceRoot element w =
  readDirectory
    (match element with
     | Some element => fullPath element
     | None => path_join workspaceRoot "project_management"
     end) w.
Proof.
  intros Hroot Hex. unfold getChildren.
  apply String.eqb_neq in Hroot. rewrite Hroot.
  unfold bind at 1, gets. now rewrite Hex.
Qed.

(** X1. When the enumeration of an existing directory returns and an
    entry cannot be stat-ed while all entries before it can, the listing
    is empty and the error logged is the error of that entry, whatever
    the entries after it are. *)
Theorem readDirectory_logs_first_failure dir w before item after e :
  existsSync (tree_fs w) dir = true ->
  readdirSync (tree_fs w) dir = inr (before ++ item :: after) ->
  Forall (fun x => exists st, statSync (tree_fs w) (path_join dir x) = inr st) before ->
  statSync (tree_fs w) (path_join dir item) = inl e ->
  readDirectory dir w =
  (mkTreeWorld (tree_fs w)
     (tree_log w ++ [ConsoleError ("Error reading directory " +++ dir +++ ":") e]),
   inr []).
Proof.
  intros Hex Hdir Hbefore Hitem.
  rewrite readDirectory_eq, Hex, Hdir.
  erewrite mapE_items_first_failure; [reflexivity|eassumption|eassumption].
Qed.

(** X2. The listing is silent unless it fails: a directory that does
    not exist lists as empty without a log entry, a listing that is not
    empty leaves the world as it was, and a failing enumeration is
    logged once, with the error it threw. *)
Theorem readDirectory_silent_unless_failed dir w :
  (existsSync (tree_fs w) dir = false -> readDirectory dir w = (w, inr [])) /\
  (forall w' records,
      readDirectory dir w = (w', inr records) -> records <> [] -> w' = w) /\
  (forall e,
      existsSync (tree_fs w) dir = true ->
      readdirSync (tree_fs w) dir = inl e ->
      readDirectory dir w =
      (mkTreeWorld (tree_fs w)
         (tree_log w ++ [ConsoleError ("Error reading directory " +++ dir +++ ":") e]),
       inr [])).
Proof.
  split; [|split].
  - intros Hex. now rewrite readDirectory_eq, Hex.
  - intros w' records Hrun Hne.
    destruct (readDirectory_inv _ _ Hrun) as [->|(items & stats & Hw & _)];
      [contradiction|exact Hw].
  - intros e Hex Hdir. now rewrite readDirectory_eq, Hex, Hdir.
Qed.

Lemma listed_item_listed_in dir item st :
  listed_in path_join dir (listed_item path_join dir item st).
Proof.
  unfold listed_in, listed_item. destruct (isDirectory st); simpl.
  - repeat split. right. repeat split.
  - repeat split. left. repeat split. eexists. split; reflexivity.
Qed.

Lemma readDirectory_listed_in dir w w' records :
  readDirectory dir w = (w', inr records) ->
  Forall (listed_in path_join dir) records.
Proof.
  intros Hrun.
  destruct (readDirectory_inv _ _ Hrun) as [->|(items & stats & _ & _ & _ & ->)];
    [constructor|].
  apply Forall_forall. intros r Hin. apply in_map_iff in Hin.
  destruct Hin as ([item st] & <- & _). apply listed_item_listed_in.
Qed.

(** X3. Every record of a listing of [dir] carries the path of its
    entry under [dir] as [fullPath] and [resourceUri]; a record in state
    [None] has the file icon, a size and the command that opens its own
    path, and a record in state [Collapsed] has the folder icon and
    neither command nor size. *)
Theorem readDirectory_records dir w w' records r :
  readDirectory dir w = (w', inr records) ->
  In r records ->
  fullPath r = path_join dir (label r) /\
  resourceUri r = fullPath r /\
  contextValue r = "fileItem" /\
  ((collapsibleState r = TreeItemCollapsibleState.None /\
    iconPath r = "file" /\
    command r = Some (mkCommand "vscode.open" "Open File" [fullPath r]) /\
    exists d,
      description r = Some (d +++ " KB") /\
      tooltip r = Some (label r +++ " - " +++ d +++ " KB")) \/
   (collapsibleState r = TreeItemCollapsibleState.Collapsed /\
    iconPath r = "folder" /\
    command r = None /\
    description r = None /\
    tooltip r = None)).
Proof.
  intros Hrun Hin.
  pose proof (readDirectory_listed_in _ _ Hrun) as Hall.
  rewrite Forall_forall in Hall. exact (Hall r Hin).
Qed.

(** X4. Expanding a record of a listing lists the path of its entry:
    for a record [r] listed under [dir] whose path exists,
    [getChildren] of [r] is [readDirectory] of [dir] joined with the
    name of [r]. *)
Theorem getChildren_expands_listed workspaceRoot dir w w' records r :
  workspaceRoot <> EmptyString ->
  readDirectory dir w = (w', inr records) ->
  In r records ->
  existsSync (tree_fs w) (path_join dir (label r)) = true ->
  getChildren workspaceRoot (Some r) w = readDirectory (path_join dir (label r)) w.
Proof.
  intros Hroot Hrun Hin Hex.
  pose proof (readDirectory_listed_in _ _ Hrun) as Hall.
  rewrite Forall_forall in Hall. destruct (Hall r Hin) as (Hpath & _).
  rewrite <- Hpath in *. now apply (getChildren_existing (Some r)).
Qed.
End TreeViewMore.

Section TreeViewComposition.
Context {FS : Type} `{FileSystem FS}.

Implicit Types (w : @TreeWorld FS) (fs : FS) (log : list Event).

(** X5. [getChildren] returns a list for every provider, node and file
    system, never an exception, and it leaves the file system as it was
    unless the path asked for is the project-management folder of a
    workspace root, that folder does not exist and the recursive
    [mkdirSync] returns: then the file system is the one [mkdirSync]
    returned. *)
Theorem getChildren_writes_only_the_root workspaceRoot element w :
  exists w' records,
    getChildren workspaceRoot element w = (w', inr records) /\
    (tree_fs w' = tree_fs w \/
     (workspaceRoot <> EmptyString /\
      match element with
      | Some element =>
          fullPath element = path_join workspaceRoot "project_management"
      | None => True
      end /\
      existsSync (tree_fs w) (path_join workspaceRoot "project_management") = false /\
      mkdirSync (tree_fs w) (path_join workspaceRoot "project_management") =
        inr (tree_fs w'))).
Proof.
  unfold getChildren.
  destruct (String.eqb_spec workspaceRoot EmptyString) as [Hroot|Hroot].
  { do 2 eexists. split; [reflexivity|now left]. }
  set (dir := match element with
              | Some element => fullPath element
              | None => path_join workspaceRoot "project_management"
              end).
  unfold bind at 1, gets.
  destruct (existsSync (tree_fs w) dir) eqn:Hex; simpl.
  { destruct (readDirectory_total dir w) as (w' & records & Hrun).
    exists w', records. split; [exact Hrun|left].
    pose proof (readDirectory_fs dir w) as Hfs. now rewrite Hrun in Hfs. }
  destruct (String.eqb_spec dir (path_join workspaceRoot "project_management"))
    as [Hdir|Hdir].
  2:{ do 2 eexists. split; [reflexivity|now left]. }
  unfold bind at 1, try_catch, bind at 1, fs_write.
  destruct (mkdirSync (tree_fs w) dir) as [e|fs'] eqn:Hmk.
  { do 2 eexists. split; [reflexivity|now left]. }
  simpl.
  match goal with
  | |- context [readDirectory dir ?w1] =>
      destruct (readDirectory_total dir w1) as (w' & records & Hrun);
      pose proof (readDirectory_fs dir w1) as Hfs
  end.
  exists w', records. split; [exact Hrun|right].
  rewrite Hrun in Hfs. simpl in Hfs. rewrite Hfs.
  rewrite Hdir in Hex, Hmk.
  repeat split; try assumption.
  destruct element; [exact Hdir|exact I].
Qed.

(** X7. The size shown for a file is its size in kilobytes rounded to
    the nearest hundredth, a half rounding up: the description of the
    record of a file of [bytes] bytes is the number [n] of hundredths
    with two decimals followed by [" KB"], where
    [1024 * n <= 100 * bytes + 512 < 1024 * (n + 1)]. *)
Theorem file_description_rounds dir item w bytes :
  statSync (tree_fs w) (path_join dir item) = inr (mkStats false bytes) ->
  exists r,
    readDirectory_item dir item w = (w, inr r) /\
    description r = Some (two_decimals (hundredths bytes) +++ " KB") /\
    (1024 * hundredths bytes <= 100 * bytes + 512 /\
     100 * bytes + 512 < 1024 * (hundredths bytes + 1))%N.
Proof.
  intros Hst. eexists. split; [|split].
  - rewrite readDirectory_item_eq, Hst. reflexivity.
  - reflexivity.
  - unfold hundredths.
    assert (1024 <> 0)%N as Hnz by discriminate.
    pose proof (N.div_mod (bytes * 100 + 512) 1024 Hnz) as Hdiv.
    pose proof (N.mod_lt (bytes * 100 + 512) 1024 Hnz) as Hmod.
    set (q := ((bytes * 100 + 512) / 1024)%N) in *.
    set (r := ((bytes * 100 + 512) mod 1024)%N) in *.
    lia.
Qed.
Context `{!FileSystemLaws FS}.

(** X6. Creating the folder is done once: after a [getChildren] for the
    root that created the project-management folder, a second
    [getChildren] for the root returns the empty listing again and
    changes nothing, neither the file system nor the trace. *)
Theorem getChildren_root_twice workspaceRoot w fs' :
  workspaceRoot <> EmptyString ->
  existsSync (tree_fs w) (path_join workspaceRoot "project_management") = false ->
  mkdirSync (tree_fs w) (path_join workspaceRoot "project_management") = inr fs' ->
  let w1 := fst (getChildren workspaceRoot None w) in
  tree_fs w1 = fs' /\
  getChildren workspaceRoot None w1 = (w1, inr []).
Proof.
  intros Hroot Hex Hmk. cbn zeta.
  rewrite (getChildren_root_absent w Hroot Hex), Hmk.
  pose proof (mkdirSync_exists _ _ Hmk) as Hnow.
  pose proof (mkdirSync_fresh _ _ Hex Hmk) as Hempty.
  rewrite readDirectory_eq. simpl. rewrite Hnow, Hempty. simpl.
  split; [reflexivity|].
  rewrite (getChildren_existing None); [|exact Hroot|exact Hnow].
  rewrite readDirectory_eq. simpl. now rewrite Hnow, Hempty.
Qed.

End TreeViewComposition.

(* ================================================================== *)
(** * More on the chat participant *)

Lemma flat_map_singleton {A B} (f : A -> B) (l : list A) :
  flat_map (fun x => [f x]) l = map f l.
Proof. induction l as [|x l IH]; simpl; [reflexivity|now rewrite IH]. Qed.

Lemma in_firstn {A} (x : A) n l : In x (firstn n l) -> In x l.
Proof.
  intros Hin. rewrite <- (firstn_skipn n l). apply in_or_app. now left.
Qed.

Lemma references_app t1 t2 : references (t1 ++ t2) = references t1 ++ references t2.
Proof. unfold references. apply flat_map_app. Qed.

Lemma references_entries files :
  references (flat_map file_entry_events files) = files.
Proof.
  induction files as [|f files IH]; [reflexivity|].
  simpl. unfold references in *. simpl. now rewrite IH.
Qed.

Lemma references_markdown (l : list string) : references (map Markdown l) = [].
Proof. induction l as [|s l IH]; [reflexivity|exact IH]. Qed.

(** The workspace-folders block writes its heading and a line per
    folder, or nothing. *)
Lemma overview_folders_events host :
  events_of (overview_folders host) =
  if has_folders (workspaceFolders host)
  then Markdown ("## Workspace Folders" +++ nl +++ nl) ::
       map folder_event (folders_of (workspaceFolders host))
  else [].
Proof.
  apply runs_events_of with (r := inr tt). unfold overview_folders.
  destruct (has_folders (workspaceFolders host)); [|apply runs_ret].
  eapply runs_eq.
  - eapply runs_bind; [apply runs_emit|].
    apply (runs_forEach _ (fun folder => [folder_event folder])).
    intros folder. apply runs_emit.
  - simpl. now rewrite flat_map_singleton.
Qed.

(** The git block inside its [try], case by case. *)
Lemma overview_git_events_cases host :
  overview_git_events host =
  match gitExtension host with
  | GitMissing => []
  | GitThrows e => [ConsoleLog "Git information not available:" e]
  | GitApi None => []
  | GitApi (Some []) => []
  | GitApi (Some repositories) =>
      Markdown (nl +++ "## Git Repositories" +++ nl +++ nl) ::
      flat_map repository_events repositories
  end.
Proof.
  unfold overview_git_events. apply runs_events_of with (r := inr tt).
  unfold overview_git. destruct (gitExtension host) as [|e|[[|repo repos]|]].
  - apply runs_try_ok, runs_ret.
  - eapply runs_eq; [eapply runs_try_caught; [apply runs_throw|apply runs_emit]|].
    reflexivity.
  - apply runs_try_ok, runs_ret.
  - apply runs_try_ok. eapply runs_eq.
    + eapply runs_bind; [apply runs_emit|].
      apply (runs_forEach _ repository_events). intros r.
      eapply runs_eq; [eapply runs_bind; apply runs_emit|reflexivity].
    + reflexivity.
  - apply runs_try_ok, runs_ret.
Qed.

(** The two buckets without a limit. *)
Lemma overview_packageFiles_events files :
  events_of (overview_packageFiles files) =
  open_bucket ("### Package Files" +++ nl +++ nl) (filter is_packageJson files).
Proof.
  apply runs_events_of with (r := inr tt). unfold overview_packageFiles, open_bucket.
  destruct (filter is_packageJson files) as [|f l]; [apply runs_ret|].
  change (Nat.ltb 0 (List.length (f :: l))) with true. cbv iota.
  eapply runs_eq.
  - eapply runs_bind; [apply runs_emit|].
    apply (runs_forEach file_entry file_entry_events), file_entry_runs.
  - reflexivity.
Qed.

Lemma overview_documentation_events files :
  events_of (overview_documentation files) =
  open_bucket (nl +++ "### Documentation" +++ nl +++ nl) (filter is_readme files).
Proof.
  apply runs_events_of with (r := inr tt). unfold overview_documentation, open_bucket.
  destruct (filter is_readme files) as [|f l]; [apply runs_ret|].
  change (Nat.ltb 0 (List.length (f :: l))) with true. cbv iota.
  eapply runs_eq.
  - eapply runs_bind; [apply runs_emit|].
    apply (runs_forEach file_entry file_entry_events), file_entry_runs.
  - reflexivity.
Qed.

(** The project-files block inside its [try], case by case. *)
Lemma overview_files_events_cases host :
  overview_files_events host =
  if has_folders (workspaceFolders host) then
    match searched host with
    | inr matching =>
        [FindFiles "**/*.{json,ts,js,md}" "**/node_modules/**" 100;
         Markdown (nl +++ "## Project Files" +++ nl +++ nl);
         Markdown ("Here are some important files in your project:" +++ nl +++ nl)] ++
        events_of (overview_packageFiles (firstn 100 matching)) ++
        typescript_bucket (firstn 100 matching) ++
        events_of (overview_documentation (firstn 100 matching))
    | inl e =>
        [FindFiles "**/*.{json,ts,js,md}" "**/node_modules/**" 100;
         ConsoleError "Error getting project files:" e]
    end
  else [].
Proof.
  unfold overview_files_events. apply runs_events_of with (r := inr tt).
  destruct (has_folders (workspaceFolders host)) eqn:Hfolders.
  - destruct (searched host) as [e|matching] eqn:Hsearch.
    + unfold overview_projectFiles. rewrite Hfolders.
      eapply runs_eq.
      * eapply runs_try_caught; [|apply runs_emit].
        apply runs_bind_throw, findFiles_rejects, Hsearch.
      * reflexivity.
    + apply runs_try_ok, (overview_projectFiles_runs host Hfolders Hsearch).
  - unfold overview_projectFiles. rewrite Hfolders. apply runs_try_ok, runs_ret.
Qed.

(** The overview, part by part, for every host. *)
Lemma overview_parts host :
  Runs (overview host)
       (Markdown ("# Project Management Overview" +++ nl +++ nl) ::
        events_of (overview_folders host) ++
        overview_git_events host ++
        overview_files_events host ++
        nextSteps_events)
       (inr tt).
Proof.
  apply overview_around.
  destruct (block_events (overview_projectFiles_block host)) as (Hrun & _).
  exact Hrun.
Qed.

Lemma handler_overview_parts host request log :
  request_command request = Some "overview" ->
  handler host request log =
  (log ++
   Markdown ("# Project Management Overview" +++ nl +++ nl) ::
   events_of (overview_folders host) ++
   overview_git_events host ++
   overview_files_events host ++
   nextSteps_events,
   inr (mkChatResult "overview")).
Proof.
  intros Hcmd.
  rewrite (handler_overview_runs request (is_overview_Some_overview Hcmd)
             (overview_parts host)).
  now rewrite Hcmd.
Qed.

(** The six closing events are the six lines of the source. *)
Lemma nextSteps_events_lines : nextSteps_events = next_steps_section.
Proof. reflexivity. Qed.

(** The trace of the overview is the summary, section by section. *)
Lemma handler_overview_summary host request log :
  request_command request = Some "overview" ->
  handler host request log =
  (log ++ summary host, inr (mkChatResult "overview")).
Proof.
  intros Hcmd. rewrite handler_overview_parts by exact Hcmd.
  unfold summary, folders_section, git_section, files_section.
  rewrite overview_folders_events, overview_git_events_cases,
    overview_files_events_cases, nextSteps_events_lines.
  destruct (has_folders (workspaceFolders host)); [|reflexivity].
  destruct (searched host) as [e|matching]; [reflexivity|].
  now rewrite overview_packageFiles_events, overview_documentation_events.
Qed.

Lemma model_calls_open_bucket heading files :
  model_calls (open_bucket heading files) = 0.
Proof.
  unfold open_bucket. destruct files as [|f l]; [reflexivity|].
  change (?a :: ?x) with ([a] ++ x).
  rewrite model_calls_app, model_calls_flat_map by apply file_entry_quiet.
  reflexivity.
Qed.

(** No section of the summary calls the model. *)
Lemma summary_quiet host : model_calls (summary host) = 0.
Proof.
  unfold summary. change (?a :: ?x) with ([a] ++ x).
  rewrite !model_calls_app.
  assert (model_calls (folders_section host) = 0) as ->.
  { unfold folders_section. destruct (has_folders (workspaceFolders host));
      [|reflexivity].
    change (?a :: ?x) with ([a] ++ x). rewrite model_calls_app.
    induction (folders_of (workspaceFolders host)) as [|f l IH];
      [reflexivity|exact IH]. }
  assert (model_calls (git_section host) = 0) as ->.
  { unfold git_section. destruct (gitExtension host) as [|e|[[|repo repos]|]];
      try reflexivity.
    change (?a :: ?x) with ([a] ++ x). rewrite model_calls_app.
    apply model_calls_flat_map. reflexivity. }
  assert (model_calls (files_section host) = 0) as ->.
  { unfold files_section. destruct (has_folders (workspaceFolders host));
      [|reflexivity].
    destruct (searched host) as [e|matching]; [reflexivity|].
    now rewrite !model_calls_app, !model_calls_open_bucket, typescript_bucket_quiet. }
  reflexivity.
Qed.

(** C2. With the sub-command [overview] the handler writes the
    structured summary and returns: the title; the workspace folders,
    when there is one; the repositories the git extension reports, or
    its error in the log; the project files when there is a folder,
    that is the search and then the package files, the TypeScript bucket
    and the documentation of the first hundred matching files, or the
    error of the search in the log; and the six lines of the next
    steps.  Nothing else is written, and the summary contains no call of
    the model.  Without a sub-command the handler calls the model once,
    with the system prompt and the prompt of the request, and then
    writes the fragments of the response in the order they arrive,
    followed only by what the handling of an error adds; when the
    response ends without an error the handler returns. *)
Theorem handler_overview_or_forward host request log :
  (request_command request = Some "overview" ->
   handler host request log =
     (log ++
      Markdown ("# Project Management Overview" +++ nl +++ nl) ::
      folders_section host ++
      git_section host ++
      files_section host ++
      next_steps_section,
      inr (mkChatResult "overview")) /\
   model_calls
     (Markdown ("# Project Management Overview" +++ nl +++ nl) ::
      folders_section host ++
      git_section host ++
      files_section host ++
      next_steps_section) = 0) /\
  (request_command request = None ->
   exists outcome,
     handler host request log =
       (log ++
        SendRequest [system_prompt; prompt request] ::
        map Markdown (response_fragments (response_of request)) ++
        error_events (response_error (response_of request)),
        outcome) /\
     model_calls
       (SendRequest [system_prompt; prompt request] ::
        map Markdown (response_fragments (response_of request)) ++
        error_events (response_error (response_of request))) = 1 /\
     (response_error (response_of request) = None ->
      outcome = inr (mkChatResult EmptyString))).
Proof.
  split.
  - intros Hcmd. split.
    + exact (handler_overview_summary host request log Hcmd).
    + exact (summary_quiet host).
  - intros Hcmd. eexists. split; [|split].
    + apply handler_complete_runs. now rewrite Hcmd.
    + apply completion_events_calls.
    + intros ->. now rewrite Hcmd.
Qed.

(** X8. A sub-command other than [overview] is handled like no
    sub-command: the handler calls the model once, with the system
    prompt and the prompt of the request, writes the fragments in the
    order they arrive, and, when the response ends without an error or
    with a [LanguageModelError], returns a result that carries that
    sub-command. *)
Theorem handler_other_command host request log c :
  request_command request = Some c ->
  c <> "overview" ->
  handler host request log =
    (log ++
     SendRequest [system_prompt; prompt request] ::
     map Markdown (response_fragments (response_of request)) ++
     error_events (response_error (response_of request)),
     match unhandled (response_error (response_of request)) with
     | Some e => inl e
     | None => inr (mkChatResult c)
     end).
Proof.
  intros Hcmd Hc.
  assert (is_overview (request_command request) = false) as Hforward
    by (rewrite Hcmd; simpl; now apply String.eqb_neq).
  rewrite (handler_complete_runs host request Hforward).
  now rewrite or_else_empty, Hcmd.
Qed.

(** X9. When the search of the overview rejects, the handler still
    returns: after the search it logs the error, writes no heading of
    the project files and no bucket, and goes on to the next steps. *)
Theorem overview_search_rejected host request log e :
  request_command request = Some "overview" ->
  has_folders (workspaceFolders host) = true ->
  searched host = inl e ->
  handler host request log =
  (log ++
   Markdown ("# Project Management Overview" +++ nl +++ nl) ::
   events_of (overview_folders host) ++
   overview_git_events host ++
   [FindFiles "**/*.{json,ts,js,md}" "**/node_modules/**" 100;
    ConsoleError "Error getting project files:" e] ++
   nextSteps_events,
   inr (mkChatResult "overview")).
Proof.
  intros Hcmd Hfolders Hsearch.
  rewrite handler_overview_parts by exact Hcmd.
  now rewrite overview_files_events_cases, Hfolders, Hsearch.
Qed.

(** X10. The git part of the overview never stops it: without the git
    extension, with a null API or with no repository nothing is
    written; when the extension throws, the error is logged and nothing
    is written; with repositories the heading is followed by two lines
    per repository, the branch being [Unknown] when [HEAD] has no
    name. *)
Theorem overview_git_section host request log :
  request_command request = Some "overview" ->
  handler host request log =
  (log ++
   Markdown ("# Project Management Overview" +++ nl +++ nl) ::
   events_of (overview_folders host) ++
   match gitExtension host with
   | GitMissing => []
   | GitThrows e => [ConsoleLog "Git information not available:" e]
   | GitApi None => []
   | GitApi (Some []) => []
   | GitApi (Some repositories) =>
       Markdown (nl +++ "## Git Repositories" +++ nl +++ nl) ::
       flat_map repository_events repositories
   end ++
   overview_files_events host ++
   nextSteps_events,
   inr (mkChatResult "overview")).
Proof.
  intros Hcmd. rewrite handler_overview_parts by exact Hcmd.
  now rewrite overview_git_events_cases.
Qed.

Lemma references_repositories repositories :
  references (flat_map repository_events repositories) = [].
Proof.
  induction repositories as [|r l IH]; [reflexivity|].
  simpl. exact IH.
Qed.

Lemma references_git host : references (overview_git_events host) = [].
Proof.
  rewrite overview_git_events_cases.
  destruct (gitExtension host) as [|e|[[|repo repos]|]]; try reflexivity.
  exact (references_repositories (repo :: repos)).
Qed.

Lemma references_folders host : references (events_of (overview_folders host)) = [].
Proof.
  rewrite overview_folders_events.
  destruct (has_folders (workspaceFolders host)); [|reflexivity].
  simpl. induction (folders_of (workspaceFolders host)) as [|f l IH];
    [reflexivity|exact IH].
Qed.

Lemma references_open_bucket heading files :
  references (open_bucket heading files) = files.
Proof.
  unfold open_bucket. destruct files as [|f l]; [reflexivity|].
  exact (references_entries (f :: l)).
Qed.

Lemma references_typescript_bucket files :
  references (typescript_bucket files) =
  firstn 5 (filter is_mainFile (filter is_tsFile files)).
Proof.
  unfold typescript_bucket.
  destruct (filter is_tsFile files) as [|f l] eqn:Hts; [reflexivity|].
  change (?a :: ?x ++ ?y) with ([a] ++ x ++ y).
  rewrite !references_app, references_entries.
  destruct (Nat.ltb 5 (List.length (f :: l))); simpl; now rewrite app_nil_r.
Qed.

Lemma no_search_in_git host : filter is_FindFiles (overview_git_events host) = [].
Proof.
  rewrite overview_git_events_cases.
  destruct (gitExtension host) as [|e|[[|repo repos]|]]; try reflexivity.
  induction (repo :: repos) as [|r l IH]; [reflexivity|exact IH].
Qed.

(** X11. Without a workspace folder the overview has no section of
    workspace folders and no project files, and the search is not made:
    the trace is the title, the git part and the next steps, and it
    refers to no file. *)
Theorem overview_without_folders host request log :
  request_command request = Some "overview" ->
  has_folders (workspaceFolders host) = false ->
  handler host request log =
    (log ++
     Markdown ("# Project Management Overview" +++ nl +++ nl) ::
     overview_git_events host ++ nextSteps_events,
     inr (mkChatResult "overview")) /\
  filter is_FindFiles
    (Markdown ("# Project Management Overview" +++ nl +++ nl) ::
     overview_git_events host ++ nextSteps_events) = [] /\
  references
    (Markdown ("# Project Management Overview" +++ nl +++ nl) ::
     overview_git_events host ++ nextSteps_events) = [].
Proof.
  intros Hcmd Hfolders. split; [|split].
  - rewrite handler_overview_parts by exact Hcmd.
    now rewrite overview_folders_events, overview_files_events_cases, Hfolders.
  - simpl. now rewrite filter_app, no_search_in_git.
  - change (?a :: ?x ++ ?y) with ([a] ++ x ++ y).
    rewrite !references_app, references_git. reflexivity.
Qed.

(** X12. With a workspace folder and a search that returns, the files
    the overview refers to are, in this order: every file considered
    whose path ends in [package.json], the first five hinted TypeScript
    files, and every file considered whose lower-cased path contains
    [readme.md].  Each of them is among the first hundred matching
    files. *)
Theorem overview_references host request matching :
  request_command request = Some "overview" ->
  has_folders (workspaceFolders host) = true ->
  searched host = inr matching ->
  let files := firstn 100 matching in
  references (fst (handler host request [])) =
    filter is_packageJson files ++
    firstn 5 (filter is_mainFile (filter is_tsFile files)) ++
    filter is_readme files /\
  Forall (fun u => In u files) (references (fst (handler host request []))).
Proof.
  intros Hcmd Hfolders Hsearch. cbn zeta.
  assert (references (fst (handler host request [])) =
          filter is_packageJson (firstn 100 matching) ++
          firstn 5 (filter is_mainFile (filter is_tsFile (firstn 100 matching))) ++
          filter is_readme (firstn 100 matching)) as Href.
  { rewrite handler_overview_parts by exact Hcmd. simpl fst.
    rewrite overview_files_events_cases, Hfolders, Hsearch.
    rewrite overview_packageFiles_events, overview_documentation_events.
    change (?a :: ?x) with ([a] ++ x) at 1.
    rewrite !references_app, references_folders, references_git.
    rewrite !references_open_bucket, references_typescript_bucket.
    assert (references nextSteps_events = []) as -> by reflexivity.
    rewrite app_nil_r. reflexivity. }
  split; [exact Href|]. rewrite Href.
  apply Forall_forall. intros u Hin.
  repeat (apply in_app_or in Hin; destruct Hin as [Hin|Hin]).
  - now apply filter_In in Hin.
  - apply in_firstn in Hin. apply filter_In in Hin. destruct Hin as (Hin & _).
    now apply filter_In in Hin.
  - now apply filter_In in Hin.
Qed.

(* ================================================================== *)
(** * Link texts, and the notifications of [getFileContent] *)

Lemma split_pop_from_plain sep s cur :
  string_forallb (fun c => negb (sep c)) s = true ->
  split_pop_from sep s cur = cur.
Proof.
  revert cur. induction s as [|c s IH]; intros cur Hs; [reflexivity|].
  simpl in *. apply andb_true_iff in Hs. destruct Hs as (Hc & Hs).
  destruct (sep c); [discriminate|now apply IH].
Qed.

(** The text after the last separator of a path is its last segment. *)
Lemma split_pop_last_segment sep dir c name :
  sep c = true ->
  string_forallb (fun c => negb (sep c)) name = true ->
  split_pop sep (dir +++ String c name) = name.
Proof.
  intros Hc Hname. unfold split_pop.
  generalize (dir +++ String c name) at 2. induction dir as [|x dir IH]; intros cur.
  - simpl. rewrite Hc. now apply split_pop_from_plain.
  - simpl. destruct (sep x); apply IH.
Qed.

Lemma split_pop_plain sep s :
  string_forallb (fun c => negb (sep c)) s = true -> split_pop sep s = s.
Proof. apply split_pop_from_plain. Qed.

(** X13. The text of a link is the last segment of the file-system
    path: in the chat overview the part after the last [/], in the panel
    the part after the last [/] or backslash.  So for a path without
    [/], as on Windows, the chat overview shows the whole path as the
    text of the link, where the panel shows the name of the file. *)
Theorem link_text_is_last_segment p :
  (forall dir name,
      string_forallb (fun c => negb (is_slash c)) name = true ->
      file_entry_events (mkUri p (dir +++ "/" +++ name)) =
      [Markdown ("- [" +++ name +++ "](" +++ (dir +++ "/" +++ name) +++ ")" +++ nl);
       Reference (mkUri p (dir +++ "/" +++ name))]) /\
  (forall dir c name,
      is_any_slash c = true ->
      string_forallb (fun c => negb (is_any_slash c)) name = true ->
      html_file_item_text (mkUri p (dir +++ String c name)) =
      "<li><span class=" +++ dq +++ "file-link" +++ dq +++ " onclick=" +++ dq +++
      "openFile('" +++ double_backslashes (dir +++ String c name) +++ "')" +++ dq +++
      ">" +++ name +++ "</span></li>") /\
  (forall whole,
      string_forallb (fun c => negb (is_slash c)) whole = true ->
      file_entry_events (mkUri p whole) =
      [Markdown ("- [" +++ whole +++ "](" +++ whole +++ ")" +++ nl);
       Reference (mkUri p whole)]).
Proof.
  split; [|split].
  - intros dir name Hname. unfold file_entry_events. cbn [fsPath].
    change ("/" +++ name) with (String "/"%char name).
    now rewrite (split_pop_last_segment is_slash dir "/"%char name eq_refl Hname).
  - intros dir c name Hc Hname. unfold html_file_item_text. cbn [fsPath].
    now rewrite (split_pop_last_segment is_any_slash dir c name Hc Hname).
  - intros whole Hwhole. unfold file_entry_events. cbn [fsPath].
    now rewrite (split_pop_plain is_slash whole Hwhole).
Qed.

Section ProjectManagerMore.
Context {FS : Type} `{FileSystem FS}.

Implicit Types (w : @PmWorld FS).

(** X14. [getFileContent] never throws and never changes the file
    system, and every run ends with exactly one notification.  Before
    the notification the trace gains nothing at all, or, when the file
    exists and is read, the one call of [writeText] with the content
    read, and nothing else.  When the notification is the information
    message, that call was made and the clipboard holds the content of
    the file. *)
Theorem getFileContent_notifies_once w :
  exists w' calls note,
    getFileContent w = (w', inr tt) /\
    pm_fs w' = pm_fs w /\
    pm_log w' = pm_log w ++ calls ++ [note] /\
    (calls = [] \/
     exists fileContent,
       existsSync (pm_fs w) filePath = true /\
       readFileSync (pm_fs w) filePath = inr fileContent /\
       calls = [ClipboardWriteText fileContent]) /\
    filter is_notification calls = [] /\
    is_notification note = true /\
    (forall message,
        note = ShowInformationMessage message ->
        readFileSync (pm_fs w) filePath = inr (clipboard w') /\
        calls = [ClipboardWriteText (clipboard w')]).
Proof.
  unfold getFileContent, try_catch, bind, gets, clipboard_writeText, bind,
    emit, modify.
  destruct (existsSync (pm_fs w) filePath) eqn:Hex; simpl.
  - destruct (readFileSync (pm_fs w) filePath) as [e|fileContent] eqn:Hread; simpl.
    + eexists _, [], _. split; [reflexivity|]. simpl.
      repeat split; try reflexivity; try discriminate. now left.
    + destruct (clipboard_fault w) as [e|] eqn:Hclip; simpl.
      * eexists _, [ClipboardWriteText fileContent], _.
        split; [reflexivity|]. simpl. rewrite <- app_assoc.
        repeat split; try reflexivity; try discriminate.
        right. now exists fileContent.
      * eexists _, [ClipboardWriteText fileContent], _.
        split; [reflexivity|]. simpl. rewrite <- app_assoc.
        repeat split; try reflexivity.
        right. now exists fileContent.
  - eexists _, [], _. split; [reflexivity|]. simpl.
    repeat split; try reflexivity; try discriminate. now left.
Qed.
End ProjectManagerMore.

(* ================================================================== *)
(** * More on the overview panel *)

Lemma html_throw {A} (e : Exn) : RunsHtml (@throw _ A e) EmptyString [] (inl e).
Proof.
  intros [h l]. unfold throw. simpl. now rewrite append_empty_r, app_nil_r.
Qed.

Lemma html_bind_throw {A B} (m : Eff HtmlState A) (k : A -> Eff HtmlState B) s t e :
  RunsHtml m s t (inl e) -> RunsHtml (bind m k) s t (inl e).
Proof. intros Hm w. unfold bind. now rewrite Hm. Qed.

Lemma html_findFiles_rejects host include exclude maxResults e :
  search host include exclude = inl e ->
  RunsHtml (findFiles host include exclude maxResults) EmptyString
           [FindFiles include exclude maxResults] (inl e).
Proof.
  intros Hsearch [h l]. unfold findFiles, bind, emit, modify. simpl.
  rewrite Hsearch. unfold throw. now rewrite append_empty_r.
Qed.

(** The git part of the panel and what it logs. *)
Lemma html_git_trace host :
  RunsHtml
    (try_catch (html_git host)
       (fun error => emit (ConsoleLog "Git information not available:" error)))
    (html_git_text host)
    (match gitExtension host with
     | GitThrows e => [ConsoleLog "Git information not available:" e]
     | _ => []
     end)
    (inr tt).
Proof.
  assert (exists text,
             RunsHtml
               (try_catch (html_git host)
                  (fun error =>
                     emit (ConsoleLog "Git information not available:" error)))
               text
               (match gitExtension host with
                | GitThrows e => [ConsoleLog "Git information not available:" e]
                | _ => []
                end)
               (inr tt)) as (text & Hrun).
  { unfold html_git. destruct (gitExtension host) as [|e|[[|repo repos]|]].
    - eexists. apply html_try_ok, html_ret.
    - eexists. eapply html_eq.
      + eapply html_try_caught; [apply html_throw|apply html_emit].
      + reflexivity.
      + reflexivity.
    - eexists. apply html_try_ok, html_ret.
    - match goal with
      | |- context [try_catch ?body _] =>
          assert (BlockHtml body) as (s & Hs) by block_html
      end.
      eexists. apply html_try_ok, Hs.
    - eexists. apply html_try_ok, html_ret. }
  unfold html_git_text. now rewrite (html_text_of Hrun).
Qed.

(** The project-files part of the panel and what it logs. *)
Lemma html_files_trace host :
  RunsHtml
    (try_catch (html_projectFiles host)
       (fun error => emit (ConsoleError "Error getting project files:" error)))
    (html_files_text host)
    (if has_folders (workspaceFolders host) then
       FindFiles "**/*.{json,ts,js,md}" "**/node_modules/**" 100 ::
       match searched host with
       | inl e => [ConsoleError "Error getting project files:" e]
       | inr _ => []
       end
     else [])
    (inr tt).
Proof.
  assert (exists text,
             RunsHtml
               (try_catch (html_projectFiles host)
                  (fun error =>
                     emit (ConsoleError "Error getting project files:" error)))
               text
               (if has_folders (workspaceFolders host) then
                  FindFiles "**/*.{json,ts,js,md}" "**/node_modules/**" 100 ::
                  match searched host with
                  | inl e => [ConsoleError "Error getting project files:" e]
                  | inr _ => []
                  end
                else [])
               (inr tt)) as (text & Hrun).
  { destruct (has_folders (workspaceFolders host)) eqn:Hfolders.
    - destruct (searched host) as [e|matching] eqn:Hsearch.
      + eexists. unfold html_projectFiles. rewrite Hfolders. eapply html_eq.
        * eapply html_try_caught; [|apply html_emit].
          apply html_bind_throw, html_findFiles_rejects, Hsearch.
        * reflexivity.
        * reflexivity.
      + eexists. apply html_try_ok, (html_projectFiles_runs host Hfolders Hsearch).
    - eexists. unfold html_projectFiles. rewrite Hfolders.
      apply html_try_ok, html_ret. }
  unfold html_files_text. now rewrite (html_text_of Hrun).
Qed.

(** The text of the project-files part, case by case. *)
Lemma html_files_text_cases host :
  html_files_text host =
  if has_folders (workspaceFolders host) then
    match searched host with
    | inr matching =>
        html_files_open +++
        text_of (html_packageFiles (firstn 100 matching)) +++
        html_typescript_bucket (firstn 100 matching) +++
        text_of (html_documentation (firstn 100 matching)) +++
        "</div>"
    | inl _ => EmptyString
    end
  else EmptyString.
Proof.
  unfold html_files_text.
  destruct (has_folders (workspaceFolders host)) eqn:Hfolders.
  - destruct (searched host) as [e|matching] eqn:Hsearch.
    + unfold html_projectFiles. rewrite Hfolders.
      eapply html_text_of. eapply html_eq.
      * eapply html_try_caught; [|apply html_emit].
        apply html_bind_throw, html_findFiles_rejects, Hsearch.
      * reflexivity.
      * reflexivity.
    + eapply html_text_of.
      apply html_try_ok, (html_projectFiles_runs host Hfolders Hsearch).
  - unfold html_projectFiles. rewrite Hfolders.
    eapply html_text_of. apply html_try_ok, html_ret.
Qed.

Lemma html_folders_text_none host :
  has_folders (workspaceFolders host) = false ->
  text_of (html_folders host) = EmptyString.
Proof.
  intros Hfolders. unfold html_folders. rewrite Hfolders.
  eapply html_text_of, html_ret.
Qed.

(** The page for every host. *)
Lemma getProjectOverviewHtml_page host w :
  getProjectOverviewHtml host w =
  (mkHtmlState (panel_page host) (html_log w ++ panel_trace host),
   inr (panel_page host)).
Proof.
  pose proof (blockHtml_text (html_folders_block host)) as Hf.
  pose proof (html_git_trace host) as Hg.
  pose proof (html_files_trace host) as Hfiles.
  unfold getProjectOverviewHtml, panel_page, panel_trace.
  unfold bind at 1, html_assign, modify.
  unfold bind at 1. rewrite Hf.
  unfold bind at 1. rewrite Hg.
  unfold bind at 1. rewrite Hfiles.
  unfold bind at 1, html_append at 1, modify.
  unfold bind at 1, html_append at 1, modify.
  unfold gets. cbn [html html_log].
  rewrite !app_nil_r, <- !app_assoc, !append_assoc. reflexivity.
Qed.

(** X16. The page has no section of project files when the workspace
    has no folder or the search rejects; without a folder it has no
    section of workspace folders either and the search is not made, and
    a rejected search shows nothing on the page: it is only logged. *)
Theorem panel_without_files host w :
  (has_folders (workspaceFolders host) = false ->
   getProjectOverviewHtml host w =
   (mkHtmlState
      (html_head +++ html_git_text host +++ html_nextSteps +++ html_tail)
      (html_log w ++
       match gitExtension host with
       | GitThrows e => [ConsoleLog "Git information not available:" e]
       | _ => []
       end),
    inr (html_head +++ html_git_text host +++ html_nextSteps +++ html_tail))) /\
  (forall e,
      has_folders (workspaceFolders host) = true ->
      searched host = inl e ->
      snd (getProjectOverviewHtml host w) =
      inr (html_head +++ text_of (html_folders host) +++ html_git_text host +++
           html_nextSteps +++ html_tail) /\
      In (ConsoleError "Error getting project files:" e)
         (html_log (fst (getProjectOverviewHtml host w)))).
Proof.
  split.
  - intros Hfolders. rewrite getProjectOverviewHtml_page.
    unfold panel_page, panel_trace.
    rewrite html_files_text_cases, html_folders_text_none, Hfolders by exact Hfolders.
    now rewrite app_nil_r.
  - intros e Hfolders Hsearch. rewrite getProjectOverviewHtml_page.
    unfold panel_page, panel_trace.
    rewrite html_files_text_cases, Hfolders, Hsearch. split; [reflexivity|].
    simpl. apply in_or_app. right. apply in_or_app. right. simpl. tauto.
Qed.

(* ================================================================== *)
(** * The messages of the panel and [openFile] *)

Section PanelFacts.
Context {FS : Type} `{FileSystem FS}.

Implicit Types (w : @PanelWorld FS).

(** [openFile] by cases on what the editor answers. *)
Lemma openFile_eq editor path w :
  openFile editor path w =
  match openTextDocument editor path with
  | inr document =>
      match showTextDocument editor document with
      | inr _ => (mkPanelWorld (panel_pm w) (visible w ++ [document]), inr tt)
      | inl _ =>
          (log_add (ShowErrorMessage ("Failed to open file: " +++ path)) w, inr tt)
      end
  | inl _ => (log_add (ShowErrorMessage ("Failed to open file: " +++ path)) w, inr tt)
  end.
Proof.
  unfold openFile, try_catch, bind at 1, lift.
  destruct (openTextDocument editor path) as [e|document]; [reflexivity|].
  unfold show, bind, lift.
  destruct (showTextDocument editor document) as [e|[]]; reflexivity.
Qed.

(** [getFileContent] returns, and keeps the file system. *)
Lemma getFileContent_frame (pm : @PmWorld FS) :
  exists pm', getFileContent pm = (pm', inr tt) /\ pm_fs pm' = pm_fs pm.
Proof.
  unfold getFileContent, try_catch, bind, gets, clipboard_writeText, bind,
    emit, modify.
  destruct (existsSync (pm_fs pm) filePath); simpl; [|eauto].
  destruct (readFileSync (pm_fs pm) filePath) as [e|fileContent]; simpl; [eauto|].
  destruct (clipboard_fault pm) as [e|]; simpl; eauto.
Qed.

(** X17. [openFile] never throws.  When the document opens and is
    shown, it is added to what the editor shows and nothing is
    notified; when either step rejects, the editor shows what it showed
    and the one error notification names the path asked for, whatever
    the error was. *)
Theorem openFile_outcomes editor path w :
  (forall document,
      openTextDocument editor path = inr document ->
      showTextDocument editor document = inr tt ->
      openFile editor path w =
      (mkPanelWorld (panel_pm w) (visible w ++ [document]), inr tt)) /\
  ((exists e, openTextDocument editor path = inl e) \/
   (exists document e,
       openTextDocument editor path = inr document /\
       showTextDocument editor document = inl e) ->
   openFile editor path w =
   (mkPanelWorld
      (mkPmWorld (pm_fs (panel_pm w)) (clipboard (panel_pm w))
         (clipboard_fault (panel_pm w))
         (pm_log (panel_pm w) ++
          [ShowErrorMessage ("Failed to open file: " +++ path)]))
      (visible w),
    inr tt)).
Proof.
  split.
  - intros document Hopen Hshow. now rewrite openFile_eq, Hopen, Hshow.
  - intros [(e & Hopen)|(document & e & Hopen & Hshow)].
    + now rewrite openFile_eq, Hopen.
    + now rewrite openFile_eq, Hopen, Hshow.
Qed.

(** X18. The message handler never throws and never changes the file
    system.  Only a [getFileContent] message can change the clipboard,
    only an [openFile] message can change what the editor shows, and a
    message with another command, or an [openFile] message whose path is
    missing or empty, changes nothing at all. *)
Theorem onDidReceiveMessage_frame editor message w :
  exists w',
    onDidReceiveMessage editor message w = (w', inr tt) /\
    pm_fs (panel_pm w') = pm_fs (panel_pm w) /\
    (message_command message <> Some "getFileContent" ->
     clipboard (panel_pm w') = clipboard (panel_pm w)) /\
    (message_command message <> Some "openFile" -> visible w' = visible w) /\
    ((message_command message <> Some "openFile" /\
      message_command message <> Some "getFileContent") \/
     (message_command message = Some "openFile" /\
      truthy_path (message_path message) = None) ->
     w' = w).
Proof.
  unfold onDidReceiveMessage. destruct (message_command message) as [c|].
  2:{ exists w. repeat split; reflexivity. }
  destruct (String.eqb_spec c "openFile") as [->|Hopen].
  - destruct (truthy_path (message_path message)) as [p|].
    + rewrite openFile_eq.
      destruct (openTextDocument editor p) as [e|document];
        [|destruct (showTextDocument editor document) as [e|[]]];
        eexists; (split; [reflexivity|]); simpl;
        (repeat split; try reflexivity; try congruence);
        intros [[Ho _]|[_ Hp]]; congruence.
    + exists w. repeat split; reflexivity.
  - destruct (String.eqb_spec c "getFileContent") as [->|Hget].
    + unfold with_pm.
      destruct (getFileContent_frame (panel_pm w)) as (pm' & Hrun & Hfs).
      rewrite Hrun. eexists. split; [reflexivity|]. simpl.
      repeat split; try assumption; try congruence.
      intros [[_ Hg]|[Ho _]]; congruence.
    + exists w. repeat split; reflexivity.
Qed.

(** X15. The panel always opens: for every host, whatever the git
    extension and the search do, [openProjectManagerOverview] returns a
    panel with scripts enabled, together with the handler of its
    messages.  The page of the panel is the head, the folders, the git
    part, the project files, the next steps and the closing script, in
    this order, and replaces whatever [html] held; the trace gains only
    the search and what the two [catch] clauses log. *)
Theorem panel_always_opens host editor (w : HtmlState) :
  openProjectManagerOverview (FS := FS) host editor w =
  (mkHtmlState (panel_page host) (html_log w ++ panel_trace host),
   inr (mkWebviewPanel "projectManagementOverview" "Project Management Overview"
          true true (panel_page host),
        onDidReceiveMessage editor)).
Proof.
  unfold openProjectManagerOverview, bind.
  now rewrite getProjectOverviewHtml_page.
Qed.
End PanelFacts.

(* ================================================================== *)
(** * Activation *)

Section ActivationFacts.
Context {FS : Type} `{FileSystem FS}.
Variables registerSimpleParticipant registerToolUserChatParticipant
          registerChatLibChatParticipant registerChatTools
  : Eff (@ExtensionWorld FS) unit.
Variable dirname : string -> string.
Variable openFolder : string -> Exn + unit.

Implicit Types (w : @ExtensionWorld FS).

(** [activate] after its four registrations. *)
Lemma activate_after_others extensionPath workspaceFolders w w0 :
  other_registrations registerSimpleParticipant registerToolUserChatParticipant
    registerChatLibChatParticipant registerChatTools w = (w0, inr tt) ->
  activate registerSimpleParticipant registerToolUserChatParticipant
      registerChatLibChatParticipant registerChatTools dirname openFolder
      extensionPath workspaceFolders w =
  (push register ;;
   match workspaceFolders with
   | Some (folder :: _) =>
       push [CommandSubscription "projectManagementView.refresh"] ;;
       push [TreeViewSubscription "projectManagementView" (fsPath (uri folder)) true] ;;
       with_tree (create_project_management (fsPath (uri folder)))
   | _ => open_parent openFolder (dirname extensionPath)
   end) w0.
Proof.
  unfold other_registrations, activate. intros Hothers.
  unfold bind at 1 in Hothers. unfold bind at 1.
  destruct (registerSimpleParticipant w) as [w1 [e|[]]]; [discriminate|].
  unfold bind at 1 in Hothers. unfold bind at 1.
  destruct (registerToolUserChatParticipant w1) as [w2 [e|[]]]; [discriminate|].
  unfold bind at 1 in Hothers. unfold bind at 1.
  destruct (registerChatLibChatParticipant w2) as [w3 [e|[]]]; [discriminate|].
  unfold bind at 1. rewrite Hothers. reflexivity.
Qed.

(** The creation of the folder at activation, by cases. *)
Lemma create_project_management_eq workspaceRoot (t : @TreeWorld FS) :
  create_project_management workspaceRoot t =
  if existsSync (tree_fs t) (path_join workspaceRoot "project_management") then
    (t, inr tt)
  else
    match mkdirSync (tree_fs t) (path_join workspaceRoot "project_management") with
    | inr fs' =>
        (mkTreeWorld fs'
           (tree_log t ++
            [ShowInformationMessage
               "Created project_management folder for file management"]),
         inr tt)
    | inl e =>
        (mkTreeWorld (tree_fs t)
           (tree_log t ++
            [ConsoleError "Failed to create project_management folder:" e]),
         inr tt)
    end.
Proof.
  unfold create_project_management, bind at 1, gets.
  destruct (existsSync (tree_fs t) (path_join workspaceRoot "project_management"));
    [reflexivity|].
  simpl. unfold try_catch, bind, fs_write.
  destruct (mkdirSync (tree_fs t) (path_join workspaceRoot "project_management"));
    reflexivity.
Qed.

(** X19. In a workspace, once the four registrations of the other
    modules have returned, [activate] returns whether or not the
    project-management folder can be created.  It adds the two commands
    of the provider, the refresh command and the tree view over the
    first workspace folder, in this order, opens no folder, and changes
    the file system only by the recursive [mkdirSync] of the folder
    when the folder does not exist. *)
Theorem activate_in_workspace extensionPath folder folders w w0 :
  other_registrations registerSimpleParticipant registerToolUserChatParticipant
    registerChatLibChatParticipant registerChatTools w = (w0, inr tt) ->
  exists w',
    activate registerSimpleParticipant registerToolUserChatParticipant
      registerChatLibChatParticipant registerChatTools dirname openFolder
      extensionPath (Some (folder :: folders)) w = (w', inr tt) /\
    subscriptions w' =
      subscriptions w0 ++
      [CommandSubscription "project-manager.openProjectManager";
       CommandSubscription "project-manager.getFileContent";
       CommandSubscription "projectManagementView.refresh";
       TreeViewSubscription "projectManagementView" (fsPath (uri folder)) true] /\
    opened_folders w' = opened_folders w0 /\
    ext_tree w' =
      let projectManagementPath :=
        path_join (fsPath (uri folder)) "project_management" in
      if existsSync (tree_fs (ext_tree w0)) projectManagementPath
      then ext_tree w0
      else
        match mkdirSync (tree_fs (ext_tree w0)) projectManagementPath with
        | inr fs' =>
            mkTreeWorld fs'
              (tree_log (ext_tree w0) ++
               [ShowInformationMessage
                  "Created project_management folder for file management"])
        | inl e =>
            mkTreeWorld (tree_fs (ext_tree w0))
              (tree_log (ext_tree w0) ++
               [ConsoleError "Failed to create project_management folder:" e])
        end.
Proof.
  intros Hothers. rewrite (activate_after_others _ _ _ Hothers).
  unfold bind, push, modify, with_tree. simpl.
  rewrite create_project_management_eq. cbn zeta.
  destruct (existsSync (tree_fs (ext_tree w0))
              (path_join (fsPath (uri folder)) "project_management")).
  - eexists. split; [reflexivity|]. simpl. rewrite <- !app_assoc.
    repeat split.
  - destruct (mkdirSync (tree_fs (ext_tree w0))
                (path_join (fsPath (uri folder)) "project_management"));
      eexists; (split; [reflexivity|]); simpl; rewrite <- !app_assoc;
      repeat split.
Qed.

(** X20. Without a workspace folder, once the four registrations have
    returned, [activate] returns after asking the editor to open the
    parent of the extension's directory: it adds the two commands of the
    provider only, no tree view and no refresh command, and leaves the
    file system as it was.  When the folder opens this is notified;
    when it does not, the error is logged and not thrown. *)
Theorem activate_without_workspace extensionPath workspaceFolders w w0 :
  other_registrations registerSimpleParticipant registerToolUserChatParticipant
    registerChatLibChatParticipant registerChatTools w = (w0, inr tt) ->
  has_folders workspaceFolders = false ->
  exists w',
    activate registerSimpleParticipant registerToolUserChatParticipant
      registerChatLibChatParticipant registerChatTools dirname openFolder
      extensionPath workspaceFolders w = (w', inr tt) /\
    subscriptions w' =
      subscriptions w0 ++
      [CommandSubscription "project-manager.openProjectManager";
       CommandSubscription "project-manager.getFileContent"] /\
    tree_fs (ext_tree w') = tree_fs (ext_tree w0) /\
    match openFolder (dirname extensionPath) with
    | inr _ =>
        opened_folders w' = opened_folders w0 ++ [dirname extensionPath] /\
        tree_log (ext_tree w') =
          tree_log (ext_tree w0) ++
          [ShowInformationMessage
             ("Opened workspace folder: " +++ dirname extensionPath)]
    | inl e =>
        opened_folders w' = opened_folders w0 /\
        tree_log (ext_tree w') =
          tree_log (ext_tree w0) ++
          [ConsoleError "Failed to open workspace folder:" e]
    end.
Proof.
  intros Hothers Hnone. rewrite (activate_after_others _ _ _ Hothers).
  assert (match workspaceFolders with
          | Some (folder :: _) =>
              push [CommandSubscription "projectManagementView.refresh"] ;;
              push [TreeViewSubscription "projectManagementView"
                      (fsPath (uri folder)) true] ;;
              with_tree (create_project_management (fsPath (uri folder)))
          | _ => open_parent openFolder (dirname extensionPath)
          end = open_parent openFolder (dirname extensionPath)) as ->.
  { destruct workspaceFolders as [[|folder folders]|]; try reflexivity.
    discriminate. }
  unfold bind at 1, push, modify, open_parent.
  destruct (openFolder (dirname extensionPath)) as [e|[]];
    eexists; (split; [reflexivity|]); simpl; repeat split.
Qed.

Context `{!FileSystemLaws FS}.

(** X21. After an activation that created the project-management
    folder or found it, the first listing of the root does not create
    it again: [getChildren] for the root is the listing of the folder,
    and when the activation created the folder this listing is empty and
    nothing is added to the trace. *)
Theorem getChildren_after_activate extensionPath folder folders w w0 :
  other_registrations registerSimpleParticipant registerToolUserChatParticipant
    registerChatLibChatParticipant registerChatTools w = (w0, inr tt) ->
  fsPath (uri folder) <> EmptyString ->
  let projectManagementPath :=
    path_join (fsPath (uri folder)) "project_management" in
  let world := ext_tree (fst (activate registerSimpleParticipant registerToolUserChatParticipant
      registerChatLibChatParticipant registerChatTools dirname openFolder
      extensionPath (Some (folder :: folders)) w)) in
  (existsSync (tree_fs (ext_tree w0)) projectManagementPath = true ->
   getChildren (fsPath (uri folder)) None world =
   readDirectory projectManagementPath (ext_tree w0)) /\
  (forall fs',
      existsSync (tree_fs (ext_tree w0)) projectManagementPath = false ->
      mkdirSync (tree_fs (ext_tree w0)) projectManagementPath = inr fs' ->
      tree_fs world = fs' /\
      getChildren (fsPath (uri folder)) None world = (world, inr [])).
Proof.
  intros Hothers Hroot. cbn zeta.
  rewrite (activate_after_others _ _ _ Hothers).
  unfold bind, push, modify, with_tree. simpl.
  rewrite create_project_management_eq. split.
  - intros Hex. rewrite Hex. simpl.
    now rewrite (getChildren_existing None) by assumption.
  - intros fs' Hex Hmk. rewrite Hex, Hmk. simpl.
    pose proof (mkdirSync_exists _ _ Hmk) as Hnow.
    pose proof (mkdirSync_fresh _ _ Hex Hmk) as Hempty.
    split; [reflexivity|].
    rewrite (getChildren_existing None) by assumption.
    rewrite readDirectory_eq. simpl. now rewrite Hnow, Hempty.
Qed.
End ActivationFacts.

(* ================================================================== *)
(** * The further statements at sample inputs *)

(** The dangling link of the sample folder is the error that is
    logged. *)
Lemma readDirectory_logs_first_failure_witness :
  readDirectory "/w/project_management" (mkTreeWorld sample_fs_broken []) =
  (mkTreeWorld sample_fs_broken
     [ConsoleError "Error reading directory /w/project_management:"
        (Error "ENOENT: no such file or directory")],
   inr []).
Proof.
  refine (@readDirectory_logs_first_failure SimFs SimFs_FileSystem
            "/w/project_management" (mkTreeWorld sample_fs_broken [])
            ["notes.txt"] "gone" ["docs"] (Error "ENOENT: no such file or directory")
            eq_refl eq_refl _ eq_refl).
  repeat constructor. eexists. reflexivity.
Defined.

(** A missing folder lists silently; a file listed as a folder is
    logged. *)
Lemma readDirectory_silent_unless_failed_witness :
  readDirectory "/w/nowhere" (mkTreeWorld sample_fs []) =
    (mkTreeWorld sample_fs [], inr []) /\
  readDirectory "/w/project_management/notes.txt" (mkTreeWorld sample_fs []) =
    (mkTreeWorld sample_fs
       [ConsoleError "Error reading directory /w/project_management/notes.txt:"
          (Error "ENOTDIR: not a directory")],
     inr []).
Proof.
  split.
  - exact (proj1 (readDirectory_silent_unless_failed
                    "/w/nowhere" (mkTreeWorld sample_fs [])) eq_refl).
  - exact (proj2 (proj2 (readDirectory_silent_unless_failed
                           "/w/project_management/notes.txt"
                           (mkTreeWorld sample_fs [])))
             (Error "ENOTDIR: not a directory") eq_refl eq_refl).
Defined.

(** The record of the sample file opens the file itself. *)
Lemma readDirectory_records_witness :
  fullPath (listed_item sim_join "/w/project_management" "notes.txt"
              (mkStats false 1536)) =
    "/w/project_management/notes.txt" /\
  command (listed_item sim_join "/w/project_management" "notes.txt"
             (mkStats false 1536)) =
    Some (mkCommand "vscode.open" "Open File" ["/w/project_management/notes.txt"]).
Proof.
  assert (In (listed_item sim_join "/w/project_management" "notes.txt"
                (mkStats false 1536))
             [listed_item sim_join "/w/project_management" "notes.txt"
                (mkStats false 1536);
              listed_item sim_join "/w/project_management" "docs"
                (mkStats true 0)]) as Hin by (simpl; tauto).
  destruct (@readDirectory_records SimFs SimFs_FileSystem
              "/w/project_management" (mkTreeWorld sample_fs []) _ _ _
              eq_refl Hin)
    as (Hpath & _ & _ & [(_ & _ & Hcommand & _)|(Hstate & _)]).
  - split; [exact Hpath|exact Hcommand].
  - discriminate Hstate.
Defined.

(** Expanding the record of the sample folder [docs]. *)
Lemma getChildren_expands_listed_witness :
  getChildren "/w"
    (Some (new_FileItem "docs" "/w/project_management/docs"
             TreeItemCollapsibleState.Collapsed))
    (mkTreeWorld sample_fs []) =
  readDirectory "/w/project_management/docs" (mkTreeWorld sample_fs []).
Proof.
  assert ("/w" <> EmptyString) as Hroot by discriminate.
  refine (@getChildren_expands_listed SimFs SimFs_FileSystem "/w" "/w/project_management"
            (mkTreeWorld sample_fs []) _ _
            (new_FileItem "docs" "/w/project_management/docs"
               TreeItemCollapsibleState.Collapsed)
            Hroot eq_refl _ eq_refl).
  simpl. tauto.
Defined.

(** The second listing of the root of the bare workspace. *)
Lemma getChildren_root_twice_witness :
  tree_log (fst (getChildren "/w" None (mkTreeWorld sample_fs_bare []))) =
    [ShowInformationMessage "Created project_management folder for file management"] /\
  getChildren "/w" None (fst (getChildren "/w" None (mkTreeWorld sample_fs_bare []))) =
    (fst (getChildren "/w" None (mkTreeWorld sample_fs_bare [])), inr []).
Proof.
  assert ("/w" <> EmptyString) as Hroot by discriminate.
  split; [reflexivity|].
  exact (proj2 (@getChildren_root_twice SimFs SimFs_FileSystem SimFs_laws "/w" (mkTreeWorld sample_fs_bare [])
                  _ Hroot eq_refl eq_refl)).
Defined.

(** A file of 1536 bytes shows as one kilobyte and a half. *)
Lemma file_description_rounds_witness :
  exists r,
    readDirectory_item "/w/project_management" "notes.txt" (mkTreeWorld sample_fs []) =
      (mkTreeWorld sample_fs [], inr r) /\
    description r = Some "1.50 KB".
Proof.
  assert (sim_statSync sample_fs (sim_join "/w/project_management" "notes.txt") =
          inr (mkStats false 1536)) as Hst by reflexivity.
  destruct (@file_description_rounds SimFs SimFs_FileSystem
              "/w/project_management" "notes.txt" (mkTreeWorld sample_fs [])
              1536%N Hst)
    as (r & Hrun & Hdesc & _).
  exists r. split; [exact Hrun|]. rewrite Hdesc. reflexivity.
Defined.

(** The overview of a workspace with a package file, a readme and two
    TypeScript files, event by event, and a prompt answered in two
    fragments. *)
Lemma handler_overview_or_forward_witness :
  handler mixed_host overview_request [] =
    ([Markdown ("# Project Management Overview" +++ nl +++ nl);
      Markdown ("## Workspace Folders" +++ nl +++ nl);
      Markdown ("- **w**: /w" +++ nl);
      FindFiles "**/*.{json,ts,js,md}" "**/node_modules/**" 100;
      Markdown (nl +++ "## Project Files" +++ nl +++ nl);
      Markdown ("Here are some important files in your project:" +++ nl +++ nl);
      Markdown ("### Package Files" +++ nl +++ nl);
      Markdown ("- [package.json](/w/package.json)" +++ nl);
      Reference (mkUri "/w/package.json" "/w/package.json");
      Markdown (nl +++ "### TypeScript Files" +++ nl +++ nl);
      Markdown ("- [index0.ts](/w/src/index0.ts)" +++ nl);
      Reference (index_file 0);
      Markdown (nl +++ "### Documentation" +++ nl +++ nl);
      Markdown ("- [README.md](/w/README.md)" +++ nl);
      Reference (mkUri "/w/README.md" "/w/README.md");
      Markdown (nl +++ "## Next Steps" +++ nl +++ nl);
      Markdown ("Here are some suggestions for managing your project:" +++ nl +++ nl);
      Markdown ("1. **Review the codebase** - Look through the main files to understand the project structure" +++ nl);
      Markdown ("2. **Check dependencies** - Review the package.json file for dependencies and scripts" +++ nl);
      Markdown ("3. **Run tests** - If the project has tests, run them to ensure everything works" +++ nl);
      Markdown ("4. **Update documentation** - Ensure the README and other documentation is up to date" +++ nl)],
     inr (mkChatResult "overview")) /\
  handler crowded_host answered_request [] =
    ([SendRequest [system_prompt; "plan the release"];
      Markdown "First, "; Markdown "tag it."],
     inr (mkChatResult EmptyString)).
Proof.
  split.
  - exact (proj1 (proj1 (handler_overview_or_forward mixed_host overview_request [])
                    eq_refl)).
  - destruct (proj2 (handler_overview_or_forward crowded_host answered_request []) eq_refl)
      as (outcome & Hrun & _ & Hok).
    rewrite Hrun, (Hok eq_refl). reflexivity.
Defined.

(** A request with the sub-command [review]. *)
Lemma handler_other_command_witness :
  handler crowded_host review_request [] =
  ([SendRequest [system_prompt; "review the plan"]; Markdown "Looks fine."],
   inr (mkChatResult "review")).
Proof.
  assert ("review" <> "overview") as Hc by discriminate.
  exact (@handler_other_command crowded_host review_request [] "review" eq_refl Hc).
Defined.

(** The overview of a workspace whose git extension throws and whose
    search rejects. *)
Lemma overview_search_rejected_witness :
  handler failing_host overview_request [] =
  ([Markdown ("# Project Management Overview" +++ nl +++ nl);
    Markdown ("## Workspace Folders" +++ nl +++ nl);
    Markdown ("- **w**: /w" +++ nl);
    ConsoleLog "Git information not available:" (Error "git is not ready");
    FindFiles "**/*.{json,ts,js,md}" "**/node_modules/**" 100;
    ConsoleError "Error getting project files:" (Error "search cancelled")] ++
   nextSteps_events,
   inr (mkChatResult "overview")).
Proof.
  exact (@overview_search_rejected failing_host overview_request []
           (Error "search cancelled") eq_refl eq_refl eq_refl).
Defined.

(** The git section of a repository whose [HEAD] has no name. *)
Lemma overview_git_section_witness :
  fst (handler bare_host overview_request []) =
  [Markdown ("# Project Management Overview" +++ nl +++ nl);
   Markdown (nl +++ "## Git Repositories" +++ nl +++ nl);
   Markdown "- **Repository**: /w";
   Markdown "  - Current Branch: Unknown"] ++
  nextSteps_events.
Proof.
  now rewrite (@overview_git_section bare_host overview_request [] eq_refl).
Defined.

(** The overview without a workspace folder makes no search. *)
Lemma overview_without_folders_witness :
  handler bare_host overview_request [] =
    ([] ++
     Markdown ("# Project Management Overview" +++ nl +++ nl) ::
     overview_git_events bare_host ++ nextSteps_events,
     inr (mkChatResult "overview")) /\
  filter is_FindFiles (fst (handler bare_host overview_request [])) = [].
Proof.
  destruct (@overview_without_folders bare_host overview_request [] eq_refl eq_refl)
    as (Hrun & Hsearch & _).
  split; [exact Hrun|]. rewrite Hrun. exact Hsearch.
Defined.

(** The files a mixed workspace refers to. *)
Lemma overview_references_witness :
  references (fst (handler mixed_host overview_request [])) =
  [mkUri "/w/package.json" "/w/package.json"; index_file 0;
   mkUri "/w/README.md" "/w/README.md"].
Proof.
  destruct (@overview_references mixed_host overview_request
              [mkUri "/w/package.json" "/w/package.json";
               mkUri "/w/README.md" "/w/README.md";
               index_file 0; plain_file 1]
              eq_refl eq_refl eq_refl) as (Href & _).
  rewrite Href. reflexivity.
Defined.

(** A path of Windows: the chat overview shows it whole, the panel shows
    the name of the file. *)
Lemma link_text_is_last_segment_witness :
  file_entry_events windows_readme =
    [Markdown ("- [" +++ fsPath windows_readme +++ "](" +++ fsPath windows_readme +++
               ")" +++ nl);
     Reference windows_readme] /\
  html_file_item_text windows_readme =
    "<li><span class=" +++ dq +++ "file-link" +++ dq +++ " onclick=" +++ dq +++
    "openFile('" +++ double_backslashes (fsPath windows_readme) +++ "')" +++ dq +++
    ">README.md</span></li>".
Proof.
  split.
  - exact (proj2 (proj2 (link_text_is_last_segment "/c:/w/README.md"))
             (fsPath windows_readme) eq_refl).
  - exact (proj1 (proj2 (link_text_is_last_segment "/c:/w/README.md"))
             ("C:" +++ String (ascii_of_nat 92) "w") (ascii_of_nat 92) "README.md"
             eq_refl eq_refl).
Defined.

(** The file that is there: one call of [writeText] with its content,
    then the information message. *)
Lemma getFileContent_notifies_once_witness :
  exists w',
    getFileContent (mkPmWorld sample_fs_output "old text" None []) = (w', inr tt) /\
    pm_fs w' = sample_fs_output /\
    clipboard w' = "combined" /\
    pm_log w' =
      [ClipboardWriteText "combined";
       ShowInformationMessage
         "Content from X:/CombinedOutput.txt has been copied to clipboard"].
Proof.
  destruct (@getFileContent_notifies_once SimFs SimFs_FileSystem
              (mkPmWorld sample_fs_output "old text" None []))
    as (w' & calls & note & Hrun & Hfs & Hlog & _ & _ & _ & Hnote).
  exists w'. split; [exact Hrun|]. split; [exact Hfs|].
  assert (note = ShowInformationMessage
                   "Content from X:/CombinedOutput.txt has been copied to clipboard")
    as Hinfo.
  { vm_compute in Hrun. injection Hrun as <-. simpl in Hlog.
    destruct calls as [|c [|c' calls]]; simpl in Hlog.
    - discriminate Hlog.
    - now injection Hlog as _ <-.
    - destruct calls; discriminate Hlog. }
  destruct (Hnote _ Hinfo) as [Hread Hcalls].
  assert (inr "combined" = inr (A := Exn) (clipboard w')) as Hclip
    by exact Hread.
  injection Hclip as Hclip.
  rewrite Hlog, Hcalls, Hinfo, <- Hclip. split; reflexivity.
Defined.

(** The page of a workspace without folders, and of one whose search
    rejects. *)
Lemma panel_without_files_witness :
  snd (getProjectOverviewHtml bare_host (mkHtmlState "old page" [])) =
    inr (html_head +++ html_git_text bare_host +++ html_nextSteps +++ html_tail) /\
  In (ConsoleError "Error getting project files:" (Error "search cancelled"))
     (html_log (fst (getProjectOverviewHtml failing_host (mkHtmlState "old page" [])))).
Proof.
  split.
  - now rewrite (proj1 (panel_without_files bare_host (mkHtmlState "old page" []))
                   eq_refl).
  - exact (proj2 (proj2 (panel_without_files failing_host (mkHtmlState "old page" []))
                    (Error "search cancelled") eq_refl eq_refl)).
Defined.

(** Opening the sample file, and a file that is not there. *)
Lemma openFile_outcomes_witness :
  openFile sample_editor "/w/project_management/notes.txt"
    (mkPanelWorld (mkPmWorld sample_fs "old text" None []) []) =
    (mkPanelWorld (mkPmWorld sample_fs "old text" None [])
       ["/w/project_management/notes.txt"],
     inr tt) /\
  openFile sample_editor "/w/nowhere.txt"
    (mkPanelWorld (mkPmWorld sample_fs "old text" None []) []) =
    (mkPanelWorld
       (mkPmWorld sample_fs "old text" None
          [ShowErrorMessage "Failed to open file: /w/nowhere.txt"])
       [],
     inr tt).
Proof.
  split.
  - exact (proj1 (@openFile_outcomes SimFs sample_editor
                    "/w/project_management/notes.txt"
                    (mkPanelWorld (mkPmWorld sample_fs "old text" None []) []))
             "/w/project_management/notes.txt" eq_refl eq_refl).
  - refine (proj2 (@openFile_outcomes SimFs sample_editor "/w/nowhere.txt"
                     (mkPanelWorld (mkPmWorld sample_fs "old text" None []) []))
              _).
    left. eexists. reflexivity.
Defined.

(** A message without a path and a message with an unknown command. *)
Lemma onDidReceiveMessage_frame_witness :
  onDidReceiveMessage sample_editor (mkWebviewMessage (Some "openFile") (Some EmptyString))
    (mkPanelWorld (mkPmWorld sample_fs "old text" None []) []) =
    (mkPanelWorld (mkPmWorld sample_fs "old text" None []) [], inr tt) /\
  onDidReceiveMessage sample_editor (mkWebviewMessage (Some "close") None)
    (mkPanelWorld (mkPmWorld sample_fs "old text" None []) []) =
    (mkPanelWorld (mkPmWorld sample_fs "old text" None []) [], inr tt).
Proof.
  split.
  - destruct (@onDidReceiveMessage_frame SimFs SimFs_FileSystem sample_editor
                (mkWebviewMessage (Some "openFile") (Some EmptyString))
                (mkPanelWorld (mkPmWorld sample_fs "old text" None []) []))
      as (w' & Hrun & _ & _ & _ & Hsame).
    rewrite Hrun. f_equal. apply Hsame. right. split; reflexivity.
  - destruct (@onDidReceiveMessage_frame SimFs SimFs_FileSystem sample_editor
                (mkWebviewMessage (Some "close") None)
                (mkPanelWorld (mkPmWorld sample_fs "old text" None []) []))
      as (w' & Hrun & _ & _ & _ & Hsame).
    rewrite Hrun. f_equal. apply Hsame. left. split; discriminate.
Defined.

(** Activation in the bare workspace: the folder is created. *)
Lemma activate_in_workspace_witness :
  exists w',
    activate sample_registration (ret tt) (ret tt) (ret tt) sample_dirname
      (fun _ => inr tt) "/opt/extensions/chat-sample" sample_workspace
      (sample_extension_world sample_fs_bare) = (w', inr tt) /\
    subscriptions w' =
      [OtherSubscription "chat-sample.simple";
       CommandSubscription "project-manager.openProjectManager";
       CommandSubscription "project-manager.getFileContent";
       CommandSubscription "projectManagementView.refresh";
       TreeViewSubscription "projectManagementView" "/w" true] /\
    existsSync (tree_fs (ext_tree w')) "/w/project_management" = true.
Proof.
  destruct (@activate_in_workspace SimFs SimFs_FileSystem
              sample_registration (ret tt) (ret tt) (ret tt) sample_dirname
              (fun _ => inr tt) "/opt/extensions/chat-sample"
              (mkWorkspaceFolder "w" (mkUri "/w" "/w")) []
              (sample_extension_world sample_fs_bare)
              (mkExtensionWorld (mkTreeWorld sample_fs_bare [])
                 [OtherSubscription "chat-sample.simple"] [])
              eq_refl)
    as (w' & Hrun & Hsubs & _ & Htree).
  exists w'. split; [exact Hrun|]. split; [exact Hsubs|].
  rewrite Htree. reflexivity.
Defined.

(** Activation without a workspace: the parent folder is opened. *)
Lemma activate_without_workspace_witness :
  exists w',
    activate sample_registration (ret tt) (ret tt) (ret tt) sample_dirname
      (fun _ => inr tt) "/opt/extensions/chat-sample" None
      (sample_extension_world sample_fs_bare) = (w', inr tt) /\
    subscriptions w' =
      [OtherSubscription "chat-sample.simple";
       CommandSubscription "project-manager.openProjectManager";
       CommandSubscription "project-manager.getFileContent"] /\
    tree_fs (ext_tree w') = sample_fs_bare /\
    opened_folders w' = ["/opt/extensions"].
Proof.
  destruct (@activate_without_workspace SimFs SimFs_FileSystem
              sample_registration (ret tt) (ret tt) (ret tt) sample_dirname
              (fun _ => inr tt) "/opt/extensions/chat-sample" None
              (sample_extension_world sample_fs_bare)
              (mkExtensionWorld (mkTreeWorld sample_fs_bare [])
                 [OtherSubscription "chat-sample.simple"] [])
              eq_refl eq_refl)
    as (w' & Hrun & Hsubs & Hfs & Hopened & _).
  exists w'. repeat split; assumption.
Defined.

(** The first listing after the activation that created the folder. *)
Lemma getChildren_after_activate_witness :
  getChildren "/w" None
    (ext_tree
       (fst (activate sample_registration (ret tt) (ret tt) (ret tt) sample_dirname
               (fun _ => inr tt) "/opt/extensions/chat-sample" sample_workspace
               (sample_extension_world sample_fs_bare)))) =
  (ext_tree
     (fst (activate sample_registration (ret tt) (ret tt) (ret tt) sample_dirname
             (fun _ => inr tt) "/opt/extensions/chat-sample" sample_workspace
             (sample_extension_world sample_fs_bare))),
   inr []).
Proof.
  assert ("/w" <> EmptyString) as Hroot by discriminate.
  exact (proj2 (proj2 (@getChildren_after_activate SimFs SimFs_FileSystem
                         sample_registration (ret tt) (ret tt) (ret tt) sample_dirname
                         (fun _ => inr tt) SimFs_laws "/opt/extensions/chat-sample"
                         (mkWorkspaceFolder "w" (mkUri "/w" "/w")) []
                         (sample_extension_world sample_fs_bare)
                         (mkExtensionWorld (mkTreeWorld sample_fs_bare [])
                            [OtherSubscription "chat-sample.simple"] [])
                         eq_refl Hroot)
                  _ eq_refl eq_refl)).
Defined.
